(** * Order tracking tool: relative dates, free-text scoring and resolution

    A shallow embedding of
    [docs/agentcore-workshop/prerequisite/lambda/python/track_order.py]
    ([parse_relative_date], [search_orders_by_natural_query], [track_order])
    and of its caller [lambda_function.py] ([get_named_parameter],
    [lambda_handler]), together with the properties stated about them.

    Conventions.
    - A Python [str] is a [string]; a character is read as the code point
      of the same number (0..255), and the character classes below are
      Python's on that range.
    - A Python exception is [Raise msg], [msg] being [str(e)].
    - Where the library's behaviour depends on the interpreter and the
      platform, it is that of CPython 3.11 with the GNU C library: [int]
      limits the number of digits it converts, and [strftime] writes the
      year without padding.
    - The outside world (clock, parameter store, order table) is a value
      [World] that the code reads; every read is recorded as an [Event]. *)

From Stdlib Require Import ZArith List Bool Ascii String Lia Arith.
From Stdlib Require Import DecimalString DecimalZ DecimalPos.
From Stdlib Require Import Sorting.Sorted Sorting.Permutation.
Import ListNotations.

Open Scope string_scope.
Open Scope Z_scope.

(* ================================================================== *)
(** ** Exceptions                                                      *)
(* ================================================================== *)

Inductive result (A : Type) :=
| Ok (a : A)
| Raise (msg : string).
Arguments Ok {A} a.
Arguments Raise {A} msg.

(* ================================================================== *)
(** ** Characters and the [str] methods the tool uses                  *)
(* ================================================================== *)

Module Str.

Definition code (c : ascii) : nat := nat_of_ascii c.

(** [str.isspace] on one character, which is also what [\s] matches. *)
Definition isspace (c : ascii) : bool :=
  let n := code c in
  ((9 <=? n) && (n <=? 13) || (28 <=? n) && (n <=? 32)
   || (n =? 133) || (n =? 160))%nat.

(** What [\d] matches: a decimal digit. *)
Definition isdigit (c : ascii) : bool :=
  let n := code c in ((48 <=? n) && (n <=? 57))%nat.

Definition lower_char (c : ascii) : ascii :=
  let n := code c in
  if ((65 <=? n) && (n <=? 90)
      || (192 <=? n) && (n <=? 222) && negb (n =? 215))%nat
  then ascii_of_nat (n + 32) else c.

(** [s.lower()] *)
Fixpoint lower (s : string) : string :=
  match s with
  | EmptyString => EmptyString
  | String c s' => String (lower_char c) (lower s')
  end.

Fixpoint lstrip (s : string) : string :=
  match s with
  | EmptyString => EmptyString
  | String c s' => if isspace c then lstrip s' else s
  end.

Fixpoint rstrip (s : string) : string :=
  match s with
  | EmptyString => EmptyString
  | String c s' =>
      match rstrip s' with
      | EmptyString => if isspace c then EmptyString else String c EmptyString
      | r => String c r
      end
  end.

(** [s.strip()] *)
Definition strip (s : string) : string := rstrip (lstrip s).

(** [s.split()]: the maximal runs of characters that are not white space. *)
Fixpoint split (s : string) : list string :=
  match s with
  | EmptyString => []
  | String c s' =>
      if isspace c then split s'
      else match s' with
           | EmptyString => [String c EmptyString]
           | String c' _ =>
               if isspace c' then String c EmptyString :: split s'
               else match split s' with
                    | w :: ws => String c w :: ws
                    | [] => [String c EmptyString]
                    end
           end
  end.

(** [s.startswith(p)], by the library's [prefix]. *)
Definition startswith (p s : string) : bool := prefix p s.

(** [sub in s]: [sub] occurs in [s] as a contiguous substring. *)
Fixpoint contains (sub s : string) : bool :=
  startswith sub s
  || match s with
     | EmptyString => false
     | String _ s' => contains sub s'
     end.

(** The rest of [s] after the prefix [p], when [s] starts with [p]. *)
Fixpoint drop_prefix (p s : string) : option string :=
  match p, s with
  | EmptyString, _ => Some s
  | String a p', String b s' =>
      if Ascii.eqb a b then drop_prefix p' s' else None
  | String _ _, EmptyString => None
  end.

Definition digit_value (c : ascii) : Z := Z.of_nat (code c) - 48.

(** The number a string of decimal digits stands for. *)
Definition int_of_digits (s : string) : Z :=
  (fix go (acc : Z) (s : string) : Z :=
     match s with
     | EmptyString => acc
     | String c s' => go (10 * acc + digit_value c) s'
     end) 0 s.

(** [str(n)] for a length or a position, and for an [int]. *)
Definition of_nat (n : nat) : string := NilZero.string_of_uint (Nat.to_uint n).

Definition of_Z (n : Z) : string := NilZero.string_of_int (Z.to_int n).

(** [int(s)] for a string of decimal digits.  A string of more than
    [sys.int_info.default_max_str_digits] digits, leading zeros counted,
    raises [ValueError]. *)
Definition int_max_str_digits : Z := 4300.

Definition int (s : string) : result Z :=
  if Z.of_nat (String.length s) >? int_max_str_digits then
    Raise ("Exceeds the limit (4300 digits) for integer string conversion: value has "
           ++ of_nat (String.length s)
           ++ " digits; use sys.set_int_max_str_digits() to increase the limit")
  else Ok (int_of_digits s).

End Str.

(* ================================================================== *)
(** ** The fragment of [re] the date patterns are written in           *)
(* ================================================================== *)

Module Re.

Inductive cls := Digit | Space.

Definition in_cls (c : cls) (a : ascii) : bool :=
  match c with
  | Digit => Str.isdigit a
  | Space => Str.isspace a
  end.

(** Literal text, [\d+] and [\s+], an optional character ([s?]),
    concatenation, and the capturing group. *)
Inductive regex :=
| Lit (s : string)
| Plus (c : cls)
| Opt (a : ascii)
| Cat (r1 r2 : regex)
| Group (r : regex).

Record match_obj := MatchObj {
  m_start : nat;
  m_end : nat;
  group1 : option string
}.

Section Matcher.
Context {A : Type}.

  (** Greedy repetition with backtracking: the longest run is tried
      first, then shorter ones. *)
Fixpoint star (c : cls) (s : string) (k : string -> option A) : option A :=
    match s with
    | String a s' =>
        if in_cls c a then
          match star c s' k with
          | Some r => Some r
          | None => k s
          end
        else k s
    | EmptyString => k s
    end.

Definition plus (c : cls) (s : string) (k : string -> option A) : option A :=
    match s with
    | String a s' => if in_cls c a then star c s' k else None
    | EmptyString => None
    end.

  (** [matches r s g k]: match [r] at the start of [s], [g] being the text
      of group 1 so far, and hand the group and the rest of the subject to
      [k]; when [k] fails the next alternative is tried. *)
Fixpoint matches (r : regex) (s : string) (g : option string)
           (k : option string -> string -> option A) : option A :=
    match r with
    | Lit l =>
        match Str.drop_prefix l s with
        | Some rest => k g rest
        | None => None
        end
    | Plus c => plus c s (k g)
    | Opt a =>
        match s with
        | String b s' =>
            if Ascii.eqb a b then
              match k g s' with
              | Some r => Some r
              | None => k g s
              end
            else k g s
        | EmptyString => k g s
        end
    | Cat r1 r2 => matches r1 s g (fun g' rest => matches r2 rest g' k)
    | Group r1 =>
        matches r1 s g
          (fun _ rest =>
             k (Some (substring 0 (String.length s - String.length rest) s))
               rest)
    end.
End Matcher.

(** A match that starts exactly at position [pos], the subject from
    there on being [s]. *)
Definition match_here (r : regex) (pos : nat) (s : string) : option match_obj :=
  matches r s None
    (fun g rest =>
       Some (MatchObj pos (pos + (String.length s - String.length rest)) g)).

Fixpoint search_from (r : regex) (pos : nat) (s : string) : option match_obj :=
  match match_here r pos s with
  | Some m => Some m
  | None =>
      match s with
      | EmptyString => None
      | String _ s' => search_from r (S pos) s'
      end
  end.

(** [re.search(pattern, s)]: the leftmost match. *)
Definition search (r : regex) (s : string) : option match_obj :=
  search_from r 0 s.

End Re.

(* ================================================================== *)
(** ** [datetime]                                                      *)
(* ================================================================== *)

Module Datetime.

(** A [datetime]: the proleptic Gregorian ordinal of its date
    (1 is 0001-01-01) and the time of day in microseconds. *)
Record datetime := mk {
  toordinal : Z;
  time_of_day : Z
}.

Definition min_ordinal : Z := 1.
Definition max_ordinal : Z := 3652059.
Definition max_delta_days : Z := 999999999.
Definition min_c_int : Z := -2147483648.
Definition max_c_int : Z := 2147483647.

(** [d.weekday()]: Monday is 0. *)
Definition weekday (d : datetime) : Z := (toordinal d + 6) mod 7.

(** [timedelta(days=n)], by its days.  The count is first converted to
    a C [int], then checked against the range of a [timedelta]; both
    failures are an [OverflowError]. *)
Definition timedelta (n : Z) : result Z :=
  if (n <? min_c_int) || (n >? max_c_int) then
    Raise "Python int too large to convert to C int"
  else if Z.abs n >? max_delta_days then
    Raise ("days=" ++ Str.of_Z n ++ "; must have magnitude <= 999999999")
  else Ok n.

(** [d - timedelta(days=n)]: the [timedelta] is built first, and the
    subtraction raises [OverflowError] for a date that leaves the years
    1..9999. *)
Definition sub_days (d : datetime) (n : Z) : result datetime :=
  match timedelta n with
  | Raise e => Raise e
  | Ok days =>
      let o := toordinal d - days in
      if (o <? min_ordinal) || (o >? max_ordinal)
      then Raise "date value out of range"
      else Ok (mk o (time_of_day d))
  end.

Definition days_before_month (m : Z) : Z :=
  match m with
  | 1 => 0 | 2 => 31 | 3 => 59 | 4 => 90 | 5 => 120 | 6 => 151
  | 7 => 181 | 8 => 212 | 9 => 243 | 10 => 273 | 11 => 304 | 12 => 334
  | _ => 0
  end.

Definition days_in_month_common (m : Z) : Z :=
  match m with
  | 2 => 28
  | 4 | 6 | 9 | 11 => 30
  | _ => 31
  end.

(** Year, month and day of an ordinal, as [datetime] computes them. *)
Definition ord2ymd (ordinal : Z) : Z * Z * Z :=
  let n := ordinal - 1 in
  let n400 := n / 146097 in
  let n := n mod 146097 in
  let year := n400 * 400 + 1 in
  let n100 := n / 36524 in
  let n := n mod 36524 in
  let n4 := n / 1461 in
  let n := n mod 1461 in
  let n1 := n / 365 in
  let n := n mod 365 in
  let year := year + n100 * 100 + n4 * 4 + n1 in
  if (n1 =? 4) || (n100 =? 4) then (year - 1, 12, 31)
  else
    let leapyear := (n1 =? 3) && (negb (n4 =? 24) || (n100 =? 3)) in
    let month := Z.shiftr (n + 50) 5 in
    let preceding :=
      days_before_month month
      + (if (month >? 2) && leapyear then 1 else 0) in
    if preceding >? n then
      let month := month - 1 in
      let preceding :=
        preceding
        - (days_in_month_common month
           + (if (month =? 2) && leapyear then 1 else 0)) in
      (year, month, n - preceding + 1)
    else (year, month, n - preceding + 1).

Definition digit (n : Z) : ascii := ascii_of_nat (48 + Z.to_nat (n mod 10)).

Definition pad2 (n : Z) : string :=
  String (digit (n / 10)) (String (digit n) EmptyString).

(** [d.strftime('%Y-%m-%d')], as the C library of the platform formats
    it: [%m] and [%d] with two digits, [%Y] as the plain number of the
    year, so that a year before 1000 has fewer than four digits. *)
Definition strftime_ymd (d : datetime) : string :=
  let '(y, m, dd) := ord2ymd (toordinal d) in
  Str.of_Z y ++ "-" ++ pad2 m ++ "-" ++ pad2 dd.

End Datetime.
Import Datetime.

(* ================================================================== *)
(** ** The world the tool reads, and the monad of its effects          *)
(* ================================================================== *)

(** An item of the order table: the attributes the tool reads by name,
    each absent or present, and the remaining attributes, which only the
    formatter of a single order looks at. *)
Record Order := mkOrder {
  order_id : option string;
  product_name : option string;
  status : option string;
  order_date : option string;
  match_score : option Z;
  other_attributes : list (string * string)
}.

(** [order['match_score'] = n] *)
Definition set_match_score (o : Order) (n : Z) : Order :=
  mkOrder (order_id o) (product_name o) (status o) (order_date o) (Some n)
          (other_attributes o).

(** The [boto3] table resource: each operation answers or raises. *)
Record Table := mkTable {
  get_item : string -> result (option Order);
  query : string -> string -> result (list Order);
  scan : result (list Order)
}.

Record World := mkWorld {
  clock : datetime;
  ssm_get_parameter : string -> result string;
  dynamodb_Table : string -> Table
}.

Inductive Event :=
| EvNow
| EvSsmGetParameter (name : string)
| EvGetItem (table key : string)
| EvQuery (table index value : string)
| EvScan (table : string)
| EvPrint (line : string).

(** A computation reads the world, leaves a trace of what it read and
    printed, and returns or raises. *)
Definition M (A : Type) : Type := World -> list Event * result A.

Definition ret {A} (a : A) : M A := fun _ => ([], Ok a).

Definition raise {A} (msg : string) : M A := fun _ => ([], Raise msg).

Definition bind {A B} (m : M A) (f : A -> M B) : M B :=
  fun w =>
    match m w with
    | (t1, Ok a) => let (t2, r) := f a w in ((t1 ++ t2)%list, r)
    | (t1, Raise e) => (t1, Raise e)
    end.

(** [try: m  except Exception as e: h e] *)
Definition try_except {A} (m : M A) (h : string -> M A) : M A :=
  fun w =>
    match m w with
    | (t1, Ok a) => (t1, Ok a)
    | (t1, Raise e) => let (t2, r) := h e w in ((t1 ++ t2)%list, r)
    end.

Definition lift {A} (r : result A) : M A := fun _ => ([], r).

Declare Scope tool_scope.
Delimit Scope tool_scope with tool.
Notation "x <- m ;; k" := (bind m (fun x => k))
  (at level 61, m at next level, right associativity) : tool_scope.
Notation "m ;;; k" := (bind m (fun _ => k))
  (at level 61, right associativity) : tool_scope.
Open Scope tool_scope.

(** [datetime.now()] *)
Definition datetime_now : M datetime := fun w => ([EvNow], Ok (clock w)).

Definition print (line : string) : M unit := fun _ => ([EvPrint line], Ok tt).

(** A handle on a table: its name and its operations. *)
Record TableHandle := mkHandle {
  table_name : string;
  table_ops : Table
}.

Definition table_get_item (t : TableHandle) (key : string) : M (option Order) :=
  fun _ => ([EvGetItem (table_name t) key], get_item (table_ops t) key).

Definition table_query (t : TableHandle) (index value : string) : M (list Order) :=
  fun _ => ([EvQuery (table_name t) index value], query (table_ops t) index value).

Definition table_scan (t : TableHandle) : M (list Order) :=
  fun _ => ([EvScan (table_name t)], scan (table_ops t)).

Definition table_name_parameter : string :=
  "/app/customersupport/dynamodb/order_tracking_table_name".

Definition get_order_tracking_table : M TableHandle :=
  try_except
    (fun w =>
       ([EvSsmGetParameter table_name_parameter],
        match ssm_get_parameter w table_name_parameter with
        | Ok name => Ok (mkHandle name (dynamodb_Table w name))
        | Raise e => Raise e
        end))
    (fun e => raise ("Failed to get order tracking table: " ++ e)).

(* ================================================================== *)
(** ** [parse_relative_date]                                           *)
(* ================================================================== *)

Definition days_of_week : list (string * Z) :=
  [("monday", 0); ("tuesday", 1); ("wednesday", 2); ("thursday", 3);
   ("friday", 4); ("saturday", 5); ("sunday", 6)].

(** [\s+<unit>s?\s+ago], what follows the number. *)
Definition ago_tail (unit : string) : Re.regex :=
  Re.Cat (Re.Plus Re.Space)
    (Re.Cat (Re.Lit unit)
       (Re.Cat (Re.Opt "s") (Re.Cat (Re.Plus Re.Space) (Re.Lit "ago")))).

(** [(\d+)\s+<unit>s?\s+ago] *)
Definition ago_pattern (unit : string) : Re.regex :=
  Re.Cat (Re.Group (Re.Plus Re.Digit)) (ago_tail unit).

(** [last\s+<what>] *)
Definition last_pattern (what : string) : Re.regex :=
  Re.Cat (Re.Lit "last") (Re.Cat (Re.Plus Re.Space) (Re.Lit what)).

Definition time_patterns : list (Re.regex * string) :=
  [(ago_pattern "day", "days");
   (ago_pattern "week", "weeks");
   (ago_pattern "month", "months");
   (Re.Lit "yesterday", "yesterday");
   (last_pattern "week", "last_week");
   (last_pattern "month", "last_month")].

(** [(today - timedelta(days=n)).strftime('%Y-%m-%d')] *)
Definition days_before (today : datetime) (n : Z) : result string :=
  match sub_days today n with
  | Ok target_date => Ok (strftime_ymd target_date)
  | Raise e => Raise e
  end.

(** The loop over [days_of_week.items()]: [None] when it runs to its end,
    otherwise what the [return] inside it gives. *)
Fixpoint weekday_loop (today : datetime) (date_string : string)
         (items : list (string * Z)) : option (result string) :=
  match items with
  | [] => None
  | (day_name, day_num) :: items' =>
      if Str.contains ("last " ++ day_name) date_string then
        let days_back := (weekday today - day_num) mod 7 in
        let days_back := if days_back =? 0 then 7 else days_back in
        Some (days_before today days_back)
      else weekday_loop today date_string items'
  end.

(** The body run for the first pattern that matches. *)
Definition pattern_target (today : datetime) (unit : string)
           (m : Re.match_obj) : result string :=
  if String.eqb unit "yesterday" then days_before today 1
  else if String.eqb unit "last_week" then days_before today (7 * 1)
  else if String.eqb unit "last_month" then days_before today 30
  else
    match Re.group1 m with
    | None => Raise "no such group"
    | Some digits =>
        match Str.int digits with
        | Raise e => Raise e
        | Ok amount =>
            if String.eqb unit "days" then days_before today amount
            else if String.eqb unit "weeks" then days_before today (7 * amount)
            else if String.eqb unit "months" then days_before today (amount * 30)
            else Raise "cannot access local variable 'target_date'"
        end
    end.

Fixpoint pattern_loop (today : datetime) (date_string : string)
         (patterns : list (Re.regex * string)) : option (result string) :=
  match patterns with
  | [] => None
  | (pattern, unit) :: patterns' =>
      match Re.search pattern date_string with
      | Some m => Some (pattern_target today unit m)
      | None => pattern_loop today date_string patterns'
      end
  end.

(** The function after its first line, [today] being what
    [datetime.now()] returned. *)
Definition parse_relative_date_on (today : datetime) (date_string : string)
  : result (option string) :=
  let date_string := Str.strip (Str.lower date_string) in
  match weekday_loop today date_string days_of_week with
  | Some (Ok d) => Ok (Some d)
  | Some (Raise e) => Raise e
  | None =>
      match pattern_loop today date_string time_patterns with
      | Some (Ok d) => Ok (Some d)
      | Some (Raise e) => Raise e
      | None => Ok None
      end
  end.

Definition parse_relative_date (date_string : string) : M (option string) :=
  today <- datetime_now ;;
  lift (parse_relative_date_on today date_string).

Definition monday_2024_06_10 : datetime := mk 739047 45296000000.

(* ================================================================== *)
(** ** [search_orders_by_natural_query]                                *)
(* ================================================================== *)

Definition product_keywords : list string :=
  ["iphone"; "macbook"; "airpods"; "ipad"; "watch"; "tv"; "headphones";
   "laptop"; "phone"; "tablet"; "console"; "playstation"; "xbox"].

(** Truth value of an optional string: [None] and [''] are false. *)
Definition truthy (o : option string) : bool :=
  match o with
  | Some (String _ _) => true
  | _ => false
  end.

(** [order.get(name, '')] on an attribute *)
Definition get_or_empty (field : option string) : string :=
  match field with
  | Some v => v
  | None => ""
  end.

(** The loop over [product_keywords] (lines 118-120). *)
Definition keyword_score (query_lower product_name : string) (match_score : Z) : Z :=
  fold_left
    (fun match_score keyword =>
       if Str.contains keyword query_lower && Str.contains keyword product_name
       then match_score + 2 else match_score)
    product_keywords match_score.

(** [parsed_date and order.get('order_date') == parsed_date] (line 123). *)
Definition date_matches (parsed_date : option string) (order : Order) : bool :=
  match parsed_date, order_date order with
  | Some (String c d), Some od => String.eqb od (String c d)
  | _, _ => false
  end.

(** The two nested loops over the words (lines 127-133). *)
Definition word_score (query_lower product_name : string) (match_score : Z) : Z :=
  let query_words := Str.split query_lower in
  let product_words := Str.split product_name in
  fold_left
    (fun match_score query_word =>
       if (3 <? String.length query_word)%nat then
         fold_left
           (fun match_score product_word =>
              if Str.contains query_word product_word
                 || Str.contains product_word query_word
              then match_score + 1 else match_score)
           product_words match_score
       else match_score)
    query_words match_score.

(** The score one pass of the loop over [orders] computes (lines 114-133). *)
Definition order_match_score (query_lower : string) (parsed_date : option string)
           (order : Order) : Z :=
  let match_score := 0 in
  let product_name := Str.lower (get_or_empty (product_name order)) in
  let match_score := keyword_score query_lower product_name match_score in
  let match_score :=
    if date_matches parsed_date order then match_score + 3 else match_score in
  word_score query_lower product_name match_score.

(** The loop over [orders] (lines 113-137). *)
Definition matching_loop (query_lower : string) (parsed_date : option string)
           (orders : list Order) : list Order :=
  fold_left
    (fun matching_orders order =>
       let match_score := order_match_score query_lower parsed_date order in
       if match_score >? 0
       then (matching_orders ++ [set_match_score order match_score])%list
       else matching_orders)
    orders [].

(** [l.sort(key=key, reverse=True)]: the stable sort by decreasing key.
    An element goes in front of the first element whose key is not
    greater than its own, so equal keys keep their order. *)
Section Sort.
Context {A K : Type} (ltb : K -> K -> bool) (key : A -> K).

Fixpoint insert_desc (x : A) (l : list A) : list A :=
    match l with
    | [] => [x]
    | y :: l' =>
        if ltb (key x) (key y) then y :: insert_desc x l' else x :: l
    end.

Definition sort_desc (l : list A) : list A := fold_right insert_desc [] l.
End Sort.

(** [x.get('match_score', 0)] *)
Definition score_key (x : Order) : Z :=
  match match_score x with
  | Some n => n
  | None => 0
  end.

Definition search_orders_by_natural_query
           (natural_query : string) (customer_id : option string)
  : M (list Order) :=
  table <- get_order_tracking_table ;;
  let query_lower := Str.lower natural_query in
  parsed_date <- parse_relative_date query_lower ;;
  fetched <-
    (if truthy customer_id then
       try_except
         (orders <- table_query table "customer-index" (get_or_empty customer_id) ;;
          ret (Some orders))
         (fun e => print ("Error querying by customer_id: " ++ e) ;;; ret None)
     else
       try_except
         (orders <- table_scan table ;; ret (Some orders))
         (fun e => print ("Error scanning orders: " ++ e) ;;; ret None)) ;;
  match fetched with
  | None => ret []
  | Some orders =>
      let matching_orders := matching_loop query_lower parsed_date orders in
      ret (sort_desc Z.ltb score_key matching_orders)
  end.

(* ================================================================== *)
(** ** [track_order]                                                   *)
(* ================================================================== *)

Definition nl : string := String (ascii_of_nat 10) EmptyString.

(** The bullet of line 231, U+2022, by its UTF-8 bytes. *)
Definition bullet : string :=
  String (ascii_of_nat 226) (String (ascii_of_nat 128)
    (String (ascii_of_nat 162) EmptyString)).

(** [order[name]]: a missing key raises [KeyError(name)]. *)
Definition getitem (field : option string) (name : string) : result string :=
  match field with
  | Some v => Ok v
  | None => Raise ("'" ++ name ++ "'")
  end.

(** [Order {order['order_id']} - {order['product_name']}
     (Status: {order['status']}, Date: {order['order_date']})\n] *)
Definition order_line (order : Order) : result string :=
  match getitem (order_id order) "order_id" with
  | Raise e => Raise e
  | Ok oid =>
  match getitem (product_name order) "product_name" with
  | Raise e => Raise e
  | Ok pn =>
  match getitem (status order) "status" with
  | Raise e => Raise e
  | Ok st =>
  match getitem (order_date order) "order_date" with
  | Raise e => Raise e
  | Ok od =>
      Ok ("Order " ++ oid ++ " - " ++ pn ++ " (Status: " ++ st
          ++ ", Date: " ++ od ++ ")" ++ nl)
  end end end end.

(** [for i, order in enumerate(orders, i): response += f"{i}. {line}"] *)
Fixpoint numbered_lines (i : nat) (orders : list Order) (response : string)
  : result string :=
  match orders with
  | [] => Ok response
  | order :: orders' =>
      match order_line order with
      | Raise e => Raise e
      | Ok line =>
          numbered_lines (S i) orders' (response ++ Str.of_nat i ++ ". " ++ line)
      end
  end.

(** [for order in orders: response_text += f"(bullet) {line}"] *)
Fixpoint bullet_lines (orders : list Order) (response_text : string)
  : result string :=
  match orders with
  | [] => Ok response_text
  | order :: orders' =>
      match order_line order with
      | Raise e => Raise e
      | Ok line => bullet_lines orders' (response_text ++ bullet ++ " " ++ line)
      end
  end.

(** The reply for several matches (lines 203-211). *)
Definition multiple_matches (natural_query : string) (matching_orders : list Order)
  : result string :=
  let n := List.length matching_orders in
  let response :=
    "[LEFT-POINTING MAGNIFYING GLASS] Found " ++ Str.of_nat n
    ++ " orders matching '" ++ natural_query ++ "':" ++ nl ++ nl in
  match numbered_lines 1 (firstn 5 matching_orders) response with
  | Raise e => Raise e
  | Ok response =>
      let response :=
        if (5 <? n)%nat
        then response ++ nl ++ "... and " ++ Str.of_nat (n - 5)
             ++ " more orders." ++ nl
        else response in
      Ok (response ++ nl
          ++ "Please provide a specific order ID for detailed information.")
  end.

(** [x.get('order_date', '')] *)
Definition date_key (x : Order) : string := get_or_empty (order_date x).

Section TrackOrder.

  (** [format_order_status] (lines 245-292) turns one order into the text
      shown to the customer; what that text is plays no part below, so
      the formatter is a parameter, and it may raise. *)
Variable format_order_status : Order -> result string.

Definition track_order (order_id tracking_id customer_id natural_query : option string)
    : M string :=
    try_except
      (table <- get_order_tracking_table ;;
       if truthy order_id then
         let order_id := get_or_empty order_id in
         try_except
           (response <- table_get_item table order_id ;;
            match response with
            | Some order => lift (format_order_status order)
            | None =>
                ret ("[CROSS MARK] Order " ++ order_id
                     ++ " not found. Please check the order ID and try again.")
            end)
           (fun e =>
              ret ("[CROSS MARK] Error looking up order " ++ order_id ++ ": " ++ e))
       else if truthy tracking_id then
         let tracking_id := get_or_empty tracking_id in
         try_except
           (items <- table_query table "tracking-index" tracking_id ;;
            match items with
            | order :: _ => lift (format_order_status order)
            | [] =>
                ret ("[CROSS MARK] No order found with tracking ID " ++ tracking_id
                     ++ ". Please verify the tracking number.")
            end)
           (fun e =>
              ret ("[CROSS MARK] Error looking up tracking ID " ++ tracking_id
                   ++ ": " ++ e))
       else if truthy natural_query then
         let natural_query := get_or_empty natural_query in
         matching_orders <- search_orders_by_natural_query natural_query customer_id ;;
         match matching_orders with
         | [] =>
             ret ("[CROSS MARK] No orders found matching '" ++ natural_query
                  ++ "'. Try being more specific or provide an order ID.")
         | [order] => lift (format_order_status order)
         | _ => lift (multiple_matches natural_query matching_orders)
         end
       else if truthy customer_id then
         let customer_id := get_or_empty customer_id in
         try_except
           (orders <- table_query table "customer-index" customer_id ;;
            match orders with
            | [] =>
                ret ("[CROSS MARK] No orders found for customer " ++ customer_id ++ ".")
            | _ =>
                let orders := sort_desc String.ltb date_key orders in
                let response_text :=
                  "[PACKAGE] Recent orders for customer " ++ customer_id ++ ":"
                  ++ nl ++ nl in
                response_text <- lift (bullet_lines (firstn 5 orders) response_text) ;;
                ret (response_text ++ nl
                     ++ "Provide a specific order ID for detailed tracking information.")
            end)
           (fun e =>
              ret ("[CROSS MARK] Error looking up orders for customer " ++ customer_id
                   ++ ": " ++ e))
       else
         ret "[CROSS MARK] Please provide an order ID, tracking ID, customer ID, or describe your order (e.g., 'my iPhone order from last Friday').")
      (fun e => ret ("[CROSS MARK] Error tracking order: " ++ e)).

End TrackOrder.

(* ================================================================== *)
(** ** [lambda_function.py]                                            *)
(* ================================================================== *)

(** [s.split(sep)] for a separator that is not empty: the text is cut at
    each occurrence of [sep], found from left to right.  [skip] counts the
    characters of an occurrence still to pass, [cur] is the part being
    read. *)
Fixpoint split_on (sep s : string) (skip : nat) (cur : string) : list string :=
  match s with
  | EmptyString => [cur]
  | String c s' =>
      match skip with
      | S k => split_on sep s' k cur
      | O =>
          if Str.startswith sep s
          then cur :: split_on sep s' (String.length sep - 1) EmptyString
          else split_on sep s' 0 (cur ++ String c EmptyString)
      end
  end.

Definition str_split (sep s : string) : list string := split_on sep s 0 EmptyString.

(** A dict with text keys and values, by its items. *)
Definition dict : Type := list (string * string).

(** [name in d] and [d.get(name)] *)
Definition dict_has (d : dict) (name : string) : bool :=
  existsb (fun kv => String.eqb (fst kv) name) d.

Definition dict_get (d : dict) (name : string) : option string :=
  match find (fun kv => String.eqb (fst kv) name) d with
  | Some kv => Some (snd kv)
  | None => None
  end.

Definition get_named_parameter (event : dict) (name : string) : option string :=
  if negb (dict_has event name) then None else dict_get event name.

(** The dict the handler returns. *)
Record Response := mkResponse {
  statusCode : Z;
  body : string
}.

(** The Lambda context, as far as the handler reads it. *)
Record ClientContext := mkClientContext { custom : dict }.
Record Context := mkContext { client_context : option ClientContext }.

(** [context.client_context.custom["bedrockAgentCoreToolName"]] *)
Definition tool_name_of (context : Context) : result string :=
  match client_context context with
  | None => Raise "'NoneType' object has no attribute 'custom'"
  | Some cc =>
      match dict_get (custom cc) "bedrockAgentCoreToolName" with
      | Some name => Ok name
      | None => Raise "'bedrockAgentCoreToolName'"
      end
  end.

(** [extended_tool_name.split("___")[1]] *)
Definition tool_resource (extended_tool_name : string) : result string :=
  match nth_error (str_split "___" extended_tool_name) 1 with
  | Some resource => Ok resource
  | None => Raise "list index out of range"
  end.

Section LambdaHandler.

(** The formatter of one order, as for [track_order]. *)
Variable format_order_status : Order -> result string.

(** [get_customer_profile] is imported from a module of its own: it is
    taken as a parameter, a computation that gives the text [str()] makes
    of the profile, or raises. *)
Variable get_customer_profile : string -> option string -> option string -> M string.

(** The texts [print] makes of the event and of the context object. *)
Variable repr_event : dict -> string.
Variable repr_context : Context -> string.

Definition lambda_handler (event : dict) (context : Context) : M Response :=
  print ("Event: " ++ repr_event event) ;;;
  print ("Context: " ++ repr_context context) ;;;
  extended_tool_name <- lift (tool_name_of context) ;;
  resource <- lift (tool_resource extended_tool_name) ;;
  print resource ;;;
  if String.eqb resource "get_customer_profile" then
    let customer_id := get_named_parameter event "customer_id" in
    let email := get_named_parameter event "email" in
    let phone := get_named_parameter event "phone" in
    if negb (truthy customer_id) then
      ret (mkResponse 400 "[CROSS MARK] Please provide customer_id")
    else
      called <-
        try_except
          (customer_profile <-
             get_customer_profile (get_or_empty customer_id) email phone ;;
           ret (inl customer_profile))
          (fun e =>
             print e ;;;
             ret (inr (mkResponse 400 ("[CROSS MARK] " ++ e)))) ;;
      match called with
      | inl customer_profile =>
          ret (mkResponse 200
                 ("[BUST IN SILHOUETTE] Customer Profile Information: "
                  ++ customer_profile))
      | inr response => ret response
      end
  else if String.eqb resource "track_order" then
    let order_id := get_named_parameter event "order_id" in
    let tracking_id := get_named_parameter event "tracking_id" in
    let customer_id := get_named_parameter event "customer_id" in
    let natural_query := get_named_parameter event "natural_query" in
    called <-
      try_except
        (order_status <-
           track_order format_order_status order_id tracking_id customer_id
             natural_query ;;
         ret (inl order_status))
        (fun e =>
           print e ;;;
           ret (inr (mkResponse 400 ("[CROSS MARK] " ++ e)))) ;;
    match called with
    | inl order_status => ret (mkResponse 200 order_status)
    | inr response => ret response
    end
  else
    ret (mkResponse 400 ("[CROSS MARK] Unknown toolname: " ++ resource)).

End LambdaHandler.

(* ================================================================== *)
(** ** Sample worlds                                                   *)
(* ================================================================== *)

Definition sample_order (id name date : string) : Order :=
  mkOrder (Some id) (Some name) (Some "shipped") (Some date) None [].

(** A table whose scan and queries all answer [orders]. *)
Definition sample_table (orders : list Order) : Table :=
  mkTable (fun _ => Ok None) (fun _ _ => Ok orders) (Ok orders).

Definition sample_world (now : datetime) (orders : list Order) : World :=
  mkWorld now (fun _ => Ok "orders") (fun _ => sample_table orders).

(** A world in which the table name cannot be read. *)
Definition no_parameter_world : World :=
  mkWorld monday_2024_06_10 (fun _ => Raise "ParameterNotFound")
          (fun _ => sample_table []).

(** A formatter for the samples: the order's id when it has one. *)
Definition sample_format (order : Order) : result string :=
  getitem (order_id order) "order_id".

Definition please_provide : string :=
  "[CROSS MARK] Please provide an order ID, tracking ID, customer ID, or describe your order (e.g., 'my iPhone order from last Friday').".

(** Six orders for the same product, the last one with the given id. *)
Definition six_iphones (last_id : string) : list Order :=
  [sample_order "1" "iPhone" "2024-06-01"; sample_order "2" "iPhone" "2024-06-01";
   sample_order "3" "iPhone" "2024-06-01"; sample_order "4" "iPhone" "2024-06-01";
   sample_order "5" "iPhone" "2024-06-01"; sample_order last_id "iPhone" "2024-06-01"].

Definition mixed_orders : list Order :=
  [sample_order "1" "iPhone 15 Pro" "2024-06-01";
   sample_order "2" "iPhone 15 Pro" "2024-06-07";
   sample_order "3" "MacBook Air" "2024-06-07";
   sample_order "4" "Socks" "2024-06-01";
   sample_order "5" "iphone iphone iphone a" "2024-06-01"].

(** A world whose table answers every operation with the same error. *)
Definition failing_table_world (e : string) : World :=
  mkWorld monday_2024_06_10 (fun _ => Ok "orders")
          (fun _ => mkTable (fun _ => Raise e) (fun _ _ => Raise e) (Raise e)).

(** Two orders for the same product, the second without [status]. *)
Definition orders_without_status : list Order :=
  [sample_order "1" "iPhone" "2024-06-01";
   mkOrder (Some "2") (Some "iPhone") None (Some "2024-06-01") None []].

Definition tuesday_2024_06_11 : datetime := mk 739048 45296000000.

(** The number 3 written with 4301 digits. *)
Fixpoint zeros (count : nat) : string :=
  match count with
  | O => EmptyString
  | S count' => String "0" (zeros count')
  end.

Definition padded_three : string := zeros 4300 ++ "3".

(* ================================================================== *)
(** ** Vocabulary of the statements                                    *)
(* ================================================================== *)

(** A [datetime] that exists: its date lies in the years 1..9999. *)
Definition valid_datetime (d : datetime) : Prop :=
  min_ordinal <= toordinal d <= max_ordinal.

(** The day count line 35-37 computes for a weekday number. *)
Definition days_back (today : datetime) (day_num : Z) : Z :=
  let d := (weekday today - day_num) mod 7 in
  if d =? 0 then 7 else d.

(** The date [n] days before [d], by its ordinal. *)
Definition minus_days (d : datetime) (n : Z) : datetime :=
  mk (toordinal d - n) (time_of_day d).

(** What the outermost [except] of [track_order] makes of a result. *)
Definition tracking_reply (r : result string) : string :=
  match r with
  | Ok text => text
  | Raise e => "[CROSS MARK] Error tracking order: " ++ e
  end.

(** What [get_order_tracking_table] returns or raises in a world. *)
Definition table_handle (w : World) : result TableHandle :=
  match ssm_get_parameter w table_name_parameter with
  | Ok name => Ok (mkHandle name (dynamodb_Table w name))
  | Raise e => Raise ("Failed to get order tracking table: " ++ e)
  end.

(** The text of the [order_id] branch (lines 164-172), by what
    [get_item] answered. *)
Definition order_id_reply (format_order_status : Order -> result string)
           (order_id : string) (response : result (option Order)) : string :=
  match response with
  | Ok (Some order) =>
      match format_order_status order with
      | Ok text => text
      | Raise e => "[CROSS MARK] Error looking up order " ++ order_id ++ ": " ++ e
      end
  | Ok None =>
      "[CROSS MARK] Order " ++ order_id
      ++ " not found. Please check the order ID and try again."
  | Raise e => "[CROSS MARK] Error looking up order " ++ order_id ++ ": " ++ e
  end.

(** The candidates of a free-text search (lines 91-110): the customer's
    orders when [customer_id] is given, the whole table otherwise. *)
Definition fetch_orders (table : TableHandle) (customer_id : option string)
  : result (list Order) :=
  if truthy customer_id
  then query (table_ops table) "customer-index" (get_or_empty customer_id)
  else scan (table_ops table).

Definition fetch_event (table : TableHandle) (customer_id : option string) : Event :=
  if truthy customer_id
  then EvQuery (table_name table) "customer-index" (get_or_empty customer_id)
  else EvScan (table_name table).

Definition fetch_error (customer_id : option string) (e : string) : string :=
  if truthy customer_id
  then "Error querying by customer_id: " ++ e
  else "Error scanning orders: " ++ e.

(** An order with its score written into it (line 136). *)
Definition scored (query_lower : string) (parsed_date : option string)
           (order : Order) : Order :=
  set_match_score order (order_match_score query_lower parsed_date order).

(** The candidates that score above 0, in the order they were fetched. *)
Definition positive (query_lower : string) (parsed_date : option string)
           (orders : list Order) : list Order :=
  filter (fun o => order_match_score query_lower parsed_date o >? 0) orders.

(** The text for no match (line 196). *)
Definition no_orders_found (natural_query : string) : string :=
  "[CROSS MARK] No orders found matching '" ++ natural_query
  ++ "'. Try being more specific or provide an order ID.".

(** [a] may stand before [b] in a list sorted by decreasing key. *)
Definition ranked_before {A : Type} (key : A -> Z) (a b : A) : Prop :=
  key b <= key a.

(** The text of the [tracking_id] branch (lines 176-189), by what the
    index query answered. *)
Definition tracking_id_reply (format_order_status : Order -> result string)
           (tracking_id : string) (response : result (list Order)) : string :=
  let failed e :=
    "[CROSS MARK] Error looking up tracking ID " ++ tracking_id ++ ": " ++ e in
  match response with
  | Ok (order :: _) =>
      match format_order_status order with
      | Ok text => text
      | Raise e => failed e
      end
  | Ok [] =>
      "[CROSS MARK] No order found with tracking ID " ++ tracking_id
      ++ ". Please verify the tracking number."
  | Raise e => failed e
  end.

(** The text of the [customer_id] branch (lines 215-237). *)
Definition customer_reply (customer_id : string) (response : result (list Order))
  : string :=
  let failed e :=
    "[CROSS MARK] Error looking up orders for customer " ++ customer_id
    ++ ": " ++ e in
  match response with
  | Ok [] => "[CROSS MARK] No orders found for customer " ++ customer_id ++ "."
  | Ok orders =>
      match bullet_lines (firstn 5 (sort_desc String.ltb date_key orders))
              ("[PACKAGE] Recent orders for customer " ++ customer_id ++ ":"
               ++ nl ++ nl) with
      | Ok response_text =>
          response_text ++ nl
          ++ "Provide a specific order ID for detailed tracking information."
      | Raise e => failed e
      end
  | Raise e => failed e
  end.

(** The text of the free-text branch (lines 193-211), by what the search
    returned. *)
Definition free_text_reply (format_order_status : Order -> result string)
           (natural_query : string) (matching_orders : list Order) : result string :=
  match matching_orders with
  | [] => Ok (no_orders_found natural_query)
  | [order] => format_order_status order
  | _ => multiple_matches natural_query matching_orders
  end.

(** The first pattern of the list that occurs in the text, with its
    match: what the loop of lines 51-53 stops at. *)
Fixpoint first_pattern (date_string : string) (patterns : list (Re.regex * string))
  : option (string * Re.match_obj) :=
  match patterns with
  | [] => None
  | (pattern, unit) :: patterns' =>
      match Re.search pattern date_string with
      | Some m => Some (unit, m)
      | None => first_pattern date_string patterns'
      end
  end.

(** No ["last <weekday>"] occurs in the text. *)
Definition no_weekday_phrase (date_string : string) : bool :=
  forallb (fun it => negb (Str.contains ("last " ++ fst it) date_string))
          days_of_week.

(** The orders a free-text search scores: what the store returned, and
    nothing when it failed (lines 100-102 and 108-110). *)
Definition candidates (table : TableHandle) (customer_id : option string)
  : list Order :=
  match fetch_orders table customer_id with
  | Ok orders => orders
  | Raise _ => []
  end.

(** The ranked list the search returns for given candidates. *)
Definition ranked (query_lower : string) (parsed_date : option string)
           (orders : list Order) : list Order :=
  sort_desc Z.ltb score_key
    (map (scored query_lower parsed_date) (positive query_lower parsed_date orders)).

(** A text without white space: one word. *)
Fixpoint no_space (s : string) : bool :=
  match s with
  | EmptyString => true
  | String c s' => negb (Str.isspace c) && no_space s'
  end.

(** What one query word adds over the words of a product name. *)
Definition word_step (product_words : list string) (query_word : string)
           (match_score : Z) : Z :=
  if (3 <? String.length query_word)%nat then
    fold_left
      (fun match_score product_word =>
         if Str.contains query_word product_word
            || Str.contains product_word query_word
         then match_score + 1 else match_score)
      product_words match_score
  else match_score.

(** The first, the last character of a text is not white space. *)
Definition first_nonspace (s : string) : bool :=
  match s with
  | EmptyString => false
  | String c _ => negb (Str.isspace c)
  end.

Fixpoint last_nonspace (s : string) : bool :=
  match s with
  | EmptyString => false
  | String c EmptyString => negb (Str.isspace c)
  | String _ s' => last_nonspace s'
  end.

(** A text of digits only; a text without any digit. *)
Fixpoint all_digits (s : string) : bool :=
  match s with
  | EmptyString => true
  | String c s' => Str.isdigit c && all_digits s'
  end.

Fixpoint no_digit (s : string) : bool :=
  match s with
  | EmptyString => true
  | String c s' => negb (Str.isdigit c) && no_digit s'
  end.

(** A text that is empty or starts with a character that is no digit. *)
Definition head_nondigit (s : string) : bool :=
  match s with
  | EmptyString => true
  | String c _ => negb (Str.isdigit c)
  end.

(** The spellings of the units of the "ago" forms, each with the name
    the pattern list gives its pattern. *)
Definition ago_units : list (string * string) :=
  [("day", "days"); ("days", "days"); ("week", "weeks"); ("weeks", "weeks");
   ("month", "months"); ("months", "months")].

(** A loop that adds to a running score: [for x in l: acc = step x acc]. *)
Definition run {X : Type} (step : X -> Z -> Z) (l : list X) (acc : Z) : Z :=
  fold_left (fun acc x => step x acc) l acc.

(** The inverse of [ord2ymd], as [datetime] computes it: leap years, the
    days before a year, and the ordinal of a date. *)
Definition is_leap (y : Z) : bool :=
  (y mod 4 =? 0) && (negb (y mod 100 =? 0) || (y mod 400 =? 0)).
Definition days_before_year (y : Z) : Z :=
  let y := y - 1 in y * 365 + y / 4 - y / 100 + y / 400.
Definition ymd2ord (y m d : Z) : Z :=
  days_before_year y
  + (days_before_month m + (if (m >? 2) && is_leap y then 1 else 0)) + d.

(** [ord2ymd] after its first step: the date of day [n] of the 400-year
    cycle number [n400]. *)
Definition cycle_ymd (n400 n : Z) : Z * Z * Z :=
  let year := n400 * 400 + 1 in
  let n100 := n / 36524 in
  let n := n mod 36524 in
  let n4 := n / 1461 in
  let n := n mod 1461 in
  let n1 := n / 365 in
  let n := n mod 365 in
  let year := year + n100 * 100 + n4 * 4 + n1 in
  if (n1 =? 4) || (n100 =? 4) then (year - 1, 12, 31)
  else
    let leapyear := (n1 =? 3) && (negb (n4 =? 24) || (n100 =? 3)) in
    let month := Z.shiftr (n + 50) 5 in
    let preceding :=
      days_before_month month
      + (if (month >? 2) && leapyear then 1 else 0) in
    if preceding >? n then
      let month := month - 1 in
      let preceding :=
        preceding
        - (days_in_month_common month
           + (if (month =? 2) && leapyear then 1 else 0)) in
      (year, month, n - preceding + 1)
    else (year, month, n - preceding + 1).

(** [P] holds of [count] numbers from [start] on. *)
Fixpoint all_from (P : Z -> bool) (start : Z) (count : nat) : bool :=
  match count with
  | O => true
  | S count' => P start && all_from P (start + 1) count'
  end.

(** Day [r] of a cycle has a date in range that gives [r] back. *)
Definition cycle_day_ok (r : Z) : bool :=
  let '(y, m, d) := cycle_ymd 0 r in
  (1 <=? y) && (y <=? 400) && (1 <=? m) && (m <=? 12) && (1 <=? d) && (d <=? 31)
  && (ymd2ord y m d =? r + 1).

(** The year of a [datetime], and the check that the text of a year has
    four digits from the year 1000 on and fewer before. *)
Definition year (d : datetime) : Z := fst (fst (ord2ymd (toordinal d))).

Definition year_text_ok (y : Z) : bool :=
  let l := String.length (Str.of_Z y) in
  if 1000 <=? y then (l =? 4)%nat else (l <? 4)%nat.

(** The text the parser works on (line 25), and the parser on such a
    text. *)
Definition normal (text : string) : string := Str.strip (Str.lower text).

Definition read (today : datetime) (s : string) : result (option string) :=
  match weekday_loop today s days_of_week with
  | Some (Ok d) => Ok (Some d)
  | Some (Raise e) => Raise e
  | None =>
      match pattern_loop today s time_patterns with
      | Some (Ok d) => Ok (Some d)
      | Some (Raise e) => Raise e
      | None => Ok None
      end
  end.

(** The texts a pattern matches: a literal matches itself, [\d+] and
    [\s+] a run of their characters that is not empty, [a?] the character
    or nothing, and a concatenation a text of the first part followed by
    one of the second. *)
Fixpoint all_in (c : Re.cls) (s : string) : bool :=
  match s with
  | EmptyString => true
  | String a s' => Re.in_cls c a && all_in c s'
  end.

Fixpoint lang (r : Re.regex) (u : string) : Prop :=
  match r with
  | Re.Lit l => u = l
  | Re.Plus c => u <> "" /\ all_in c u = true
  | Re.Opt a => u = "" \/ u = String a ""
  | Re.Cat r1 r2 => exists u1 u2, u = u1 ++ u2 /\ lang r1 u1 /\ lang r2 u2
  | Re.Group r1 => lang r1 u
  end.

(** The forms of phrase the parser knows, in the order in which it looks
    for them: the weekday phrases in the order of the table, then the
    patterns in the order of their list.  A weekday phrase is looked for
    by [in], which finds what a search for the literal finds. *)
Definition phrase_forms : list Re.regex :=
  (map (fun it => Re.Lit ("last " ++ fst it)) days_of_week
   ++ map fst time_patterns)%list.

(** The pattern is found somewhere in the text. *)
Definition found (r : Re.regex) (s : string) : bool :=
  match Re.search r s with
  | Some _ => true
  | None => false
  end.

(** None of the forms is found in the text. *)
Definition none_found (forms : list Re.regex) (s : string) : bool :=
  forallb (fun r => negb (found r s)) forms.

(** A text that is empty or ends with a character that is no digit. *)
Fixpoint ends_nondigit (s : string) : bool :=
  match s with
  | EmptyString => true
  | String c EmptyString => negb (Str.isdigit c)
  | String _ s' => ends_nondigit s'
  end.

(** The reads of the order table in a trace. *)
Definition is_table_read (ev : Event) : bool :=
  match ev with
  | EvGetItem _ _ | EvQuery _ _ _ | EvScan _ => true
  | _ => false
  end.

Definition table_reads (trace : list Event) : list Event :=
  filter is_table_read trace.

(** The character [c] does not occur in the text. *)
Fixpoint lacks (c : ascii) (s : string) : bool :=
  match s with
  | EmptyString => true
  | String a s' => negb (Ascii.eqb a c) && lacks c s'
  end.

(** The days an "ago" form goes back, by the name of its pattern
    (lines 62-67). *)
Definition ago_days (tag : string) (amount : Z) : Z :=
  if String.eqb tag "days" then amount
  else if String.eqb tag "weeks" then 7 * amount
  else amount * 30.

(** A pattern without capturing group. *)
Fixpoint group_free (r : Re.regex) : bool :=
  match r with
  | Re.Lit _ | Re.Plus _ | Re.Opt _ => true
  | Re.Cat r1 r2 => group_free r1 && group_free r2
  | Re.Group _ => false
  end.

(** A text of white space only. *)
Fixpoint all_space (s : string) : bool :=
  match s with
  | EmptyString => true
  | String c s' => Str.isspace c && all_space s'
  end.

(** An order that has the four keys a listing line reads. *)
Definition listing_complete (o : Order) : bool :=
  match order_id o, product_name o, status o, order_date o with
  | Some _, Some _, Some _, Some _ => true
  | _, _, _, _ => false
  end.

Definition listing_keys : list string :=
  ["order_id"; "product_name"; "status"; "order_date"].

(** [a] may stand before [b] in a list sorted by decreasing text key:
    the key of [b] is not greater than the key of [a]. *)
Definition not_older {A : Type} (key : A -> string) (a b : A) : Prop :=
  String.leb (key b) (key a) = true.

(* ================================================================== *)
(** ** Running the model                                               *)
(* ================================================================== *)

Example strftime_2024_06_10 :
  strftime_ymd (mk 739047 0) = "2024-06-10" /\ weekday (mk 739047 0) = 0.
Proof. split; reflexivity. Qed.

Example split_words :
  Str.split "  my iPhone   order " = ["my"; "iPhone"; "order"]
  /\ Str.strip (Str.lower "  Last FRIDAY ") = "last friday".
Proof. split; reflexivity. Qed.

Example parse_examples :
  parse_relative_date_on monday_2024_06_10 "3 days ago" = Ok (Some "2024-06-07")
  /\ parse_relative_date_on monday_2024_06_10 "2 weeks ago" = Ok (Some "2024-05-27")
  /\ parse_relative_date_on monday_2024_06_10 "1 months ago" = Ok (Some "2024-05-11")
  /\ parse_relative_date_on monday_2024_06_10 "iphone last Friday" = Ok (Some "2024-06-07")
  /\ parse_relative_date_on monday_2024_06_10 "Last  Month" = Ok (Some "2024-05-11")
  /\ parse_relative_date_on monday_2024_06_10 "last monday" = Ok (Some "2024-06-03")
  /\ parse_relative_date_on monday_2024_06_10 "sometime" = Ok None
  /\ parse_relative_date_on monday_2024_06_10 "800000 days ago"
     = Raise "date value out of range"
  /\ parse_relative_date_on monday_2024_06_10 "400000 days ago"
     = Ok (Some "929-04-12")
  /\ parse_relative_date_on monday_2024_06_10 "739046 days ago"
     = Ok (Some "1-01-01")
  /\ parse_relative_date_on monday_2024_06_10 "2147483647 days ago"
     = Raise "days=2147483647; must have magnitude <= 999999999"
  /\ parse_relative_date_on monday_2024_06_10 "2147483648 days ago"
     = Raise "Python int too large to convert to C int"
  /\ parse_relative_date_on monday_2024_06_10 "my 2 phones ordered 3 days ago"
     = Ok (Some "2024-06-07")
  /\ parse_relative_date_on monday_2024_06_10 "x13 days ago"
     = Ok (Some "2024-05-28")
  /\ parse_relative_date_on monday_2024_06_10 "1 week ago or 2 days ago"
     = Ok (Some "2024-06-08").
Proof. repeat split; vm_compute; reflexivity. Qed.

(* ================================================================== *)
(** ** The date parser                                                 *)
(* ================================================================== *)

Lemma minus_days_zero d : minus_days d 0 = d.
Proof. destruct d as [o t]. unfold minus_days. simpl. f_equal. lia. Qed.

(** A [timedelta] of up to 999999999 days is built. *)
Lemma timedelta_ok n : 0 <= n <= max_delta_days -> timedelta n = Ok n.
Proof.
  intros Hn. unfold timedelta, max_delta_days, min_c_int, max_c_int in *.
  destruct (n <? -2147483648) eqn:E1; [lia|].
  destruct (n >? 2147483647) eqn:E2; [lia|].
  destruct (Z.abs n >? 999999999) eqn:E3; [lia|].
  reflexivity.
Qed.

(** Inside the supported range a subtraction returns. *)
Lemma sub_days_ok d n :
  0 <= n <= max_delta_days ->
  min_ordinal + n <= toordinal d <= max_ordinal ->
  sub_days d n = Ok (minus_days d n).
Proof.
  intros Hn Hd. unfold sub_days. rewrite (timedelta_ok n Hn).
  unfold minus_days, min_ordinal, max_ordinal in *.
  destruct (toordinal d - n <? 1) eqn:E2; [lia|].
  destruct (toordinal d - n >? 3652059) eqn:E3; [lia|].
  reflexivity.
Qed.

Lemma days_before_ok d n :
  0 <= n <= max_delta_days ->
  min_ordinal + n <= toordinal d <= max_ordinal ->
  days_before d n = Ok (strftime_ymd (minus_days d n)).
Proof. intros Hn Hd. unfold days_before. now rewrite sub_days_ok. Qed.

(** Only the date of [today] matters, not its time of day. *)
Lemma days_before_date d1 d2 n :
  toordinal d1 = toordinal d2 -> days_before d1 n = days_before d2 n.
Proof.
  intros H. unfold days_before, sub_days. rewrite H.
  destruct (timedelta n) as [days|e]; [|reflexivity].
  destruct ((toordinal d2 - days <? min_ordinal)
            || (toordinal d2 - days >? max_ordinal));
    reflexivity.
Qed.

Lemma weekday_date d1 d2 : toordinal d1 = toordinal d2 -> weekday d1 = weekday d2.
Proof. unfold weekday. now intros ->. Qed.

Lemma weekday_loop_date d1 d2 s items :
  toordinal d1 = toordinal d2 -> weekday_loop d1 s items = weekday_loop d2 s items.
Proof.
  intros H. induction items as [|[day_name day_num] items IH]; simpl; [reflexivity|].
  rewrite IH, (weekday_date d1 d2 H), (days_before_date d1 d2 _ H). reflexivity.
Qed.

Lemma pattern_target_date d1 d2 unit m :
  toordinal d1 = toordinal d2 -> pattern_target d1 unit m = pattern_target d2 unit m.
Proof.
  intros H. unfold pattern_target.
  destruct (Re.group1 m) as [digits|]; [destruct (Str.int digits)|];
    repeat rewrite (days_before_date d1 d2 _ H); reflexivity.
Qed.

Lemma pattern_loop_date d1 d2 s ps :
  toordinal d1 = toordinal d2 -> pattern_loop d1 s ps = pattern_loop d2 s ps.
Proof.
  intros H. induction ps as [|[p u] ps IH]; simpl; [reflexivity|].
  rewrite IH. destruct (Re.search p s) as [m|]; [|reflexivity].
  now rewrite (pattern_target_date d1 d2 u m H).
Qed.

Lemma parse_relative_date_on_date d1 d2 s :
  toordinal d1 = toordinal d2 ->
  parse_relative_date_on d1 s = parse_relative_date_on d2 s.
Proof.
  intros H. unfold parse_relative_date_on.
  now rewrite (weekday_loop_date d1 d2 _ _ H), (pattern_loop_date d1 d2 _ _ H).
Qed.

(** The weekday loop, by the first weekday whose phrase occurs. *)
Lemma weekday_loop_miss today s items :
  forallb (fun it => negb (Str.contains ("last " ++ fst it) s)) items = true ->
  weekday_loop today s items = None.
Proof.
  induction items as [|[day_name day_num] items IH]; simpl; [reflexivity|].
  intros H. apply andb_true_iff in H as [H1 H2].
  apply negb_true_iff in H1. rewrite H1. auto.
Qed.

Lemma weekday_loop_hit today s before day_name day_num after :
  forallb (fun it => negb (Str.contains ("last " ++ fst it) s)) before = true ->
  Str.contains ("last " ++ day_name) s = true ->
  weekday_loop today s (before ++ (day_name, day_num) :: after)
  = Some (days_before today (days_back today day_num)).
Proof.
  induction before as [|[n d] before IH]; simpl; intros H1 H2.
  - rewrite H2. reflexivity.
  - apply andb_true_iff in H1 as [H1 H3]. apply negb_true_iff in H1.
    rewrite H1. auto.
Qed.

Lemma pattern_loop_hit today s p u ps m :
  Re.search p s = Some m ->
  pattern_loop today s ((p, u) :: ps) = Some (pattern_target today u m).
Proof. intros H. simpl. now rewrite H. Qed.

Lemma pattern_loop_miss today s p u ps :
  Re.search p s = None ->
  pattern_loop today s ((p, u) :: ps) = pattern_loop today s ps.
Proof. intros H. simpl. now rewrite H. Qed.

Lemma weekday_loop_find today s items :
  weekday_loop today s items
  = match find (fun it => Str.contains ("last " ++ fst it) s) items with
    | Some (_, day_num) => Some (days_before today (days_back today day_num))
    | None => None
    end.
Proof.
  induction items as [|[day_name day_num] items IH];
    cbn [weekday_loop find fst]; [reflexivity|].
  destruct (Str.contains ("last " ++ day_name) s); [reflexivity | exact IH].
Qed.

Lemma days_back_range today day_num : 1 <= days_back today day_num <= 7.
Proof.
  unfold days_back.
  destruct ((weekday today - day_num) mod 7 =? 0) eqn:E; [lia|].
  apply Z.eqb_neq in E.
  pose proof (Z.mod_pos_bound (weekday today - day_num) 7). lia.
Qed.

Lemma weekday_minus_days_back today day_num :
  0 <= day_num < 7 ->
  weekday (minus_days today (days_back today day_num)) = day_num.
Proof.
  intros Hn. unfold days_back, weekday, minus_days. simpl.
  destruct (((toordinal today + 6) mod 7 - day_num) mod 7 =? 0) eqn:E.
  - apply Z.eqb_eq in E. Z.div_mod_to_equations. lia.
  - apply Z.eqb_neq in E. Z.div_mod_to_equations. lia.
Qed.

Lemma days_back_seven today day_num :
  0 <= day_num < 7 ->
  (days_back today day_num mod 7 = 0 <-> weekday today = day_num).
Proof.
  intros Hn. unfold days_back, weekday.
  destruct (((toordinal today + 6) mod 7 - day_num) mod 7 =? 0) eqn:E.
  - apply Z.eqb_eq in E. split; intros _; [|reflexivity].
    Z.div_mod_to_equations. lia.
  - apply Z.eqb_neq in E. split; intros H.
    + rewrite Z.mod_mod in H by lia. contradiction.
    + exfalso. apply E. rewrite H, Z.sub_diag. reflexivity.
Qed.

Lemma day_num_range day_name day_num :
  In (day_name, day_num) days_of_week -> 0 <= day_num < 7.
Proof.
  unfold days_of_week. simpl.
  intros H; repeat (destruct H as [H|H]; [inversion H; lia|]); contradiction.
Qed.

(** A text made of one weekday phrase is read as that weekday. *)
Lemma parse_last_weekday_alone today day_name day_num :
  In (day_name, day_num) days_of_week ->
  parse_relative_date_on today ("last " ++ day_name)
  = match days_before today (days_back today day_num) with
    | Ok d => Ok (Some d)
    | Raise e => Raise e
    end.
Proof.
  unfold days_of_week. simpl.
  intros H;
    repeat (destruct H as [H|H];
            [inversion H; subst; unfold parse_relative_date_on;
             rewrite weekday_loop_find; reflexivity|]).
  contradiction.
Qed.

Lemma pattern_loop_first today s ps :
  pattern_loop today s ps
  = match first_pattern s ps with
    | Some (unit, m) => Some (pattern_target today unit m)
    | None => None
    end.
Proof.
  induction ps as [|[p u] ps IH]; cbn [pattern_loop first_pattern];
    [reflexivity|].
  destruct (Re.search p s); [reflexivity | exact IH].
Qed.

Lemma no_weekday_phrase_loop today s :
  no_weekday_phrase s = true -> weekday_loop today s days_of_week = None.
Proof. apply weekday_loop_miss. Qed.

(** A text without weekday phrase is read by its first pattern. *)
Lemma parse_by_pattern today s unit m :
  no_weekday_phrase (Str.strip (Str.lower s)) = true ->
  first_pattern (Str.strip (Str.lower s)) time_patterns = Some (unit, m) ->
  parse_relative_date_on today s
  = match pattern_target today unit m with
    | Ok d => Ok (Some d)
    | Raise e => Raise e
    end.
Proof.
  intros Hw Hp. unfold parse_relative_date_on.
  now rewrite (no_weekday_phrase_loop _ _ Hw), pattern_loop_first, Hp.
Qed.

(** [int] converts a string of up to 4300 digits, and no longer one. *)
Lemma int_ok digits :
  Z.of_nat (String.length digits) <= Str.int_max_str_digits ->
  Str.int digits = Ok (Str.int_of_digits digits).
Proof.
  intros H. unfold Str.int.
  destruct (Z.of_nat (String.length digits) >? Str.int_max_str_digits) eqn:E;
    [lia | reflexivity].
Qed.

Lemma int_inv digits amount :
  Str.int digits = Ok amount ->
  amount = Str.int_of_digits digits
  /\ Z.of_nat (String.length digits) <= Str.int_max_str_digits.
Proof.
  unfold Str.int.
  destruct (Z.of_nat (String.length digits) >? Str.int_max_str_digits) eqn:E;
    [discriminate|].
  intros H. inversion H. split; [reflexivity | lia].
Qed.

Lemma pattern_target_days today m digits amount :
  Re.group1 m = Some digits -> Str.int digits = Ok amount ->
  pattern_target today "days" m = days_before today amount.
Proof. unfold pattern_target. now intros -> ->. Qed.

Lemma pattern_target_weeks today m digits amount :
  Re.group1 m = Some digits -> Str.int digits = Ok amount ->
  pattern_target today "weeks" m = days_before today (7 * amount).
Proof. unfold pattern_target. now intros -> ->. Qed.

Lemma pattern_target_months today m digits amount :
  Re.group1 m = Some digits -> Str.int digits = Ok amount ->
  pattern_target today "months" m = days_before today (amount * 30).
Proof. unfold pattern_target. now intros -> ->. Qed.

(** A count that [int] refuses is refused by the pattern's body. *)
Lemma pattern_target_int_raises today unit tag m digits e :
  In (unit, tag) ago_units ->
  Re.group1 m = Some digits -> Str.int digits = Raise e ->
  pattern_target today tag m = Raise e.
Proof.
  intros Hin Hg Hi. unfold ago_units in Hin. cbn [In] in Hin.
  unfold pattern_target. rewrite Hg, Hi.
  destruct Hin as [Hin|[Hin|[Hin|[Hin|[Hin|[Hin|[]]]]]]];
    inversion Hin; subst; reflexivity.
Qed.

(** A text whose first weekday phrase, in the order of the table, is
    that of [day_name], is read as that weekday. *)
Lemma parse_last_weekday_in today s day_name day_num :
  find (fun it => Str.contains ("last " ++ fst it) (Str.strip (Str.lower s)))
       days_of_week = Some (day_name, day_num) ->
  parse_relative_date_on today s
  = match days_before today (days_back today day_num) with
    | Ok d => Ok (Some d)
    | Raise e => Raise e
    end.
Proof.
  intros H. unfold parse_relative_date_on. now rewrite weekday_loop_find, H.
Qed.

(* ================================================================== *)
(** ** The text of a date determines the date                          *)
(* ================================================================== *)

Lemma ord2ymd_cycle n : ord2ymd n = cycle_ymd ((n - 1) / 146097) ((n - 1) mod 146097).
Proof. reflexivity. Qed.

Lemma cycle_checked : all_from cycle_day_ok 0 (Z.to_nat 146097) = true.
Proof. vm_compute. reflexivity. Qed.

Lemma cycle_ymd_shift q r :
  cycle_ymd q r = let '(y, m, d) := cycle_ymd 0 r in (y + 400 * q, m, d).
Proof.
  unfold cycle_ymd. cbv zeta.
  repeat match goal with
         | |- context [if ?c then _ else _] => destruct c
         end; f_equal; try f_equal; lia.
Qed.

Lemma all_from_spec P start count :
  all_from P start count = true ->
  forall i, start <= i < start + Z.of_nat count -> P i = true.
Proof.
  revert start. induction count as [|count IH]; intros start H i Hi; [lia|].
  cbn [all_from] in H. apply andb_true_iff in H as [H0 H].
  destruct (Z.eq_dec i start) as [->|Hne]; [exact H0|].
  apply (IH (start + 1) H). lia.
Qed.

Lemma cycle_day r :
  0 <= r < 146097 ->
  exists y m d,
    cycle_ymd 0 r = (y, m, d)
    /\ 1 <= y <= 400 /\ 1 <= m <= 12 /\ 1 <= d <= 31
    /\ ymd2ord y m d = r + 1.
Proof.
  intros Hr.
  assert (H : cycle_day_ok r = true).
  { apply (all_from_spec _ 0 (Z.to_nat 146097) cycle_checked).
    rewrite Z2Nat.id; lia. }
  unfold cycle_day_ok in H. destruct (cycle_ymd 0 r) as [[y m] d].
  exists y, m, d. rewrite !andb_true_iff in H.
  destruct H as [[[[[[H1 H2] H3] H4] H5] H6] H7].
  apply Z.leb_le in H1, H2, H3, H4, H5, H6. apply Z.eqb_eq in H7.
  repeat split; assumption.
Qed.

(** The date of an ordinal: its parts are in range, and the ordinal is
    determined by them. *)
Lemma ord2ymd_parts n :
  exists y m d,
    ord2ymd n = (y + 400 * ((n - 1) / 146097), m, d)
    /\ 1 <= y <= 400 /\ 1 <= m <= 12 /\ 1 <= d <= 31
    /\ ymd2ord y m d = (n - 1) mod 146097 + 1.
Proof.
  destruct (cycle_day ((n - 1) mod 146097)) as (y & m & d & E & Hy & Hm & Hd & Ho).
  { apply Z.mod_pos_bound. lia. }
  exists y, m, d. rewrite ord2ymd_cycle, cycle_ymd_shift, E. auto.
Qed.

Lemma ord2ymd_injective n1 n2 : ord2ymd n1 = ord2ymd n2 -> n1 = n2.
Proof.
  destruct (ord2ymd_parts n1) as (y1 & m1 & d1 & -> & Hy1 & _ & _ & Ho1).
  destruct (ord2ymd_parts n2) as (y2 & m2 & d2 & -> & Hy2 & _ & _ & Ho2).
  intros H. apply pair_equal_spec in H as [H Hd].
  apply pair_equal_spec in H as [Hy Hm]. subst m2 d2.
  pose proof (Z.div_mod (n1 - 1) 146097 ltac:(lia)) as D1.
  pose proof (Z.div_mod (n2 - 1) 146097 ltac:(lia)) as D2.
  set (q1 := (n1 - 1) / 146097) in *. set (q2 := (n2 - 1) / 146097) in *.
  set (r1 := (n1 - 1) mod 146097) in *. set (r2 := (n2 - 1) mod 146097) in *.
  assert (Hq : q1 = q2) by lia.
  assert (y1 = y2) by lia. subst y2.
  rewrite Ho1 in Ho2. lia.
Qed.

Lemma digit_injective a b : digit a = digit b -> a mod 10 = b mod 10.
Proof.
  unfold digit. intros H.
  pose proof (Z.mod_pos_bound a 10). pose proof (Z.mod_pos_bound b 10).
  apply (f_equal nat_of_ascii) in H.
  rewrite !nat_ascii_embedding in H by lia. lia.
Qed.

(** The text of a number that is not negative: digits only, and the
    number can be read back from it. *)
Lemma string_of_uint_digits d : all_digits (NilEmpty.string_of_uint d) = true.
Proof. induction d; cbn [NilEmpty.string_of_uint all_digits]; auto. Qed.

Lemma of_Z_digits y : 0 <= y -> all_digits (Str.of_Z y) = true.
Proof.
  intros Hy. unfold Str.of_Z. destruct y as [|p|p]; [reflexivity| |lia].
  cbn [Z.to_int NilZero.string_of_int]. unfold NilZero.string_of_uint.
  pose proof (DecimalPos.Unsigned.to_uint_nonnil p) as Hp.
  destruct (Pos.to_uint p) eqn:E; try contradiction;
    rewrite <- E; apply string_of_uint_digits.
Qed.

Lemma of_Z_injective a b : Str.of_Z a = Str.of_Z b -> a = b.
Proof.
  unfold Str.of_Z. intros H. apply DecimalZ.to_int_inj.
  assert (Hn : forall z, Z.to_int z <> Decimal.Pos Decimal.Nil
                         /\ Z.to_int z <> Decimal.Neg Decimal.Nil).
  { intros [|p|p]; cbn [Z.to_int]; split; try discriminate;
      intros E; inversion E as [E'];
      exact (DecimalPos.Unsigned.to_uint_nonnil p E'). }
  apply (f_equal NilZero.int_of_string) in H.
  rewrite !NilZero.isi in H by apply Hn. now inversion H.
Qed.

(** Two runs of digits that are each followed by a hyphen are the same
    run when the texts are the same. *)
Lemma digits_then_hyphen a b r1 r2 :
  all_digits a = true -> all_digits b = true ->
  a ++ String "-" r1 = b ++ String "-" r2 -> a = b /\ r1 = r2.
Proof.
  revert b. induction a as [|c a IH]; intros [|c' b] Ha Hb H; cbn [append] in H.
  - inversion H. auto.
  - inversion H; subst c'. cbn [all_digits] in Hb. discriminate.
  - inversion H; subst c. cbn [all_digits] in Ha. discriminate.
  - inversion H; subst c'. cbn [all_digits] in Ha, Hb.
    apply andb_true_iff in Ha as [_ Ha]. apply andb_true_iff in Hb as [_ Hb].
    destruct (IH b Ha Hb H2) as [-> ->]. auto.
Qed.

Lemma strftime_ymd_injective d1 d2 :
  valid_datetime d1 -> valid_datetime d2 ->
  strftime_ymd d1 = strftime_ymd d2 -> toordinal d1 = toordinal d2.
Proof.
  unfold valid_datetime, min_ordinal, max_ordinal, strftime_ymd.
  intros Hv1 Hv2.
  pose proof (ord2ymd_injective (toordinal d1) (toordinal d2)) as Hinj.
  destruct (ord2ymd_parts (toordinal d1)) as (y1 & m1 & e1 & E1 & Hy1 & Hm1 & He1 & _).
  destruct (ord2ymd_parts (toordinal d2)) as (y2 & m2 & e2 & E2 & Hy2 & Hm2 & He2 & _).
  rewrite E1, E2 in *.
  set (q1 := (toordinal d1 - 1) / 146097) in *.
  set (q2 := (toordinal d2 - 1) / 146097) in *.
  assert (0 <= q1 <= 24) by (unfold q1; Z.div_mod_to_equations; lia).
  assert (0 <= q2 <= 24) by (unfold q2; Z.div_mod_to_equations; lia).
  intros Heq. cbn [append] in Heq.
  apply digits_then_hyphen in Heq as [Hy Heq];
    [|apply of_Z_digits; lia|apply of_Z_digits; lia].
  apply of_Z_injective in Hy.
  unfold pad2 in Heq. cbn [append] in Heq.
  assert (A : digit (m1 / 10) = digit (m2 / 10) /\ digit m1 = digit m2
              /\ digit (e1 / 10) = digit (e2 / 10) /\ digit e1 = digit e2)
    by (repeat split; congruence).
  destruct A as (B1 & B2 & C1 & C2).
  apply digit_injective in B1, B2, C1, C2.
  apply Hinj. f_equal; [f_equal|]; [exact Hy| |]; Z.div_mod_to_equations; lia.
Qed.

(* ================================================================== *)
(** ** Statements about [parse_relative_date]                          *)
(* ================================================================== *)

(** C3, as the code has it.  The reference date is not an argument:
    [parse_relative_date] reads the clock (the [EvNow] of its trace), and
    the same text gives different dates on different days. *)
Lemma parse_relative_date_reads_clock :
  parse_relative_date "yesterday" (sample_world monday_2024_06_10 [])
  = ([EvNow], Ok (Some "2024-06-09"))
  /\ parse_relative_date "yesterday" (sample_world tuesday_2024_06_11 [])
     = ([EvNow], Ok (Some "2024-06-10"))
  /\ parse_relative_date "yesterday" (sample_world monday_2024_06_10 [])
     <> parse_relative_date "yesterday" (sample_world tuesday_2024_06_11 []).
Proof.
  assert (E1 : parse_relative_date "yesterday" (sample_world monday_2024_06_10 [])
               = ([EvNow], Ok (Some "2024-06-09")))
    by (vm_compute; reflexivity).
  assert (E2 : parse_relative_date "yesterday" (sample_world tuesday_2024_06_11 [])
               = ([EvNow], Ok (Some "2024-06-10")))
    by (vm_compute; reflexivity).
  rewrite E1, E2. repeat split. discriminate.
Qed.

(** C3 (amended).  The result of [parse_relative_date] is a function of
    its text and of the calendar date the clock shows when it is called:
    two calls with the same text in worlds whose clocks show the same
    date, whatever the time of day and whatever else differs, have the
    same trace and the same result. *)
Theorem parse_relative_date_same_day (text : string) (w1 w2 : World) :
  toordinal (clock w1) = toordinal (clock w2) ->
  parse_relative_date text w1 = parse_relative_date text w2.
Proof.
  intros H. unfold parse_relative_date, bind, datetime_now, lift.
  now rewrite (parse_relative_date_on_date _ _ text H).
Qed.

Lemma parse_relative_date_same_day_witness :
  parse_relative_date "two phones, 3 days ago"
    (sample_world monday_2024_06_10 [])
  = parse_relative_date "two phones, 3 days ago"
      (mkWorld (mk 739047 0) (fun _ => Raise "no parameter")
               (fun _ => sample_table [])).
Proof. apply parse_relative_date_same_day. reflexivity. Defined.

(** C6.  For every weekday name and every day on which a week can be
    subtracted, ["last <weekday>"] is the date [k] days before today with
    [1 <= k <= 7]: strictly before today (the text returned is not that
    of today's date), on that weekday, a full week back when today is
    that weekday, and a multiple of seven days back only then. *)
Theorem last_weekday_strictly_past (w : World) (day_name : string) (day_num : Z) :
  In (day_name, day_num) days_of_week ->
  min_ordinal + 7 <= toordinal (clock w) <= max_ordinal ->
  exists k,
    parse_relative_date ("last " ++ day_name) w
    = ([EvNow], Ok (Some (strftime_ymd (minus_days (clock w) k))))
    /\ 1 <= k <= 7
    /\ toordinal (minus_days (clock w) k) < toordinal (clock w)
    /\ strftime_ymd (minus_days (clock w) k) <> strftime_ymd (clock w)
    /\ weekday (minus_days (clock w) k) = day_num
    /\ (weekday (clock w) = day_num -> k = 7)
    /\ (k mod 7 = 0 <-> weekday (clock w) = day_num).
Proof.
  intros Hin Hd. exists (days_back (clock w) day_num).
  pose proof (days_back_range (clock w) day_num) as Hk.
  pose proof (day_num_range _ _ Hin) as Hn.
  split; [|split; [|split; [|split; [|split; [|split]]]]].
  - unfold parse_relative_date, bind, datetime_now, lift.
    rewrite (parse_last_weekday_alone _ _ _ Hin).
    rewrite days_before_ok; [reflexivity | unfold max_delta_days; lia | lia].
  - lia.
  - simpl. lia.
  - intros H. apply strftime_ymd_injective in H.
    + simpl in H. lia.
    + unfold valid_datetime, min_ordinal, max_ordinal in *. simpl. lia.
    + unfold valid_datetime, min_ordinal, max_ordinal in *. lia.
  - now apply weekday_minus_days_back.
  - intros H. apply (proj2 (days_back_seven _ _ Hn)) in H.
    Z.div_mod_to_equations. lia.
  - apply (days_back_seven _ _ Hn).
Qed.

Lemma last_weekday_strictly_past_witness :
  exists k,
    parse_relative_date ("last " ++ "monday") (sample_world monday_2024_06_10 [])
    = ([EvNow], Ok (Some (strftime_ymd (minus_days monday_2024_06_10 k))))
    /\ 1 <= k <= 7
    /\ toordinal (minus_days monday_2024_06_10 k) < toordinal monday_2024_06_10
    /\ strftime_ymd (minus_days monday_2024_06_10 k) <> strftime_ymd monday_2024_06_10
    /\ weekday (minus_days monday_2024_06_10 k) = 0
    /\ (weekday monday_2024_06_10 = 0 -> k = 7)
    /\ (k mod 7 = 0 <-> weekday monday_2024_06_10 = 0).
Proof.
  apply (last_weekday_strictly_past (sample_world monday_2024_06_10 [])
           "monday" 0).
  - simpl. left. reflexivity.
  - unfold min_ordinal, max_ordinal. simpl. lia.
Defined.

(** C10.  A count of zero is accepted: on every day, ["0 days ago"],
    ["0 weeks ago"] and ["0 months ago"] are recognized and give today's
    own date, so an "ago" date need not lie strictly in the past. *)
Theorem zero_ago_is_today (w : World) (text : string) :
  valid_datetime (clock w) ->
  In text ["0 days ago"; "0 weeks ago"; "0 months ago"] ->
  parse_relative_date text w = ([EvNow], Ok (Some (strftime_ymd (clock w)))).
Proof.
  unfold valid_datetime. intros Hv Hin.
  assert (H0 : days_before (clock w) 0 = Ok (strftime_ymd (clock w))).
  { rewrite days_before_ok, minus_days_zero;
      [reflexivity | unfold max_delta_days; lia | lia]. }
  unfold parse_relative_date, bind, datetime_now, lift.
  simpl in Hin.
  destruct Hin as [<-|[<-|[<-|[]]]].
  - rewrite (parse_by_pattern _ "0 days ago" "days" (Re.MatchObj 0 10 (Some "0")))
      by (vm_compute; reflexivity).
    rewrite (pattern_target_days _ _ "0" 0) by reflexivity.
    now rewrite H0.
  - rewrite (parse_by_pattern _ "0 weeks ago" "weeks" (Re.MatchObj 0 11 (Some "0")))
      by (vm_compute; reflexivity).
    rewrite (pattern_target_weeks _ _ "0" 0) by reflexivity.
    change (7 * 0) with 0. now rewrite H0.
  - rewrite (parse_by_pattern _ "0 months ago" "months" (Re.MatchObj 0 12 (Some "0")))
      by (vm_compute; reflexivity).
    rewrite (pattern_target_months _ _ "0" 0) by reflexivity.
    change (0 * 30) with 0. now rewrite H0.
Qed.

Lemma zero_ago_is_today_witness :
  parse_relative_date "0 weeks ago" (sample_world monday_2024_06_10 [])
  = ([EvNow], Ok (Some (strftime_ymd monday_2024_06_10))).
Proof.
  apply (zero_ago_is_today (sample_world monday_2024_06_10 []) "0 weeks ago").
  - unfold valid_datetime, min_ordinal, max_ordinal. simpl. lia.
  - simpl. right. left. reflexivity.
Defined.

(* ================================================================== *)
(** ** The resolver, branch by branch                                  *)
(* ================================================================== *)

Lemma get_order_tracking_table_run w :
  get_order_tracking_table w
  = ([EvSsmGetParameter table_name_parameter], table_handle w).
Proof.
  unfold get_order_tracking_table, try_except, table_handle, raise.
  destruct (ssm_get_parameter w table_name_parameter); reflexivity.
Qed.

Section Resolver.
Variable format_order_status : Order -> result string.

Lemma track_order_no_handle oid tid cid nq w e :
  ssm_get_parameter w table_name_parameter = Raise e ->
  track_order format_order_status oid tid cid nq w
  = ([EvSsmGetParameter table_name_parameter],
     Ok ("[CROSS MARK] Error tracking order: Failed to get order tracking table: " ++ e)).
Proof.
  intros H. unfold track_order, try_except, bind.
  rewrite get_order_tracking_table_run. unfold table_handle. rewrite H.
  reflexivity.
Qed.

Lemma track_order_by_order_id oid tid cid nq w name :
  truthy oid = true ->
  ssm_get_parameter w table_name_parameter = Ok name ->
  track_order format_order_status oid tid cid nq w
  = ([EvSsmGetParameter table_name_parameter; EvGetItem name (get_or_empty oid)],
     Ok (order_id_reply format_order_status (get_or_empty oid)
           (get_item (dynamodb_Table w name) (get_or_empty oid)))).
Proof.
  intros Ht H. unfold track_order, try_except, bind.
  rewrite get_order_tracking_table_run. unfold table_handle. rewrite H, Ht.
  unfold table_get_item, order_id_reply, lift, ret. simpl.
  destruct (get_item (dynamodb_Table w name) (get_or_empty oid)) as [[o|]|e];
    try reflexivity.
  destruct (format_order_status o); reflexivity.
Qed.

Lemma track_order_by_tracking_id oid tid cid nq w name :
  truthy oid = false -> truthy tid = true ->
  ssm_get_parameter w table_name_parameter = Ok name ->
  track_order format_order_status oid tid cid nq w
  = ([EvSsmGetParameter table_name_parameter;
      EvQuery name "tracking-index" (get_or_empty tid)],
     Ok (tracking_id_reply format_order_status (get_or_empty tid)
           (query (dynamodb_Table w name) "tracking-index" (get_or_empty tid)))).
Proof.
  intros Ho Ht H. unfold track_order, try_except, bind.
  rewrite get_order_tracking_table_run. unfold table_handle. rewrite H, Ho, Ht.
  unfold table_query, tracking_id_reply, lift, ret. cbn [table_ops table_name].
  destruct (query (dynamodb_Table w name) "tracking-index" (get_or_empty tid))
    as [[|o items]|e]; try reflexivity.
  destruct (format_order_status o); reflexivity.
Qed.

Lemma track_order_by_customer_id oid tid cid nq w name :
  truthy oid = false -> truthy tid = false -> truthy nq = false ->
  truthy cid = true ->
  ssm_get_parameter w table_name_parameter = Ok name ->
  track_order format_order_status oid tid cid nq w
  = ([EvSsmGetParameter table_name_parameter;
      EvQuery name "customer-index" (get_or_empty cid)],
     Ok (customer_reply (get_or_empty cid)
           (query (dynamodb_Table w name) "customer-index" (get_or_empty cid)))).
Proof.
  intros Ho Ht Hq Hc H. unfold track_order, try_except, bind.
  rewrite get_order_tracking_table_run. unfold table_handle.
  rewrite H, Ho, Ht, Hq, Hc.
  unfold table_query, customer_reply, lift, ret. cbn [table_ops table_name].
  destruct (query (dynamodb_Table w name) "customer-index" (get_or_empty cid))
    as [[|o orders]|e]; try reflexivity.
  destruct (bullet_lines _ _); reflexivity.
Qed.

Lemma track_order_by_natural_query oid tid cid nq w name :
  truthy oid = false -> truthy tid = false -> truthy nq = true ->
  ssm_get_parameter w table_name_parameter = Ok name ->
  track_order format_order_status oid tid cid nq w
  = (EvSsmGetParameter table_name_parameter
       :: fst (search_orders_by_natural_query (get_or_empty nq) cid w),
     Ok (tracking_reply
           match snd (search_orders_by_natural_query (get_or_empty nq) cid w) with
           | Ok matching_orders =>
               free_text_reply format_order_status (get_or_empty nq) matching_orders
           | Raise e => Raise e
           end)).
Proof.
  intros Ho Ht Hq H. unfold track_order, try_except, bind.
  rewrite get_order_tracking_table_run. unfold table_handle. rewrite H, Ho, Ht, Hq.
  destruct (search_orders_by_natural_query (get_or_empty nq) cid w)
    as [t [[|o [|o' l]]|e]]; unfold lift, ret, free_text_reply;
    cbn [fst snd];
    try match goal with
        | |- context [match ?r with Ok _ => _ | Raise _ => _ end] => destruct r
        end;
    rewrite ?app_nil_r; reflexivity.
Qed.

(** Every call returns: nothing is raised past [track_order]. *)
Lemma track_order_returns oid tid cid nq w :
  exists text, snd (track_order format_order_status oid tid cid nq w) = Ok text.
Proof.
  destruct (ssm_get_parameter w table_name_parameter) as [name|e] eqn:E.
  2:{ rewrite (track_order_no_handle _ _ _ _ _ _ E). eexists; reflexivity. }
  destruct (truthy oid) eqn:Ho.
  { rewrite (track_order_by_order_id _ _ _ _ _ _ Ho E). eexists; reflexivity. }
  destruct (truthy tid) eqn:Ht.
  { rewrite (track_order_by_tracking_id _ _ _ _ _ _ Ho Ht E). eexists; reflexivity. }
  destruct (truthy nq) eqn:Hq.
  { rewrite (track_order_by_natural_query _ _ _ _ _ _ Ho Ht Hq E).
    eexists; reflexivity. }
  destruct (truthy cid) eqn:Hc.
  { rewrite (track_order_by_customer_id _ _ _ _ _ _ Ho Ht Hq Hc E).
    eexists; reflexivity. }
  unfold track_order, try_except, bind.
  rewrite get_order_tracking_table_run. unfold table_handle.
  rewrite E, Ho, Ht, Hq, Hc. eexists; reflexivity.
Qed.

End Resolver.

(** C7.  When [order_id] is supplied (a non-empty string), the other
    three fields are not looked at: the call behaves as with them unset,
    it reads nothing but the table-name parameter and the item under that
    key (no clock, no scan, no index query, hence no date parsing and no
    scoring), and its reply is the one of the key lookup. *)
Theorem order_id_lookup_only
        (format_order_status : Order -> result string)
        (oid tid cid nq : option string) (w : World) :
  truthy oid = true ->
  track_order format_order_status oid tid cid nq w
  = track_order format_order_status oid None None None w
  /\ Forall (fun ev => ev = EvSsmGetParameter table_name_parameter
                       \/ exists name, ev = EvGetItem name (get_or_empty oid))
            (fst (track_order format_order_status oid tid cid nq w))
  /\ forall name,
       ssm_get_parameter w table_name_parameter = Ok name ->
       snd (track_order format_order_status oid tid cid nq w)
       = Ok (order_id_reply format_order_status (get_or_empty oid)
               (get_item (dynamodb_Table w name) (get_or_empty oid))).
Proof.
  intros Ht.
  destruct (ssm_get_parameter w table_name_parameter) as [name|e] eqn:E.
  - rewrite !(track_order_by_order_id _ oid _ _ _ w name Ht E).
    split; [reflexivity|]. split.
    + cbn [fst]. constructor; [now left|].
      constructor; [right; now exists name | constructor].
    + intros name' H. now inversion H.
  - rewrite !(track_order_no_handle _ _ _ _ _ w e E).
    split; [reflexivity|]. split.
    + cbn [fst]. constructor; [now left | constructor].
    + intros name' H. discriminate.
Qed.

Lemma order_id_lookup_only_witness :
  track_order sample_format (Some "A1") (Some "T9") (Some "c7")
    (Some "iphone last friday")
    (sample_world monday_2024_06_10 [sample_order "1" "iPhone" "2024-06-07"])
  = track_order sample_format (Some "A1") None None None
      (sample_world monday_2024_06_10 [sample_order "1" "iPhone" "2024-06-07"]).
Proof.
  apply (order_id_lookup_only sample_format (Some "A1") (Some "T9") (Some "c7")
           (Some "iphone last friday")
           (sample_world monday_2024_06_10
              [sample_order "1" "iPhone" "2024-06-07"])).
  reflexivity.
Defined.

(** C8, as the code has it.  The table handle is fetched before the
    branches are tried: where the parameter cannot be read, the empty
    query is answered with the tracking error, not with the request for
    an identifier. *)
Lemma empty_query_without_handle :
  track_order sample_format None None None None no_parameter_world
  = ([EvSsmGetParameter table_name_parameter],
     Ok "[CROSS MARK] Error tracking order: Failed to get order tracking table: ParameterNotFound")
  /\ snd (track_order sample_format None None None None no_parameter_world)
     <> Ok please_provide.
Proof. split; [reflexivity | discriminate]. Qed.

(** C8 (amended).  For the empty query (each of the four fields unset or
    the empty string) the resolver reads the table-name parameter and
    nothing else; when that read succeeds the reply is the request for an
    identifier, whatever the table holds or answers, and when it fails
    the reply is the tracking error with the failure's message. *)
Theorem empty_query_reply
        (format_order_status : Order -> result string)
        (oid tid cid nq : option string) (w : World) :
  truthy oid = false -> truthy tid = false ->
  truthy cid = false -> truthy nq = false ->
  track_order format_order_status oid tid cid nq w
  = ([EvSsmGetParameter table_name_parameter],
     Ok match ssm_get_parameter w table_name_parameter with
        | Ok _ => please_provide
        | Raise e =>
            "[CROSS MARK] Error tracking order: Failed to get order tracking table: "
            ++ e
        end).
Proof.
  intros H1 H2 H3 H4.
  destruct (ssm_get_parameter w table_name_parameter) as [name|e] eqn:E.
  - unfold track_order, try_except, bind.
    rewrite get_order_tracking_table_run. unfold table_handle.
    rewrite E, H1, H2, H3, H4. reflexivity.
  - now apply track_order_no_handle.
Qed.

Lemma empty_query_reply_witness :
  track_order sample_format None (Some "") None None
    (sample_world monday_2024_06_10 [])
  = ([EvSsmGetParameter table_name_parameter], Ok please_provide).
Proof.
  apply (empty_query_reply sample_format None (Some "") None None
           (sample_world monday_2024_06_10 [])); reflexivity.
Defined.

(* ================================================================== *)
(** ** The stable sort                                                 *)
(* ================================================================== *)

Section SortFacts.
Context {A : Type} (key : A -> Z).

Lemma insert_desc_perm x l : Permutation (insert_desc Z.ltb key x l) (x :: l).
Proof.
  induction l as [|y l IH]; simpl; [apply Permutation_refl|].
  destruct (key x <? key y).
  - eapply Permutation_trans; [apply perm_skip, IH | apply perm_swap].
  - apply Permutation_refl.
Qed.

Lemma sort_desc_perm l : Permutation (sort_desc Z.ltb key l) l.
Proof.
  induction l as [|x l IH]; simpl; [constructor|].
  eapply Permutation_trans; [apply insert_desc_perm | now apply perm_skip].
Qed.

Lemma sort_desc_length l : List.length (sort_desc Z.ltb key l) = List.length l.
Proof. apply Permutation_length, sort_desc_perm. Qed.

Lemma sort_desc_Forall (P : A -> Prop) l : Forall P l -> Forall P (sort_desc Z.ltb key l).
Proof.
  intros H. apply Forall_forall. intros x Hx.
  apply (Permutation_in _ (sort_desc_perm l)) in Hx.
  revert x Hx. now apply Forall_forall.
Qed.

Lemma insert_desc_sorted x l :
  StronglySorted (ranked_before key) l -> StronglySorted (ranked_before key) (insert_desc Z.ltb key x l).
Proof.
  induction 1 as [|y l Hs IH Hy]; simpl.
  - repeat constructor.
  - destruct (key x <? key y) eqn:E.
    + constructor; [exact IH|].
      apply Forall_forall. intros z Hz.
      apply (Permutation_in _ (insert_desc_perm x l)) in Hz.
      destruct Hz as [<-|Hz].
      * unfold ranked_before. apply Z.ltb_lt in E. lia.
      * revert z Hz. now apply Forall_forall.
    + apply Z.ltb_ge in E. constructor; [now constructor|].
      constructor; [exact E|].
      eapply Forall_impl; [|exact Hy]. unfold ranked_before. intros; lia.
Qed.

Lemma sort_desc_sorted l : StronglySorted (ranked_before key) (sort_desc Z.ltb key l).
Proof.
  induction l as [|x l IH]; simpl; [constructor | now apply insert_desc_sorted].
Qed.

(** Stability: the elements of one key come out in the order they went in. *)
Lemma insert_desc_filter n x l :
  filter (fun y => key y =? n) (insert_desc Z.ltb key x l) = filter (fun y => key y =? n) (x :: l).
Proof.
  induction l as [|y l IH]; [reflexivity|].
  cbn [insert_desc]. destruct (key x <? key y) eqn:E; [|reflexivity].
  apply Z.ltb_lt in E. cbn [filter]. rewrite IH. cbn [filter].
  destruct (key x =? n) eqn:Ex, (key y =? n) eqn:Ey; try reflexivity.
  apply Z.eqb_eq in Ex, Ey. lia.
Qed.

Lemma sort_desc_stable n l :
  filter (fun y => key y =? n) (sort_desc Z.ltb key l) = filter (fun y => key y =? n) l.
Proof.
  induction l as [|x l IH]; [reflexivity|].
  change (sort_desc Z.ltb key (x :: l))
    with (insert_desc Z.ltb key x (sort_desc Z.ltb key l)).
  rewrite insert_desc_filter. cbn [filter]. now rewrite IH.
Qed.

End SortFacts.

(* ================================================================== *)
(** ** The free-text search                                            *)
(* ================================================================== *)

Lemma matching_loop_from q parsed orders acc :
  fold_left
    (fun matching_orders order =>
       let match_score := order_match_score q parsed order in
       if match_score >? 0
       then (matching_orders ++ [set_match_score order match_score])%list
       else matching_orders)
    orders acc
  = (acc ++ map (scored q parsed) (positive q parsed orders))%list.
Proof.
  revert acc. induction orders as [|o orders IH]; intros acc; simpl.
  - now rewrite app_nil_r.
  - rewrite IH. unfold positive. cbn [filter].
    destruct (order_match_score q parsed o >? 0); [|reflexivity].
    now rewrite <- app_assoc.
Qed.

Lemma matching_loop_positive q parsed orders :
  matching_loop q parsed orders = map (scored q parsed) (positive q parsed orders).
Proof. unfold matching_loop. now rewrite matching_loop_from. Qed.

(** One run of the search, trace and result, by what the world answers. *)
Lemma search_run q cid w :
  search_orders_by_natural_query q cid w
  = match table_handle w with
    | Raise e => ([EvSsmGetParameter table_name_parameter], Raise e)
    | Ok table =>
        match parse_relative_date_on (clock w) (Str.lower q) with
        | Raise e => ([EvSsmGetParameter table_name_parameter; EvNow], Raise e)
        | Ok parsed =>
            match fetch_orders table cid with
            | Ok orders =>
                ([EvSsmGetParameter table_name_parameter; EvNow;
                  fetch_event table cid],
                 Ok (sort_desc Z.ltb score_key
                       (map (scored (Str.lower q) parsed)
                            (positive (Str.lower q) parsed orders))))
            | Raise e =>
                ([EvSsmGetParameter table_name_parameter; EvNow;
                  fetch_event table cid; EvPrint (fetch_error cid e)],
                 Ok [])
            end
        end
    end.
Proof.
  unfold search_orders_by_natural_query, bind at 1.
  rewrite get_order_tracking_table_run.
  destruct (table_handle w) as [table|e]; [|reflexivity].
  unfold bind at 1. unfold parse_relative_date, bind at 1, datetime_now, lift.
  destruct (parse_relative_date_on (clock w) (Str.lower q)) as [parsed|e];
    [|reflexivity].
  unfold fetch_orders, fetch_event, fetch_error.
  destruct (truthy cid);
    unfold bind, try_except, table_query, table_scan, print, ret;
    [destruct (query (table_ops table) "customer-index" (get_or_empty cid))
    | destruct (scan (table_ops table))];
    simpl; rewrite ?matching_loop_positive; reflexivity.
Qed.

Lemma filter_map_comm {A B} (f : B -> bool) (g : A -> B) l :
  filter f (map g l) = map g (filter (fun x => f (g x)) l).
Proof.
  induction l as [|x l IH]; simpl; [reflexivity|].
  destruct (f (g x)); simpl; now rewrite IH.
Qed.

Lemma score_key_scored q parsed o :
  score_key (scored q parsed o) = order_match_score q parsed o.
Proof. reflexivity. Qed.

Lemma positive_scores q parsed orders :
  Forall (fun o => match_score o = Some (score_key o) /\ 0 < score_key o)
         (map (scored q parsed) (positive q parsed orders)).
Proof.
  apply Forall_forall. intros o Ho.
  apply in_map_iff in Ho as (o' & <- & Ho').
  apply filter_In in Ho' as [_ Hs]. split; [reflexivity|].
  rewrite score_key_scored. lia.
Qed.

(** C5.  Every order the free-text search returns carries a score above
    0; the list is in non-increasing order of score; it holds exactly the
    fetched orders that score above 0; and the orders of one score stand
    in the order in which the scan or the index query returned them. *)
Theorem search_result_ranked (q : string) (cid : option string) (w : World)
        (l : list Order) :
  snd (search_orders_by_natural_query q cid w) = Ok l ->
  Forall (fun o => match_score o = Some (score_key o) /\ 0 < score_key o) l
  /\ StronglySorted (ranked_before score_key) l
  /\ forall table parsed orders,
       table_handle w = Ok table ->
       parse_relative_date_on (clock w) (Str.lower q) = Ok parsed ->
       fetch_orders table cid = Ok orders ->
       Permutation l (map (scored (Str.lower q) parsed)
                          (positive (Str.lower q) parsed orders))
       /\ forall n,
            filter (fun o => score_key o =? n) l
            = map (scored (Str.lower q) parsed)
                  (filter (fun o => order_match_score (Str.lower q) parsed o =? n)
                          (positive (Str.lower q) parsed orders)).
Proof.
  rewrite search_run.
  destruct (table_handle w) as [table|e]; [|discriminate].
  destruct (parse_relative_date_on (clock w) (Str.lower q)) as [parsed|e];
    [|discriminate].
  destruct (fetch_orders table cid) as [orders|e] eqn:Ef; cbn [snd]; intros H;
    inversion H; subst l; clear H.
  - split; [apply sort_desc_Forall, positive_scores|].
    split; [apply sort_desc_sorted|].
    intros table' parsed' orders' Ht Hp Hf.
    inversion Ht; inversion Hp; subst table' parsed'.
    rewrite Ef in Hf. inversion Hf; subst orders'.
    split; [apply sort_desc_perm|].
    intros n. rewrite sort_desc_stable, filter_map_comm. reflexivity.
  - split; [constructor|]. split; [constructor|].
    intros table' parsed' orders' Ht _ Hf.
    inversion Ht; subst table'. rewrite Ef in Hf. discriminate.
Qed.

Lemma search_result_ranked_witness :
  map order_id
      (match snd (search_orders_by_natural_query "iphone last Friday" None
                    (sample_world monday_2024_06_10 mixed_orders)) with
       | Ok l => l
       | Raise _ => []
       end)
  = [Some "5"; Some "2"; Some "1"; Some "3"]
  /\ StronglySorted (ranked_before score_key)
       (sort_desc Z.ltb score_key
          (map (scored "iphone last friday" (Some "2024-06-07"))
               (positive "iphone last friday" (Some "2024-06-07") mixed_orders))).
Proof.
  split; [vm_compute; reflexivity|].
  apply (search_result_ranked "iphone last Friday" None
           (sample_world monday_2024_06_10 mixed_orders)).
  vm_compute. reflexivity.
Defined.

(* ================================================================== *)
(** ** Statements about the free-text branch                           *)
(* ================================================================== *)

Lemma search_result q cid w name parsed :
  ssm_get_parameter w table_name_parameter = Ok name ->
  parse_relative_date_on (clock w) (Str.lower q) = Ok parsed ->
  snd (search_orders_by_natural_query q cid w)
  = Ok (ranked (Str.lower q) parsed
          (candidates (mkHandle name (dynamodb_Table w name)) cid)).
Proof.
  intros Hs Hp. rewrite search_run. unfold table_handle, candidates, ranked.
  rewrite Hs, Hp.
  destruct (fetch_orders _ cid); reflexivity.
Qed.




(** With six matches the search returns all six, and the text made of
    them shows five and counts the sixth. *)
Example six_matches_listed :
  snd (track_order sample_format None None None (Some "iphone")
         (sample_world monday_2024_06_10 (six_iphones "6")))
  = Ok ("[LEFT-POINTING MAGNIFYING GLASS] Found 6 orders matching 'iphone':"
        ++ nl ++ nl
        ++ "1. Order 1 - iPhone (Status: shipped, Date: 2024-06-01)" ++ nl
        ++ "2. Order 2 - iPhone (Status: shipped, Date: 2024-06-01)" ++ nl
        ++ "3. Order 3 - iPhone (Status: shipped, Date: 2024-06-01)" ++ nl
        ++ "4. Order 4 - iPhone (Status: shipped, Date: 2024-06-01)" ++ nl
        ++ "5. Order 5 - iPhone (Status: shipped, Date: 2024-06-01)" ++ nl
        ++ nl ++ "... and 1 more orders." ++ nl ++ nl
        ++ "Please provide a specific order ID for detailed information.")
  /\ map order_id
         (match snd (search_orders_by_natural_query "iphone" None
                       (sample_world monday_2024_06_10 (six_iphones "6"))) with
          | Ok l => l
          | Raise _ => []
          end)
     = [Some "1"; Some "2"; Some "3"; Some "4"; Some "5"; Some "6"].
Proof. split; vm_compute; reflexivity. Qed.

(* ================================================================== *)
(** ** Statements about store failures                                 *)
(* ================================================================== *)

(** C2, as the code has it.  When the scan behind a free-text search
    fails, the error's message is printed and the reply is the plain
    not-found text: the message is not part of it. *)
Lemma failed_scan_reply_has_no_message :
  track_order sample_format None None None (Some "iphone")
    (failing_table_world "ThrottlingException")
  = ([EvSsmGetParameter table_name_parameter;
      EvSsmGetParameter table_name_parameter; EvNow; EvScan "orders";
      EvPrint "Error scanning orders: ThrottlingException"],
     Ok (no_orders_found "iphone"))
  /\ Str.contains "ThrottlingException" (no_orders_found "iphone") = false.
Proof. split; vm_compute; reflexivity. Qed.

(** C2 (amended).  No call raises: every call to [track_order] returns a
    text, whatever the world answers.  A failure of the parameter read,
    of the key lookup, of the tracking-index query or of the customer
    query of the customer-only branch gives a [CROSS MARK] text that ends
    with the error's message.  A failure of the scan or of the customer
    query behind a free-text search gives the not-found text of that
    search, the same for every error, and the message is only printed. *)
Theorem store_failures_are_replies
        (format_order_status : Order -> result string)
        (oid tid cid nq : option string) (w : World) :
  (exists text, snd (track_order format_order_status oid tid cid nq w) = Ok text)
  /\ (forall e,
        ssm_get_parameter w table_name_parameter = Raise e ->
        snd (track_order format_order_status oid tid cid nq w)
        = Ok ("[CROSS MARK] Error tracking order: Failed to get order tracking table: "
              ++ e))
  /\ (forall name e,
        ssm_get_parameter w table_name_parameter = Ok name ->
        truthy oid = true ->
        get_item (dynamodb_Table w name) (get_or_empty oid) = Raise e ->
        snd (track_order format_order_status oid tid cid nq w)
        = Ok ("[CROSS MARK] Error looking up order " ++ get_or_empty oid
              ++ ": " ++ e))
  /\ (forall name e,
        ssm_get_parameter w table_name_parameter = Ok name ->
        truthy oid = false -> truthy tid = true ->
        query (dynamodb_Table w name) "tracking-index" (get_or_empty tid) = Raise e ->
        snd (track_order format_order_status oid tid cid nq w)
        = Ok ("[CROSS MARK] Error looking up tracking ID " ++ get_or_empty tid
              ++ ": " ++ e))
  /\ (forall name e,
        ssm_get_parameter w table_name_parameter = Ok name ->
        truthy oid = false -> truthy tid = false -> truthy nq = false ->
        truthy cid = true ->
        query (dynamodb_Table w name) "customer-index" (get_or_empty cid) = Raise e ->
        snd (track_order format_order_status oid tid cid nq w)
        = Ok ("[CROSS MARK] Error looking up orders for customer "
              ++ get_or_empty cid ++ ": " ++ e))
  /\ (forall name parsed e,
        ssm_get_parameter w table_name_parameter = Ok name ->
        truthy oid = false -> truthy tid = false -> truthy nq = true ->
        parse_relative_date_on (clock w) (Str.lower (get_or_empty nq)) = Ok parsed ->
        fetch_orders (mkHandle name (dynamodb_Table w name)) cid = Raise e ->
        track_order format_order_status oid tid cid nq w
        = ([EvSsmGetParameter table_name_parameter;
            EvSsmGetParameter table_name_parameter; EvNow;
            fetch_event (mkHandle name (dynamodb_Table w name)) cid;
            EvPrint (fetch_error cid e)],
           Ok (no_orders_found (get_or_empty nq)))).
Proof.
  split; [apply track_order_returns|].
  split; [intros e E; now rewrite (track_order_no_handle _ _ _ _ _ _ _ E)|].
  split.
  { intros name e E Ho Hg.
    rewrite (track_order_by_order_id _ _ _ _ _ _ _ Ho E).
    cbn [snd]. now rewrite Hg. }
  split.
  { intros name e E Ho Ht Hg.
    rewrite (track_order_by_tracking_id _ _ _ _ _ _ _ Ho Ht E).
    cbn [snd]. now rewrite Hg. }
  split.
  { intros name e E Ho Ht Hq Hc Hg.
    rewrite (track_order_by_customer_id _ _ _ _ _ _ _ Ho Ht Hq Hc E).
    cbn [snd]. now rewrite Hg. }
  intros name parsed e E Ho Ht Hq Hp Hf.
  rewrite (track_order_by_natural_query _ _ _ _ _ _ _ Ho Ht Hq E).
  rewrite search_run. unfold table_handle. rewrite E, Hp, Hf. reflexivity.
Qed.

Lemma store_failures_are_replies_witness :
  snd (track_order sample_format (Some "A1") None None None
         (failing_table_world "ThrottlingException"))
  = Ok "[CROSS MARK] Error looking up order A1: ThrottlingException"
  /\ snd (track_order sample_format None None (Some "c7") (Some "iphone")
            (failing_table_world "AccessDenied"))
     = Ok (no_orders_found "iphone").
Proof.
  split.
  - destruct (store_failures_are_replies sample_format (Some "A1") None None None
                (failing_table_world "ThrottlingException"))
      as (_ & _ & Hid & _).
    apply (Hid "orders" "ThrottlingException"); reflexivity.
  - destruct (store_failures_are_replies sample_format None None (Some "c7")
                (Some "iphone") (failing_table_world "AccessDenied"))
      as (_ & _ & _ & _ & _ & Hsearch).
    rewrite (Hsearch "orders" None "AccessDenied"); reflexivity.
Defined.

(* ================================================================== *)
(** ** Facts about strings                                             *)
(* ================================================================== *)

Lemma startswith_iff p s :
  Str.startswith p s = true <-> exists t, s = p ++ t.
Proof.
  unfold Str.startswith. revert s.
  induction p as [|a p IH]; intros s.
  - split; [intros _; now exists s | intros _; now destruct s].
  - destruct s as [|b s]; simpl.
    + split; [discriminate | intros [t H]; discriminate].
    + destruct (ascii_dec a b) as [->|Hab].
      * rewrite IH. split; intros [t H]; exists t; [now rewrite H | now inversion H].
      * split; [discriminate | intros [t H]; inversion H; congruence].
Qed.

Lemma contains_iff sub s :
  Str.contains sub s = true <-> exists a b, s = a ++ sub ++ b.
Proof.
  induction s as [|c s IH]; cbn [Str.contains].
  - rewrite orb_false_r, startswith_iff. split.
    + intros [t H]. now exists "", t.
    + intros (a & b & H). destruct a; [now exists b|discriminate].
  - rewrite orb_true_iff, startswith_iff, IH. split.
    + intros [[t H]|(a & b & H)].
      * now exists "", t.
      * exists (String c a), b. now rewrite H.
    + intros (a & b & H). destruct a as [|c' a].
      * left. now exists b.
      * right. inversion H. now exists a, b.
Qed.

Lemma append_assoc (a b c : string) : (a ++ b) ++ c = a ++ b ++ c.
Proof. induction a; simpl; congruence. Qed.

Lemma append_nil_r (a : string) : a ++ "" = a.
Proof. induction a; simpl; congruence. Qed.

Lemma contains_trans a b c :
  Str.contains a b = true -> Str.contains b c = true -> Str.contains a c = true.
Proof.
  rewrite !contains_iff. intros (x & y & ->) (u & v & ->).
  exists (u ++ x), (y ++ v). now rewrite !append_assoc.
Qed.

Lemma contains_here sub post : Str.contains sub (sub ++ post) = true.
Proof. apply contains_iff. now exists "", post. Qed.

Lemma contains_middle sub pre post : Str.contains sub (pre ++ sub ++ post) = true.
Proof. apply contains_iff. now exists pre, post. Qed.

Lemma contains_cons sub c s :
  Str.contains sub s = true -> Str.contains sub (String c s) = true.
Proof. intros H. cbn [Str.contains]. rewrite H. apply orb_true_r. Qed.

Lemma lower_app a b : Str.lower (a ++ b) = Str.lower a ++ Str.lower b.
Proof. induction a; simpl; congruence. Qed.

(** [split] of a text that starts with a character that is not white
    space starts with a word that starts with it. *)
Lemma split_first c s :
  Str.isspace c = false ->
  exists w ws, Str.split (String c s) = String c w :: ws.
Proof.
  intros Hc. cbn [Str.split]. rewrite Hc.
  destruct s as [|c' s']; [now exists "", []|].
  destruct (Str.isspace c'); [now eexists "", _|].
  destruct (Str.split (String c' s')) as [|w ws]; [now exists "", []|].
  now exists w, ws.
Qed.

Lemma split_cons_word c s w ws :
  Str.isspace c = false ->
  Str.split s = w :: ws ->
  (exists d s', s = String d s' /\ Str.isspace d = false) ->
  Str.split (String c s) = String c w :: ws.
Proof.
  intros Hc Hs (d & s' & -> & Hd). cbn [Str.split] in *. rewrite Hc, Hd in *.
  now rewrite Hs.
Qed.

(** A word at the start of a text is the start of its first word. *)
Lemma startswith_first_word x s :
  x <> "" -> no_space x = true -> Str.startswith x s = true ->
  exists w ws, Str.split s = w :: ws /\ Str.startswith x w = true.
Proof.
  revert s. induction x as [|c x IH]; intros s Hne Hns Hp; [contradiction|].
  cbn [no_space] in Hns. apply andb_true_iff in Hns as [Hc Hns].
  apply negb_true_iff in Hc.
  apply startswith_iff in Hp as [t ->]. cbn [append].
  destruct x as [|d x].
  - destruct (split_first c t Hc) as (w & ws & H).
    exists (String c w), ws. split; [exact H|].
    apply startswith_iff. now exists w.
  - destruct (IH (String d x ++ t)) as (w & ws & Hs & Hw).
    + discriminate.
    + exact Hns.
    + apply startswith_iff. now exists t.
    + exists (String c w), ws. split.
      * apply split_cons_word; [exact Hc | exact Hs |].
        cbn [no_space] in Hns. apply andb_true_iff in Hns as [Hd _].
        apply negb_true_iff in Hd. now exists d, (x ++ t).
      * apply startswith_iff in Hw as [u ->]. apply startswith_iff.
        now exists u.
Qed.

Lemma startswith_contains x s :
  Str.startswith x s = true -> Str.contains x s = true.
Proof.
  intros H. destruct s; cbn [Str.contains]; rewrite H; reflexivity.
Qed.

(** A word that occurs in a text occurs in one of its words. *)
Lemma contains_in_word x s :
  x <> "" -> no_space x = true -> Str.contains x s = true ->
  exists w, In w (Str.split s) /\ Str.contains x w = true.
Proof.
  intros Hne Hns. induction s as [|c s IH]; cbn [Str.contains]; intros H.
  - rewrite orb_false_r in H. apply startswith_iff in H as [t H].
    destruct x; [contradiction | discriminate].
  - apply orb_true_iff in H as [H|H].
    + destruct (startswith_first_word x _ Hne Hns H) as (w & ws & Hs & Hw).
      exists w. rewrite Hs. split; [now left | now apply startswith_contains].
    + destruct (IH H) as (w & Hin & Hw). cbn [Str.split].
      destruct (Str.isspace c); [now exists w|].
      destruct s as [|c' s']; [contradiction|].
      destruct (Str.isspace c'); [exists w; split; [now right | exact Hw]|].
      destruct (Str.split (String c' s')) as [|w0 ws]; [contradiction|].
      destruct Hin as [<-|Hin].
      * exists (String c w0). split; [now left | now apply contains_cons].
      * exists w. split; [now right | exact Hw].
Qed.

(* ================================================================== *)
(** ** The score of one order                                          *)
(* ================================================================== *)

Section Counting.
Context {X : Type} (step : X -> Z -> Z).
Hypothesis step_shift : forall x acc, step x acc = acc + step x 0.
Hypothesis step_nonneg : forall x, 0 <= step x 0.

Lemma run_shift l acc : run step l acc = acc + run step l 0.
Proof.
  unfold run. revert acc. induction l as [|x l IH]; intros acc; simpl; [lia|].
  rewrite IH, (IH (step x 0)), (step_shift x acc). lia.
Qed.

Lemma run_nonneg l : 0 <= run step l 0.
Proof.
  induction l as [|x l IH]; [simpl; lia|].
  unfold run in *. simpl. fold (run step l (step x 0)). rewrite run_shift.
  pose proof (step_nonneg x). unfold run. lia.
Qed.

Lemma run_hit l x : In x l -> 1 <= step x 0 -> 1 <= run step l 0.
Proof.
  induction l as [|y l IH]; intros Hin Hx; [contradiction|].
  unfold run in *. simpl. fold (run step l (step y 0)). rewrite run_shift.
  pose proof (run_nonneg l) as Hn. pose proof (step_nonneg y) as Hy.
  unfold run in *.
  destruct Hin as [->|Hin]; [lia|]. specialize (IH Hin Hx). lia.
Qed.

End Counting.

Lemma pair_step_shift (qw pw : string) acc :
  (if Str.contains qw pw || Str.contains pw qw then acc + 1 else acc)
  = acc + (if Str.contains qw pw || Str.contains pw qw then 0 + 1 else 0).
Proof. destruct (Str.contains qw pw || Str.contains pw qw); lia. Qed.

Lemma pair_step_nonneg (qw pw : string) :
  0 <= (if Str.contains qw pw || Str.contains pw qw then 0 + 1 else 0).
Proof. destruct (Str.contains qw pw || Str.contains pw qw); lia. Qed.

Lemma word_step_shift pws qw acc : word_step pws qw acc = acc + word_step pws qw 0.
Proof.
  unfold word_step. destruct (3 <? String.length qw)%nat; [|lia].
  apply (run_shift (fun pw acc =>
           if Str.contains qw pw || Str.contains pw qw then acc + 1 else acc)
           (pair_step_shift qw)).
Qed.

Lemma word_step_nonneg pws qw : 0 <= word_step pws qw 0.
Proof.
  unfold word_step. destruct (3 <? String.length qw)%nat; [|lia].
  apply (run_nonneg (fun pw acc =>
           if Str.contains qw pw || Str.contains pw qw then acc + 1 else acc)
           (pair_step_shift qw) (pair_step_nonneg qw)).
Qed.

Lemma word_step_hit pws qw pw :
  (3 < String.length qw)%nat -> In pw pws ->
  Str.contains qw pw || Str.contains pw qw = true ->
  1 <= word_step pws qw 0.
Proof.
  intros Hl Hin Hc. unfold word_step.
  apply Nat.ltb_lt in Hl. rewrite Hl.
  apply (run_hit (fun pw acc =>
           if Str.contains qw pw || Str.contains pw qw then acc + 1 else acc)
           (pair_step_shift qw) (pair_step_nonneg qw) pws pw Hin).
  rewrite Hc. lia.
Qed.

Lemma word_score_steps q p acc :
  word_score q p acc
  = fold_left (fun acc qw => word_step (Str.split p) qw acc) (Str.split q) acc.
Proof. reflexivity. Qed.

Lemma word_score_shift q p acc : word_score q p acc = acc + word_score q p 0.
Proof.
  rewrite !word_score_steps.
  apply (run_shift (word_step (Str.split p)) (word_step_shift (Str.split p))).
Qed.

Lemma word_score_nonneg q p : 0 <= word_score q p 0.
Proof.
  rewrite word_score_steps.
  apply (run_nonneg (word_step (Str.split p)) (word_step_shift (Str.split p))
           (word_step_nonneg (Str.split p))).
Qed.

(** A query word of more than three characters that occurs in the
    product name adds at least 1. *)
Lemma word_score_hit q p qw :
  In qw (Str.split q) -> (3 < String.length qw)%nat ->
  qw <> "" -> no_space qw = true -> Str.contains qw p = true ->
  1 <= word_score q p 0.
Proof.
  intros Hq Hl Hne Hns Hc.
  destruct (contains_in_word qw p Hne Hns Hc) as (pw & Hpw & Hcw).
  rewrite word_score_steps.
  apply (run_hit (word_step (Str.split p)) (word_step_shift (Str.split p))
           (word_step_nonneg (Str.split p)) (Str.split q) qw Hq).
  apply (word_step_hit _ qw pw Hl Hpw). now rewrite Hcw.
Qed.

(** The score is the sum of its three signals. *)
Lemma order_match_score_sum q parsed o :
  order_match_score q parsed o
  = keyword_score q (Str.lower (get_or_empty (product_name o))) 0
    + (if date_matches parsed o then 3 else 0)
    + word_score q (Str.lower (get_or_empty (product_name o))) 0.
Proof.
  unfold order_match_score. rewrite word_score_shift.
  destruct (date_matches parsed o); lia.
Qed.

(** The keywords of the query "iphone last friday" found in a name that
    contains "iphone": "iphone" and "phone". *)
Lemma keyword_score_iphone p :
  Str.contains "iphone" p = true ->
  keyword_score "iphone last friday" p 0 = 4.
Proof.
  intros Hi.
  assert (Hp : Str.contains "phone" p = true).
  { apply (contains_trans "phone" "iphone" p); [reflexivity | exact Hi]. }
  unfold keyword_score, product_keywords. cbn [fold_left].
  repeat match goal with
         | |- context [Str.contains ?k "iphone last friday"] =>
             let v := eval vm_compute in (Str.contains k "iphone last friday") in
             change (Str.contains k "iphone last friday") with v
         end.
  cbn [andb]. rewrite Hi, Hp. reflexivity.
Qed.

Lemma date_matches_strftime t o :
  date_matches (Some (strftime_ymd t)) o
  = match order_date o with
    | Some od => String.eqb od (strftime_ymd t)
    | None => false
    end.
Proof.
  unfold date_matches, strftime_ymd.
  destruct (ord2ymd (toordinal t)) as [[y m] d].
  destruct (Str.of_Z y); reflexivity.
Qed.

Lemma date_matches_iff t o :
  date_matches (Some (strftime_ymd t)) o = true
  <-> order_date o = Some (strftime_ymd t).
Proof.
  rewrite date_matches_strftime. destruct (order_date o) as [od|].
  - rewrite String.eqb_eq. split; [now intros -> | now intros [= ->]].
  - split; discriminate.
Qed.

(** C1, as the code has it.  On Monday 2024-06-10 the query parses to
    Friday 2024-06-07; an order for "iPhone 15 Pro" of another date
    scores 5, not 2 ("iphone" and "phone" are both keywords, and the word
    "iphone" overlaps a word of the name); and an order matching on the
    keyword alone can score more (9) than one that also matches the date
    (8). *)
Lemma iphone_only_scores_five :
  parse_relative_date (Str.lower "iphone last Friday")
    (sample_world monday_2024_06_10 mixed_orders)
  = ([EvNow], Ok (Some "2024-06-07"))
  /\ order_match_score (Str.lower "iphone last Friday") (Some "2024-06-07")
       (sample_order "1" "iPhone 15 Pro" "2024-06-01") = 5
  /\ order_match_score (Str.lower "iphone last Friday") (Some "2024-06-07")
       (sample_order "1" "iPhone 15 Pro" "2024-06-01") <> 2
  /\ order_match_score (Str.lower "iphone last Friday") (Some "2024-06-07")
       (sample_order "2" "iPhone 15 Pro" "2024-06-07") = 8
  /\ order_match_score (Str.lower "iphone last Friday") (Some "2024-06-07")
       (sample_order "5" "iphone iphone iphone a" "2024-06-01") = 9.
Proof.
  assert (E : order_match_score (Str.lower "iphone last Friday") (Some "2024-06-07")
                (sample_order "1" "iPhone 15 Pro" "2024-06-01") = 5)
    by (vm_compute; reflexivity).
  rewrite E. repeat split; try (vm_compute; reflexivity). discriminate.
Qed.

(** C1 (amended).  On a Monday the query "iphone last Friday" parses to
    the date three days back, a Friday.  Every order whose product name
    contains "iphone" (in any case) scores at least 8 when its date is
    that Friday, and at least 5, never 2, when it is not: 4 for the
    keywords "iphone" and "phone", 1 or more for the word overlap.  Of
    two orders with the same product name, the one dated that Friday
    scores exactly 3 more than the other. *)
Theorem iphone_last_friday_scores (w : World) :
  weekday (clock w) = 0 ->
  min_ordinal + 3 <= toordinal (clock w) <= max_ordinal ->
  let query_lower := Str.lower "iphone last Friday" in
  let friday := strftime_ymd (minus_days (clock w) 3) in
  parse_relative_date query_lower w = ([EvNow], Ok (Some friday))
  /\ weekday (minus_days (clock w) 3) = 4
  /\ forall o,
       Str.contains "iphone" (Str.lower (get_or_empty (product_name o))) = true ->
       (order_date o = Some friday ->
        8 <= order_match_score query_lower (Some friday) o)
       /\ (order_date o <> Some friday ->
           5 <= order_match_score query_lower (Some friday) o)
       /\ forall o',
            product_name o' = product_name o ->
            order_date o = Some friday -> order_date o' <> Some friday ->
            order_match_score query_lower (Some friday) o
            = order_match_score query_lower (Some friday) o' + 3.
Proof.
  intros Hmon Hd query_lower friday.
  change query_lower with "iphone last friday". clear query_lower.
  subst friday.
  assert (Hback : days_back (clock w) 4 = 3).
  { unfold days_back. rewrite Hmon. reflexivity. }
  split; [|split].
  - unfold parse_relative_date, bind, datetime_now, lift.
    rewrite (parse_last_weekday_in _ "iphone last friday" "friday" 4)
      by (vm_compute; reflexivity).
    rewrite Hback, days_before_ok; [reflexivity | unfold max_delta_days; lia | lia].
  - rewrite <- Hback. now apply weekday_minus_days_back.
  - intros o Hi.
    pose proof (keyword_score_iphone _ Hi) as Hk.
    assert (Hw : 1 <= word_score "iphone last friday"
                        (Str.lower (get_or_empty (product_name o))) 0).
    { apply (word_score_hit _ _ "iphone");
        [vm_compute; tauto | vm_compute; lia | discriminate | reflexivity | exact Hi]. }
    split; [|split].
    + intros Ho. rewrite order_match_score_sum, Hk.
      rewrite (proj2 (date_matches_iff _ o) Ho). lia.
    + intros Ho. rewrite order_match_score_sum, Hk.
      destruct (date_matches _ o); lia.
    + intros o' Hn Ho Ho'. rewrite !order_match_score_sum, Hn.
      rewrite (proj2 (date_matches_iff _ o) Ho).
      destruct (date_matches _ o') eqn:E; [|lia].
      apply date_matches_iff in E. contradiction.
Qed.

Lemma iphone_last_friday_scores_witness :
  5 <= order_match_score (Str.lower "iphone last Friday")
         (Some (strftime_ymd (minus_days monday_2024_06_10 3)))
         (sample_order "1" "iPhone 15 Pro" "2024-06-01").
Proof.
  destruct (iphone_last_friday_scores
              (sample_world monday_2024_06_10 mixed_orders) eq_refl)
    as (_ & _ & Hscore).
  - unfold min_ordinal, max_ordinal. simpl. lia.
  - apply (Hscore (sample_order "1" "iPhone 15 Pro" "2024-06-01")).
    + vm_compute. reflexivity.
    + vm_compute. discriminate.
Defined.

(* ================================================================== *)
(** ** [strip] and the text around a phrase                            *)
(* ================================================================== *)

Lemma lstrip_keeps u y :
  first_nonspace y = true -> Str.lstrip (u ++ y) = Str.lstrip u ++ y.
Proof.
  intros Hy. induction u as [|c u IH]; simpl.
  - destruct y as [|d y]; [discriminate|]. simpl in *.
    apply negb_true_iff in Hy. now rewrite Hy.
  - destruct (Str.isspace c); [exact IH | reflexivity].
Qed.

Lemma rstrip_keeps y v :
  last_nonspace y = true -> Str.rstrip (y ++ v) = y ++ Str.rstrip v.
Proof.
  induction y as [|c y IH]; [discriminate|].
  intros Hy. destruct y as [|d y].
  - simpl in *. apply negb_true_iff in Hy. rewrite Hy.
    destruct (Str.rstrip v); reflexivity.
  - change (last_nonspace (String c (String d y))) with (last_nonspace (String d y)) in Hy.
    specialize (IH Hy).
    change (Str.rstrip (String c (String d y) ++ v))
      with (match Str.rstrip (String d y ++ v) with
            | EmptyString => if Str.isspace c then EmptyString else String c EmptyString
            | r => String c r
            end).
    rewrite IH. reflexivity.
Qed.

Lemma last_nonspace_app a y :
  last_nonspace y = true -> last_nonspace (a ++ y) = true.
Proof.
  intros Hy. induction a as [|c a IH]; [exact Hy|].
  simpl. destruct (a ++ y) eqn:E; [|exact IH].
  destruct a; simpl in E; [subst y|]; discriminate.
Qed.

Lemma first_nonspace_app y v :
  first_nonspace y = true -> first_nonspace (y ++ v) = true.
Proof. destruct y; [discriminate | trivial]. Qed.

(** White space around a text that neither starts nor ends with white
    space is stripped on both sides of it, and the text stays. *)
Lemma strip_keeps u y v :
  first_nonspace y = true -> last_nonspace y = true ->
  Str.strip (u ++ y ++ v) = Str.lstrip u ++ y ++ Str.rstrip v.
Proof.
  intros Hf Hl. unfold Str.strip.
  rewrite lstrip_keeps by now apply first_nonspace_app.
  rewrite <- append_assoc, rstrip_keeps by now apply last_nonspace_app.
  apply append_assoc.
Qed.

Lemma lstrip_suffix x : exists l, x = l ++ Str.lstrip x.
Proof.
  induction x as [|c x [l IH]]; [now exists ""|]. simpl.
  destruct (Str.isspace c); [|now exists ""].
  exists (String c l). simpl. now rewrite <- IH.
Qed.

Lemma rstrip_prefix x : exists r, x = Str.rstrip x ++ r.
Proof.
  induction x as [|c x [r IH]]; [now exists ""|]. simpl.
  destruct (Str.rstrip x) as [|d y] eqn:E.
  - destruct (Str.isspace c).
    + now exists (String c x).
    + exists r. simpl in *. now rewrite <- IH.
  - exists r. simpl in *. now rewrite <- IH.
Qed.

Lemma lstrip_first x : Str.lstrip x = "" \/ first_nonspace (Str.lstrip x) = true.
Proof.
  induction x as [|c x IH]; [now left|]. simpl.
  destruct (Str.isspace c) eqn:E; [exact IH|]. right. simpl. now rewrite E.
Qed.

Lemma rstrip_last x : Str.rstrip x = "" \/ last_nonspace (Str.rstrip x) = true.
Proof.
  induction x as [|c x IH]; [now left|]. simpl.
  destruct (Str.rstrip x) as [|d y] eqn:E.
  - destruct (Str.isspace c) eqn:Ec; [now left|]. right. simpl. now rewrite Ec.
  - right. destruct IH as [IH|IH]; [discriminate|]. exact IH.
Qed.

Lemma rstrip_first x :
  first_nonspace x = true -> first_nonspace (Str.rstrip x) = true.
Proof.
  destruct x as [|c x]; [discriminate|]. simpl. intros H.
  destruct (Str.rstrip x); [|exact H].
  apply negb_true_iff in H. rewrite H. simpl. now rewrite H.
Qed.

(** A stripped text is empty or has no white space at either end, and
    it is a part of the text it was stripped from. *)
Lemma strip_core x :
  (Str.strip x = ""
   \/ (first_nonspace (Str.strip x) = true /\ last_nonspace (Str.strip x) = true))
  /\ exists l r, x = l ++ Str.strip x ++ r.
Proof.
  unfold Str.strip. split.
  - destruct (rstrip_last (Str.lstrip x)) as [H|H]; [now left|].
    destruct (lstrip_first x) as [E|E].
    + rewrite E in *. discriminate.
    + right. split; [now apply rstrip_first | exact H].
  - destruct (lstrip_suffix x) as [l Hl].
    destruct (rstrip_prefix (Str.lstrip x)) as [r Hr].
    exists l, r. now rewrite <- Hr.
Qed.

(** The stripped lower-case form of a text is a part of the stripped
    lower-case form of any text that contains it. *)
Lemma strip_lower_context pre ph post :
  exists a b,
    Str.strip (Str.lower (pre ++ ph ++ post))
    = a ++ Str.strip (Str.lower ph) ++ b.
Proof.
  destruct (strip_core (Str.lower ph)) as [[E|[Hf Hl]] (l & r & Hx)].
  - rewrite E. eexists _, "". simpl. now rewrite append_nil_r.
  - rewrite !lower_app. set (s0 := Str.strip (Str.lower ph)) in *. rewrite Hx.
    replace (Str.lower pre ++ (l ++ s0 ++ r) ++ Str.lower post)
      with ((Str.lower pre ++ l) ++ s0 ++ (r ++ Str.lower post))
      by (now rewrite !append_assoc).
    rewrite strip_keeps by assumption. now eexists _, _.
Qed.

(* ================================================================== *)
(** ** A match stays a match in a longer text                          *)
(* ================================================================== *)

Lemma drop_prefix_app l s rest b :
  Str.drop_prefix l s = Some rest ->
  Str.drop_prefix l (s ++ b) = Some (rest ++ b).
Proof.
  revert s. induction l as [|a l IH]; intros s; simpl.
  - now intros [= ->].
  - destruct s as [|c s]; [discriminate|]. simpl.
    destruct (Ascii.eqb a c); [apply IH | discriminate].
Qed.

Section Extend.
Context {A : Type}.
Implicit Types k : string -> option A.

Lemma star_falls_back c s k : k s <> None -> Re.star c s k <> None.
Proof.
  destruct s as [|a s]; simpl; intros H; [exact H|].
  destruct (Re.in_cls c a); [|exact H].
  destruct (Re.star c s k); [discriminate | exact H].
Qed.

Lemma star_extend c s b k k' :
  (forall rest, k rest <> None -> k' (rest ++ b) <> None) ->
  Re.star c s k <> None -> Re.star c (s ++ b) k' <> None.
Proof.
  intros Hk. induction s as [|a s IH]; simpl.
  - intros H. apply star_falls_back. exact (Hk "" H).
  - destruct (Re.in_cls c a); [|exact (Hk (String a s))].
    destruct (Re.star c s k) eqn:E.
    + intros _. destruct (Re.star c (s ++ b) k'); [discriminate|].
      exfalso. apply IH; [discriminate | reflexivity].
    + intros H. destruct (Re.star c (s ++ b) k'); [discriminate|].
      exact (Hk (String a s) H).
Qed.

Lemma opt_falls_back a s g (k : option string -> string -> option A) :
  k g s <> None -> Re.matches (Re.Opt a) s g k <> None.
Proof.
  destruct s as [|c s]; simpl; intros H; [exact H|].
  destruct (Ascii.eqb a c); [|exact H].
  destruct (k g s); [discriminate | exact H].
Qed.

Lemma matches_extend r :
  forall s b g g' (k k' : option string -> string -> option A),
    (forall g1 g2 rest, k g1 rest <> None -> k' g2 (rest ++ b) <> None) ->
    Re.matches r s g k <> None -> Re.matches r (s ++ b) g' k' <> None.
Proof.
  induction r as [l|c|a|r1 IH1 r2 IH2|r IH]; intros s b g g' k k' Hk.
  - simpl. destruct (Str.drop_prefix l s) as [rest|] eqn:E; [|contradiction].
    rewrite (drop_prefix_app _ _ _ b E). apply Hk.
  - simpl. unfold Re.plus. destruct s as [|a s]; [contradiction|]. simpl.
    destruct (Re.in_cls c a); [|contradiction].
    apply star_extend. intros rest. apply Hk.
  - destruct s as [|c s].
    + intros H. apply opt_falls_back. exact (Hk g g' "" H).
    + simpl. destruct (Ascii.eqb a c); [|apply Hk].
      destruct (k g s) eqn:E.
      * intros _. destruct (k' g' (s ++ b)) eqn:E'; [discriminate|].
        exfalso. apply (Hk g g' s); [rewrite E; discriminate | exact E'].
      * intros H. destruct (k' g' (s ++ b)); [discriminate|].
        exact (Hk g g' (String c s) H).
  - simpl. apply IH1. intros g1 g2 rest. apply IH2. exact Hk.
  - simpl. apply IH. intros g1 g2 rest. apply Hk.
Qed.

End Extend.

Lemma match_here_extend r pos pos' s b :
  Re.match_here r pos s <> None -> Re.match_here r pos' (s ++ b) <> None.
Proof.
  unfold Re.match_here. apply matches_extend. intros; discriminate.
Qed.

Lemma search_from_extend_right r pos pos' s b :
  Re.search_from r pos s <> None -> Re.search_from r pos' (s ++ b) <> None.
Proof.
  revert pos pos'. induction s as [|c s IH]; intros pos pos'.
  - cbn [Re.search_from]. intros H.
    assert (Hm : Re.match_here r pos' ("" ++ b) <> None).
    { apply (match_here_extend r pos). destruct (Re.match_here r pos ""); congruence. }
    simpl in *. destruct b; cbn [Re.search_from];
      destruct (Re.match_here r pos' _); congruence.
  - cbn [Re.search_from append]. intros H.
    destruct (Re.match_here r pos (String c s)) eqn:E.
    + assert (Hm : Re.match_here r pos' (String c s ++ b) <> None)
        by (apply (match_here_extend r pos); congruence).
      simpl in Hm. destruct (Re.match_here r pos' _); congruence.
    + destruct (Re.match_here r pos' _); [discriminate|].
      now apply (IH (S pos)).
Qed.

Lemma search_from_extend_left r pos pos' a s :
  Re.search_from r pos s <> None -> Re.search_from r pos' (a ++ s) <> None.
Proof.
  intros H. revert pos'. induction a as [|c a IH]; intros pos'.
  - cbn [append]. rewrite <- (append_nil_r s).
    exact (search_from_extend_right r pos pos' s "" H).
  - cbn [Re.search_from append].
    destruct (Re.match_here r pos' _); [discriminate | apply IH].
Qed.

(** A pattern found in a text is found in every text around it. *)
Lemma search_context r a s b :
  Re.search r s <> None -> Re.search r (a ++ s ++ b) <> None.
Proof.
  unfold Re.search. intros H.
  apply (search_from_extend_left r 0), (search_from_extend_right r 0), H.
Qed.

(* ================================================================== *)
(** ** Phrases inside a longer text                                    *)
(* ================================================================== *)

Lemma contains_context sub a s b :
  Str.contains sub s = true -> Str.contains sub (a ++ s ++ b) = true.
Proof. intros H. apply (contains_trans sub s); [exact H | apply contains_middle]. Qed.

Lemma weekday_loop_context today a s b items :
  weekday_loop today s items <> None ->
  weekday_loop today (a ++ s ++ b) items <> None.
Proof.
  induction items as [|[day_name day_num] items IH]; cbn [weekday_loop];
    [trivial|].
  destruct (Str.contains ("last " ++ day_name) s) eqn:E.
  - intros _. now rewrite (contains_context _ a s b E).
  - intros H. destruct (Str.contains _ (a ++ s ++ b)); [discriminate | auto].
Qed.

Lemma pattern_loop_context today a s b ps :
  pattern_loop today s ps <> None ->
  pattern_loop today (a ++ s ++ b) ps <> None.
Proof.
  induction ps as [|[p u] ps IH]; cbn [pattern_loop]; [trivial|].
  destruct (Re.search p s) eqn:E.
  - intros _. pose proof (search_context p a s b) as H.
    destruct (Re.search p (a ++ s ++ b)); [discriminate|].
    exfalso. apply H; congruence.
  - intros H. destruct (Re.search p (a ++ s ++ b)); [discriminate | auto].
Qed.

(** A text that holds a text the parser reads is read by the parser. *)
Lemma parse_context today pre ph post :
  parse_relative_date_on today ph <> Ok None ->
  parse_relative_date_on today (pre ++ ph ++ post) <> Ok None.
Proof.
  unfold parse_relative_date_on.
  destruct (strip_lower_context pre ph post) as (a & b & ->).
  set (s0 := Str.strip (Str.lower ph)).
  pose proof (weekday_loop_context today a s0 b days_of_week) as Hw.
  pose proof (pattern_loop_context today a s0 b time_patterns) as Hp.
  destruct (weekday_loop today s0 days_of_week) as [r|].
  - intros _.
    destruct (weekday_loop today (a ++ s0 ++ b) days_of_week) as [[d|e]|];
      [discriminate | discriminate | exfalso; apply Hw; [discriminate|reflexivity]].
  - destruct (pattern_loop today s0 time_patterns) as [r|]; [|congruence].
    intros _.
    destruct (weekday_loop today (a ++ s0 ++ b) days_of_week) as [[d|e]|];
      [discriminate | discriminate |].
    destruct (pattern_loop today (a ++ s0 ++ b) time_patterns) as [[d|e]|];
      [discriminate | discriminate | exfalso; apply Hp; [discriminate|reflexivity]].
Qed.

Lemma contains_strip sub x :
  Str.contains sub (Str.strip x) = true -> Str.contains sub x = true.
Proof.
  intros H. destruct (strip_core x) as [_ (l & r & E)].
  rewrite E. now apply contains_context.
Qed.

Lemma find_weekday s day_name day_num :
  In (day_name, day_num) days_of_week ->
  Str.contains ("last " ++ day_name) s = true ->
  (forall d n, In (d, n) days_of_week -> n < day_num ->
               Str.contains ("last " ++ d) s = false) ->
  find (fun it => Str.contains ("last " ++ fst it) s) days_of_week
  = Some (day_name, day_num).
Proof.
  unfold days_of_week. cbn [In]. intros Hin Hhit Hearlier.
  repeat (destruct Hin as [Hin|Hin];
          [inversion Hin; subst day_name day_num; cbn [find fst];
           repeat match goal with
                  | |- context [Str.contains ("last " ++ ?d) s] =>
                      first [ rewrite Hhit
                            | rewrite (Hearlier d _ ltac:(tauto) ltac:(lia)) ]
                  end;
           reflexivity|]).
  contradiction.
Qed.

(** A weekday phrase in a longer text, no earlier weekday of the table
    being named in it, is read as the phrase alone. *)
Lemma parse_last_weekday_context today day_name day_num pre post :
  In (day_name, day_num) days_of_week ->
  (forall d n, In (d, n) days_of_week -> n < day_num ->
     Str.contains ("last " ++ d)
       (Str.lower (pre ++ ("last " ++ day_name) ++ post)) = false) ->
  parse_relative_date_on today (pre ++ ("last " ++ day_name) ++ post)
  = parse_relative_date_on today ("last " ++ day_name).
Proof.
  intros Hin Hearlier.
  rewrite (parse_last_weekday_alone today _ _ Hin).
  apply (parse_last_weekday_in today _ day_name day_num).
  apply find_weekday; [exact Hin | |].
  - rewrite (lower_app pre), (lower_app ("last " ++ day_name) post).
    assert (Hy : Str.lower ("last " ++ day_name) = "last " ++ day_name
                 /\ first_nonspace ("last " ++ day_name) = true
                 /\ last_nonspace ("last " ++ day_name) = true).
    { unfold days_of_week in Hin. cbn [In] in Hin.
      repeat (destruct Hin as [Hin|Hin];
              [inversion Hin; subst; repeat split; reflexivity|]).
      contradiction. }
    destruct Hy as (-> & Hf & Hl).
    rewrite strip_keeps by assumption. apply contains_middle.
  - intros d n Hd Hn.
    destruct (Str.contains ("last " ++ d)
                (Str.strip (Str.lower (pre ++ ("last " ++ day_name) ++ post))))
      eqn:E; [|reflexivity].
    apply contains_strip in E. rewrite (Hearlier d n Hd Hn) in E. discriminate.
Qed.

(* ================================================================== *)
(** ** The "ago" patterns on a text with one number                    *)
(* ================================================================== *)

Lemma digit_lower c : Str.isdigit c = true -> Str.lower_char c = c.
Proof. destruct c as [[] [] [] [] [] [] [] []]; try reflexivity; discriminate. Qed.

Lemma lower_isdigit c : Str.isdigit (Str.lower_char c) = Str.isdigit c.
Proof. destruct c as [[] [] [] [] [] [] [] []]; reflexivity. Qed.

Lemma digit_not_space c : Str.isdigit c = true -> Str.isspace c = false.
Proof. destruct c as [[] [] [] [] [] [] [] []]; try reflexivity; discriminate. Qed.

Lemma lower_digits n : all_digits n = true -> Str.lower n = n.
Proof.
  induction n as [|c n IH]; [reflexivity|]. simpl.
  intros H. apply andb_true_iff in H as [Hc Hn].
  now rewrite (digit_lower c Hc), IH.
Qed.

Lemma no_digit_lower s : no_digit s = true -> no_digit (Str.lower s) = true.
Proof.
  induction s as [|c s IH]; [reflexivity|]. simpl.
  intros H. apply andb_true_iff in H as [Hc Hs].
  now rewrite lower_isdigit, Hc, IH.
Qed.

Lemma no_digit_lstrip s : no_digit s = true -> no_digit (Str.lstrip s) = true.
Proof.
  induction s as [|c s IH]; [reflexivity|]. simpl. intros H.
  destruct (Str.isspace c); [|exact H].
  apply andb_true_iff in H as [_ Hs]. auto.
Qed.

Lemma no_digit_rstrip s : no_digit s = true -> no_digit (Str.rstrip s) = true.
Proof.
  induction s as [|c s IH]; [reflexivity|]. simpl. intros H.
  apply andb_true_iff in H as [Hc Hs]. specialize (IH Hs).
  destruct (Str.rstrip s).
  - destruct (Str.isspace c); [reflexivity|]. simpl. now rewrite Hc.
  - simpl in *. now rewrite Hc, IH.
Qed.

Lemma no_digit_app a b :
  no_digit a = true -> no_digit b = true -> no_digit (a ++ b) = true.
Proof.
  intros Ha Hb. induction a as [|c a IH]; [exact Hb|]. simpl in *.
  apply andb_true_iff in Ha as [Hc Ha]. now rewrite Hc, IH.
Qed.

Lemma no_digit_head s : no_digit s = true -> head_nondigit s = true.
Proof.
  destruct s; [reflexivity|]. simpl. intros H.
  now apply andb_true_iff in H as [H _].
Qed.

Section Runs.
Context {A : Type}.
Implicit Types k : string -> option A.

Lemma plus_nondigit s k : head_nondigit s = true -> Re.plus Re.Digit s k = None.
Proof.
  destruct s as [|c s]; [reflexivity|]. simpl.
  intros H. apply negb_true_iff in H. now rewrite H.
Qed.

(** The greedy repetition takes a whole run of digits when what follows
    then matches. *)
Lemma star_digits_run n t k r :
  all_digits n = true -> head_nondigit t = true -> k t = Some r ->
  Re.star Re.Digit (n ++ t) k = Some r.
Proof.
  intros Hn Ht Hk. induction n as [|c n IH]; simpl.
  - destruct t as [|a t]; [exact Hk|]. simpl in *.
    apply negb_true_iff in Ht. now rewrite Ht.
  - simpl in Hn. apply andb_true_iff in Hn as [Hc Hn].
    rewrite Hc, (IH Hn). reflexivity.
Qed.

Lemma plus_digits_run n t k r :
  n <> "" -> all_digits n = true -> head_nondigit t = true -> k t = Some r ->
  Re.plus Re.Digit (n ++ t) k = Some r.
Proof.
  intros Hne Hn Ht Hk. destruct n as [|c n]; [contradiction|]. simpl in *.
  apply andb_true_iff in Hn as [Hc Hn]. rewrite Hc.
  now apply star_digits_run.
Qed.

(** It gives up when what follows matches after no part of the run. *)
Lemma star_digits_none n t k :
  all_digits n = true -> head_nondigit t = true ->
  (forall c s, Str.isdigit c = true -> k (String c s) = None) ->
  k t = None ->
  Re.star Re.Digit (n ++ t) k = None.
Proof.
  intros Hn Ht Hd Hk. induction n as [|c n IH]; simpl.
  - destruct t as [|a t]; [exact Hk|]. simpl in *.
    apply negb_true_iff in Ht. now rewrite Ht.
  - simpl in Hn. apply andb_true_iff in Hn as [Hc Hn].
    rewrite Hc, (IH Hn). now apply Hd.
Qed.

End Runs.

Lemma length_append (n t : string) :
  String.length (n ++ t) = (String.length n + String.length t)%nat.
Proof. induction n as [|c n IH]; simpl; [reflexivity | now rewrite IH]. Qed.

Lemma substring_prefix n t :
  substring 0 (String.length (n ++ t) - String.length t) (n ++ t) = n.
Proof.
  rewrite length_append, Nat.add_sub.
  induction n as [|c n IH]; simpl.
  - now destruct t.
  - now rewrite IH.
Qed.

Lemma ago_tail_digit unit c s g (k : option string -> string -> option Re.match_obj) :
  Str.isdigit c = true -> Re.matches (ago_tail unit) (String c s) g k = None.
Proof.
  intros Hc. cbn [ago_tail Re.matches]. unfold Re.plus. cbn [Re.in_cls].
  now rewrite (digit_not_space c Hc).
Qed.

Lemma match_here_nondigit unit pos s :
  head_nondigit s = true -> Re.match_here (ago_pattern unit) pos s = None.
Proof.
  intros H. unfold Re.match_here, ago_pattern. cbn [Re.matches].
  now apply plus_nondigit.
Qed.

Lemma search_from_no_digit unit pos s :
  no_digit s = true -> Re.search_from (ago_pattern unit) pos s = None.
Proof.
  revert pos. induction s as [|c s IH]; intros pos H; cbn [Re.search_from].
  - now rewrite match_here_nondigit.
  - rewrite match_here_nondigit by now apply no_digit_head.
    simpl in H. apply andb_true_iff in H as [_ H]. auto.
Qed.

Lemma search_from_skip unit pos a s :
  no_digit a = true ->
  Re.search_from (ago_pattern unit) pos (a ++ s)
  = Re.search_from (ago_pattern unit) (pos + String.length a) s.
Proof.
  revert pos. induction a as [|c a IH]; intros pos H.
  - simpl. now rewrite Nat.add_0_r.
  - cbn [append Re.search_from].
    rewrite match_here_nondigit.
    + simpl in H. apply andb_true_iff in H as [_ H].
      rewrite (IH (S pos) H). simpl. now rewrite Nat.add_succ_r.
    + simpl in *. now apply andb_true_iff in H as [H _].
Qed.

Lemma search_from_hit r pos s m :
  Re.match_here r pos s = Some m -> Re.search_from r pos s = Some m.
Proof. intros H. destruct s; cbn [Re.search_from]; now rewrite H. Qed.

(** The pattern matches at a number followed by its unit, and captures
    the number. *)
Lemma ago_hit unit pos n t :
  n <> "" -> all_digits n = true -> head_nondigit t = true ->
  (forall g (k : option string -> string -> option Re.match_obj),
      (forall g' rest, exists m, k g' rest = Some m /\ Re.group1 m = g') ->
      exists m, Re.matches (ago_tail unit) t g k = Some m /\ Re.group1 m = g) ->
  exists m,
    Re.match_here (ago_pattern unit) pos (n ++ t) = Some m
    /\ Re.group1 m = Some n.
Proof.
  intros Hne Hn Ht Htail.
  unfold Re.match_here, ago_pattern. cbn [Re.matches].
  destruct (Htail (Some n)
              (fun g rest =>
                 Some (Re.MatchObj pos
                         (pos + (String.length (n ++ t) - String.length rest)) g)))
    as (m & Hm & Hg).
  { intros g' rest. eexists. split; reflexivity. }
  exists m. split; [|exact Hg].
  apply plus_digits_run; try assumption.
  now rewrite substring_prefix.
Qed.

(** The pattern matches nowhere in a number followed by another unit and
    by text without digits. *)
Lemma ago_miss unit pos n t :
  all_digits n = true -> no_digit t = true ->
  (forall g (k : option string -> string -> option Re.match_obj),
      Re.matches (ago_tail unit) t g k = None) ->
  Re.search_from (ago_pattern unit) pos (n ++ t) = None.
Proof.
  intros Hn Ht Htail. revert pos.
  induction n as [|c n IH]; intros pos.
  - now apply search_from_no_digit.
  - simpl in Hn. apply andb_true_iff in Hn as [Hc Hn].
    cbn [append Re.search_from].
    assert (Hm : Re.match_here (ago_pattern unit) pos (String c (n ++ t)) = None).
    { unfold Re.match_here, ago_pattern. cbn [Re.matches]. unfold Re.plus.
      cbn [Re.in_cls]. rewrite Hc.
      apply star_digits_none; [exact Hn | now apply no_digit_head | |].
      - intros d s Hd. now apply ago_tail_digit.
      - apply Htail. }
    rewrite Hm. now apply IH.
Qed.

Ltac ago_tail_accepts post :=
  let g := fresh "g" in
  let k := fresh "k" in
  let Hk := fresh "Hk" in
  let m := fresh "m" in
  let E := fresh "E" in
  let Hm := fresh "Hm" in
  intros g k Hk; simpl;
  destruct (Hk g post) as (m & E & Hm); rewrite E; exists m; split;
  [reflexivity | exact Hm].

Ltac ago_pattern_misses unit tail post Hn Hpost :=
  match goal with
  | |- context [Re.search_from (ago_pattern unit) ?pos (?n ++ ?t)] =>
      rewrite (ago_miss unit pos n t);
      [ | exact Hn | exact (no_digit_app tail post eq_refl Hpost)
        | intros; reflexivity ]
  end.

Ltac ago_pattern_hits unit t post Hne Hn :=
  let m := fresh "m" in
  let Hm := fresh "Hm" in
  let Hg := fresh "Hg" in
  match goal with
  | |- context [Re.search_from (ago_pattern unit) ?pos (?n ++ ?x)] =>
      change x with t;
      destruct (ago_hit unit pos n t Hne Hn eq_refl) as (m & Hm & Hg);
      [ ago_tail_accepts post
      | rewrite (search_from_hit _ _ _ _ Hm); exists m; split;
        [reflexivity | exact Hg] ]
  end.

(** In a text whose only digits are those of ["<n> <unit> ago"], the
    first pattern that matches is the one of that unit, and it captures
    [n]. *)
Lemma first_pattern_ago unit tag n pre post :
  In (unit, tag) ago_units ->
  n <> "" -> all_digits n = true ->
  no_digit pre = true -> no_digit post = true ->
  exists m,
    first_pattern (pre ++ (n ++ " " ++ unit ++ " ago") ++ post) time_patterns
    = Some (tag, m)
    /\ Re.group1 m = Some n.
Proof.
  intros Hin Hne Hn Hpre Hpost. unfold ago_units in Hin. cbn [In] in Hin.
  unfold time_patterns. cbn [first_pattern]. unfold Re.search.
  rewrite !append_assoc.
  rewrite (search_from_skip "day"), (search_from_skip "week"),
    (search_from_skip "month") by exact Hpre.
  destruct Hin as [Hin|[Hin|[Hin|[Hin|[Hin|[Hin|[]]]]]]];
    inversion Hin; subst unit tag; clear Hin; cbn [append].
  - ago_pattern_hits "day" (" day ago" ++ post) post Hne Hn.
  - ago_pattern_hits "day" (" days ago" ++ post) post Hne Hn.
  - ago_pattern_misses "day" " week ago" post Hn Hpost.
    ago_pattern_hits "week" (" week ago" ++ post) post Hne Hn.
  - ago_pattern_misses "day" " weeks ago" post Hn Hpost.
    ago_pattern_hits "week" (" weeks ago" ++ post) post Hne Hn.
  - ago_pattern_misses "day" " month ago" post Hn Hpost.
    ago_pattern_misses "week" " month ago" post Hn Hpost.
    ago_pattern_hits "month" (" month ago" ++ post) post Hne Hn.
  - ago_pattern_misses "day" " months ago" post Hn Hpost.
    ago_pattern_misses "week" " months ago" post Hn Hpost.
    ago_pattern_hits "month" (" months ago" ++ post) post Hne Hn.
Qed.

Lemma no_weekday_phrase_part a s b :
  no_weekday_phrase (a ++ s ++ b) = true -> no_weekday_phrase s = true.
Proof.
  unfold no_weekday_phrase. rewrite !forallb_forall. intros H it Hin.
  specialize (H it Hin). apply negb_true_iff in H. apply negb_true_iff.
  destruct (Str.contains ("last " ++ fst it) s) eqn:E; [|reflexivity].
  now rewrite (contains_context _ a s b E) in H.
Qed.

Lemma no_weekday_phrase_strip x :
  no_weekday_phrase x = true -> no_weekday_phrase (Str.strip x) = true.
Proof.
  destruct (strip_core x) as [_ (l & r & E)]. intros H. rewrite E in H.
  exact (no_weekday_phrase_part _ _ _ H).
Qed.

Lemma pattern_target_group today unit m m' :
  Re.group1 m = Re.group1 m' ->
  pattern_target today unit m = pattern_target today unit m'.
Proof. unfold pattern_target. now intros ->. Qed.

(** The phrase ["<n> <unit> ago"] is in lower case and has no white space
    at either end. *)
Lemma ago_phrase_shape unit tag n :
  In (unit, tag) ago_units -> n <> "" -> all_digits n = true ->
  Str.lower (n ++ " " ++ unit ++ " ago") = n ++ " " ++ unit ++ " ago"
  /\ first_nonspace (n ++ " " ++ unit ++ " ago") = true
  /\ last_nonspace (n ++ " " ++ unit ++ " ago") = true.
Proof.
  intros Hin Hne Hn. unfold ago_units in Hin. cbn [In] in Hin.
  assert (Hu : Str.lower (" " ++ unit ++ " ago") = " " ++ unit ++ " ago"
               /\ last_nonspace (" " ++ unit ++ " ago") = true).
  { destruct Hin as [Hin|[Hin|[Hin|[Hin|[Hin|[Hin|[]]]]]]];
      inversion Hin; subst; split; reflexivity. }
  destruct Hu as [Hlow Hlast]. split; [|split].
  - now rewrite lower_app, (lower_digits n Hn), Hlow.
  - destruct n as [|c n]; [contradiction|]. simpl in *.
    apply andb_true_iff in Hn as [Hc _].
    now rewrite (digit_not_space c Hc).
  - now apply last_nonspace_app.
Qed.

(** A text whose only digits are those of ["<n> <unit> ago"], and that
    names no weekday after "last", is read by the pattern of that unit
    with the number [n]. *)
Lemma parse_ago_in today unit tag n pre post :
  In (unit, tag) ago_units -> n <> "" -> all_digits n = true ->
  no_digit pre = true -> no_digit post = true ->
  no_weekday_phrase (Str.lower (pre ++ (n ++ " " ++ unit ++ " ago") ++ post)) = true ->
  exists m,
    Re.group1 m = Some n
    /\ parse_relative_date_on today (pre ++ (n ++ " " ++ unit ++ " ago") ++ post)
       = match pattern_target today tag m with
         | Ok d => Ok (Some d)
         | Raise e => Raise e
         end.
Proof.
  intros Hin Hne Hn Hpre Hpost Hw.
  destruct (ago_phrase_shape unit tag n Hin Hne Hn) as (Hlow & Hfirst & Hlast).
  assert (Hs : Str.strip (Str.lower (pre ++ (n ++ " " ++ unit ++ " ago") ++ post))
               = Str.lstrip (Str.lower pre) ++ (n ++ " " ++ unit ++ " ago")
                 ++ Str.rstrip (Str.lower post)).
  { rewrite (lower_app pre), (lower_app (n ++ " " ++ unit ++ " ago") post), Hlow.
    now apply strip_keeps. }
  destruct (first_pattern_ago unit tag n (Str.lstrip (Str.lower pre))
              (Str.rstrip (Str.lower post)) Hin Hne Hn)
    as (m & Hfp & Hg).
  { now apply no_digit_lstrip, no_digit_lower. }
  { now apply no_digit_rstrip, no_digit_lower. }
  exists m. split; [exact Hg|].
  apply parse_by_pattern.
  - now apply no_weekday_phrase_strip.
  - rewrite Hs. exact Hfp.
Qed.

(** Such a text is read as the phrase alone. *)
Lemma parse_ago_context today unit tag n pre post :
  In (unit, tag) ago_units -> n <> "" -> all_digits n = true ->
  no_digit pre = true -> no_digit post = true ->
  no_weekday_phrase (Str.lower (pre ++ (n ++ " " ++ unit ++ " ago") ++ post)) = true ->
  parse_relative_date_on today (pre ++ (n ++ " " ++ unit ++ " ago") ++ post)
  = parse_relative_date_on today (n ++ " " ++ unit ++ " ago").
Proof.
  intros Hin Hne Hn Hpre Hpost Hw.
  destruct (parse_ago_in today unit tag n pre post Hin Hne Hn Hpre Hpost Hw)
    as (m & Hg & ->).
  destruct (parse_ago_in today unit tag n "" "" Hin Hne Hn eq_refl eq_refl)
    as (m' & Hg' & H').
  - rewrite (lower_app pre), (lower_app _ post) in Hw.
    apply no_weekday_phrase_part in Hw.
    change ("" ++ (n ++ " " ++ unit ++ " ago") ++ "")
      with ((n ++ " " ++ unit ++ " ago") ++ "").
    now rewrite append_nil_r.
  - change ("" ++ (n ++ " " ++ unit ++ " ago") ++ "")
      with ((n ++ " " ++ unit ++ " ago") ++ "") in H'.
    rewrite append_nil_r in H'. rewrite H'.
    rewrite (pattern_target_group today tag m m'); [reflexivity | congruence].
Qed.

(* ================================================================== *)
(** ** The parser as a computation                                     *)
(* ================================================================== *)

Lemma parse_relative_date_run text w :
  parse_relative_date text w = ([EvNow], parse_relative_date_on (clock w) text).
Proof.
  unfold parse_relative_date, bind, datetime_now, lift.
  destruct (parse_relative_date_on (clock w) text); reflexivity.
Qed.


(* ================================================================== *)
(** ** The Lambda handler                                              *)
(* ================================================================== *)

Example str_split_examples :
  str_split "___" "gateway___track_order" = ["gateway"; "track_order"]
  /\ str_split "___" "a______b" = ["a"; ""; "b"]
  /\ str_split "___" "x____track_order" = ["x"; "_track_order"]
  /\ str_split "___" "track_order" = ["track_order"]
  /\ str_split "___" "" = [""].
Proof. repeat split; reflexivity. Qed.

Lemma contains_cons_false sep c s :
  Str.contains sep (String c s) = false ->
  Str.startswith sep (String c s) = false /\ Str.contains sep s = false.
Proof. cbn [Str.contains]. intros H. now apply orb_false_iff in H. Qed.

(** A text without the separator is not cut. *)
Lemma split_on_whole sep s cur :
  Str.contains sep s = false -> split_on sep s 0 cur = [cur ++ s].
Proof.
  revert cur. induction s as [|c s IH]; intros cur H.
  - cbn [split_on]. now rewrite append_nil_r.
  - apply contains_cons_false in H as [Hs Hc].
    cbn [split_on]. rewrite Hs, (IH _ Hc), append_assoc. reflexivity.
Qed.

Lemma split_on_target target rest cur :
  lacks "_" target = true ->
  split_on "___" (target ++ "___" ++ rest) 0 cur
  = (cur ++ target) :: split_on "___" rest 0 "".
Proof.
  revert cur. induction target as [|a target IH]; intros cur H.
  - cbn [append split_on String.length Nat.sub].
    rewrite (proj2 (startswith_iff "___" (String "_" (String "_" (String "_" rest)))))
      by (now exists rest).
    now rewrite append_nil_r.
  - cbn [lacks] in H. apply andb_true_iff in H as [Ha H].
    apply negb_true_iff, Ascii.eqb_neq in Ha.
    specialize (IH (cur ++ String a "") H).
    set (tail := "___" ++ rest) in *.
    cbn [append split_on].
    assert (Hs : Str.startswith "___" (String a (target ++ tail)) = false).
    { destruct (Str.startswith "___" (String a (target ++ tail))) eqn:E;
        [|reflexivity].
      apply startswith_iff in E as [t E]. inversion E. congruence. }
    rewrite Hs, IH, append_assoc. reflexivity.
Qed.

(** X1.  In a tool name of the form [<target>___<tool>], the target
    holding no underscore and the tool no triple underscore, the handler
    takes [<tool>] as the resource. *)
Theorem tool_resource_of_gateway_name (target tool : string) :
  lacks "_" target = true ->
  Str.contains "___" tool = false ->
  tool_resource (target ++ "___" ++ tool) = Ok tool.
Proof.
  intros Ht Hc. unfold tool_resource, str_split.
  rewrite (split_on_target target tool "" Ht), (split_on_whole "___" tool "" Hc).
  reflexivity.
Qed.

Lemma tool_resource_of_gateway_name_witness :
  tool_resource ("LambdaUsingSDK" ++ "___" ++ "track_order") = Ok "track_order".
Proof. apply tool_resource_of_gateway_name; reflexivity. Defined.

(** X2.  A tool name without triple underscore has no second part: the
    handler raises [IndexError] after its first two prints, before any
    tool runs; no response is returned. *)
Theorem handler_raises_without_separator
        (format_order_status : Order -> result string)
        (get_customer_profile : string -> option string -> option string -> M string)
        (repr_event : dict -> string) (repr_context : Context -> string)
        (event : dict) (context : Context) (name : string) (w : World) :
  tool_name_of context = Ok name ->
  Str.contains "___" name = false ->
  lambda_handler format_order_status get_customer_profile repr_event repr_context
    event context w
  = ([EvPrint ("Event: " ++ repr_event event);
      EvPrint ("Context: " ++ repr_context context)],
     Raise "list index out of range").
Proof.
  intros Hn Hc. unfold lambda_handler, bind, print, lift.
  rewrite Hn. unfold tool_resource, str_split.
  rewrite (split_on_whole "___" name "" Hc). reflexivity.
Qed.

Lemma handler_raises_without_separator_witness :
  snd (lambda_handler sample_format (fun _ _ _ => ret "profile")
         (fun _ => "{}") (fun _ => "<context>") []
         (mkContext (Some (mkClientContext
                             [("bedrockAgentCoreToolName", "track_order")])))
         (sample_world monday_2024_06_10 []))
  = Raise "list index out of range".
Proof.
  rewrite (handler_raises_without_separator sample_format
             (fun _ _ _ => ret "profile") (fun _ => "{}") (fun _ => "<context>")
             [] _ "track_order"); reflexivity.
Defined.

(** One run of the handler up to the choice of the tool. *)
Lemma lambda_handler_track_order
      (format_order_status : Order -> result string)
      (get_customer_profile : string -> option string -> option string -> M string)
      (repr_event : dict -> string) (repr_context : Context -> string)
      (event : dict) (context : Context) (name : string) (w : World) :
  tool_name_of context = Ok name ->
  tool_resource name = Ok "track_order" ->
  lambda_handler format_order_status get_customer_profile repr_event repr_context
    event context w
  = let run :=
      track_order format_order_status
        (get_named_parameter event "order_id")
        (get_named_parameter event "tracking_id")
        (get_named_parameter event "customer_id")
        (get_named_parameter event "natural_query") w in
    ((EvPrint ("Event: " ++ repr_event event)
        :: EvPrint ("Context: " ++ repr_context context)
        :: EvPrint "track_order" :: fst run)%list,
     match snd run with
     | Ok order_status => Ok (mkResponse 200 order_status)
     | Raise e => Raise e
     end).
Proof.
  intros Hn Hr. cbv zeta.
  destruct (track_order_returns format_order_status
              (get_named_parameter event "order_id")
              (get_named_parameter event "tracking_id")
              (get_named_parameter event "customer_id")
              (get_named_parameter event "natural_query") w) as [text Ht].
  unfold lambda_handler, bind, print, lift, try_except, ret.
  rewrite Hn, Hr. cbn [String.eqb Ascii.eqb Bool.eqb].
  destruct (track_order _ _ _ _ _ w) as [t r]. cbn [snd fst] in *. subst r.
  cbn [app]. now rewrite !app_nil_r.
Qed.

(** X3.  For the tool [track_order] the handler always answers with
    status 200 and the text of [track_order] for the four fields of the
    event, also when the table or the parameter store fails: the 400 of
    its [except] is never returned. *)
Theorem handler_track_order_is_200
        (format_order_status : Order -> result string)
        (get_customer_profile : string -> option string -> option string -> M string)
        (repr_event : dict -> string) (repr_context : Context -> string)
        (event : dict) (context : Context) (name : string) (w : World) :
  tool_name_of context = Ok name ->
  tool_resource name = Ok "track_order" ->
  exists order_status,
    snd (track_order format_order_status
           (get_named_parameter event "order_id")
           (get_named_parameter event "tracking_id")
           (get_named_parameter event "customer_id")
           (get_named_parameter event "natural_query") w)
    = Ok order_status
    /\ snd (lambda_handler format_order_status get_customer_profile repr_event
              repr_context event context w)
       = Ok (mkResponse 200 order_status).
Proof.
  intros Hn Hr.
  rewrite (lambda_handler_track_order _ _ _ _ _ _ _ _ Hn Hr). cbv zeta. cbn [snd].
  destruct (track_order_returns format_order_status
              (get_named_parameter event "order_id")
              (get_named_parameter event "tracking_id")
              (get_named_parameter event "customer_id")
              (get_named_parameter event "natural_query") w) as [text Ht].
  exists text. now rewrite Ht.
Qed.

Lemma handler_track_order_is_200_witness :
  exists order_status,
    snd (track_order sample_format
           (get_named_parameter [("order_id", "A1")] "order_id")
           (get_named_parameter [("order_id", "A1")] "tracking_id")
           (get_named_parameter [("order_id", "A1")] "customer_id")
           (get_named_parameter [("order_id", "A1")] "natural_query")
           (failing_table_world "ThrottlingException"))
    = Ok order_status
    /\ snd (lambda_handler sample_format (fun _ _ _ => ret "profile")
              (fun _ => "{}") (fun _ => "<context>") [("order_id", "A1")]
              (mkContext (Some (mkClientContext
                 [("bedrockAgentCoreToolName", "gateway___track_order")])))
              (failing_table_world "ThrottlingException"))
       = Ok (mkResponse 200 order_status).
Proof.
  apply (handler_track_order_is_200 sample_format (fun _ _ _ => ret "profile")
           (fun _ => "{}") (fun _ => "<context>") [("order_id", "A1")]
           _ "gateway___track_order"); reflexivity.
Defined.

(** X4.  A resource that is neither [get_customer_profile] nor
    [track_order] is answered with status 400 and its name; neither tool
    runs and nothing of the world is read. *)
Theorem handler_unknown_tool
        (format_order_status : Order -> result string)
        (get_customer_profile : string -> option string -> option string -> M string)
        (repr_event : dict -> string) (repr_context : Context -> string)
        (event : dict) (context : Context) (name resource : string) (w : World) :
  tool_name_of context = Ok name ->
  tool_resource name = Ok resource ->
  resource <> "get_customer_profile" -> resource <> "track_order" ->
  lambda_handler format_order_status get_customer_profile repr_event repr_context
    event context w
  = ([EvPrint ("Event: " ++ repr_event event);
      EvPrint ("Context: " ++ repr_context context);
      EvPrint resource],
     Ok (mkResponse 400 ("[CROSS MARK] Unknown toolname: " ++ resource))).
Proof.
  intros Hn Hr H1 H2. apply String.eqb_neq in H1, H2.
  unfold lambda_handler, bind, print, lift, ret.
  rewrite Hn, Hr, H1, H2. reflexivity.
Qed.

Lemma handler_unknown_tool_witness :
  snd (lambda_handler sample_format (fun _ _ _ => ret "profile")
         (fun _ => "{}") (fun _ => "<context>") []
         (mkContext (Some (mkClientContext
            [("bedrockAgentCoreToolName", "x____track_order")])))
         (sample_world monday_2024_06_10 []))
  = Ok (mkResponse 400 "[CROSS MARK] Unknown toolname: _track_order").
Proof.
  rewrite (handler_unknown_tool sample_format (fun _ _ _ => ret "profile")
             (fun _ => "{}") (fun _ => "<context>") [] _ "x____track_order"
             "_track_order");
    first [reflexivity | discriminate].
Defined.

(** X5.  For the tool [get_customer_profile] an event without
    [customer_id] (absent or empty) is answered with status 400 and the
    request for it; [get_customer_profile] is not called. *)
Theorem handler_profile_needs_customer_id
        (format_order_status : Order -> result string)
        (get_customer_profile : string -> option string -> option string -> M string)
        (repr_event : dict -> string) (repr_context : Context -> string)
        (event : dict) (context : Context) (name : string) (w : World) :
  tool_name_of context = Ok name ->
  tool_resource name = Ok "get_customer_profile" ->
  truthy (get_named_parameter event "customer_id") = false ->
  lambda_handler format_order_status get_customer_profile repr_event repr_context
    event context w
  = ([EvPrint ("Event: " ++ repr_event event);
      EvPrint ("Context: " ++ repr_context context);
      EvPrint "get_customer_profile"],
     Ok (mkResponse 400 "[CROSS MARK] Please provide customer_id")).
Proof.
  intros Hn Hr Hc. unfold lambda_handler, bind, print, lift, ret.
  rewrite Hn, Hr. cbn [String.eqb Ascii.eqb Bool.eqb]. rewrite Hc. reflexivity.
Qed.

Lemma handler_profile_needs_customer_id_witness :
  snd (lambda_handler sample_format (fun _ _ _ => raise "must not run")
         (fun _ => "{}") (fun _ => "<context>") [("email", "a@b.c")]
         (mkContext (Some (mkClientContext
            [("bedrockAgentCoreToolName", "gateway___get_customer_profile")])))
         (sample_world monday_2024_06_10 []))
  = Ok (mkResponse 400 "[CROSS MARK] Please provide customer_id").
Proof.
  rewrite (handler_profile_needs_customer_id sample_format
             (fun _ _ _ => raise "must not run") (fun _ => "{}")
             (fun _ => "<context>") [("email", "a@b.c")] _
             "gateway___get_customer_profile"); reflexivity.
Defined.

(* ================================================================== *)
(** ** More on the date parser                                         *)
(* ================================================================== *)

Lemma int_of_digits_from acc n :
  0 <= acc -> all_digits n = true ->
  0 <= (fix go (acc : Z) (s : string) : Z :=
          match s with
          | EmptyString => acc
          | String c s' => go (10 * acc + Str.digit_value c) s'
          end) acc n.
Proof.
  revert acc. induction n as [|c n IH]; intros acc Ha Hn; [exact Ha|].
  simpl in Hn. apply andb_true_iff in Hn as [Hc Hn].
  apply IH; [|exact Hn].
  unfold Str.digit_value. unfold Str.isdigit in Hc.
  apply andb_true_iff in Hc as [Hc _]. apply Nat.leb_le in Hc. lia.
Qed.

Lemma int_of_digits_nonneg n : all_digits n = true -> 0 <= Str.int_of_digits n.
Proof. intros H. unfold Str.int_of_digits. now apply int_of_digits_from. Qed.

Lemma pattern_target_ago today unit tag m n :
  In (unit, tag) ago_units -> Re.group1 m = Some n ->
  pattern_target today tag m
  = match Str.int n with
    | Ok amount => days_before today (ago_days tag amount)
    | Raise e => Raise e
    end.
Proof.
  intros Hin Hg. unfold ago_units in Hin. cbn [In] in Hin.
  unfold pattern_target, ago_days. rewrite Hg.
  destruct Hin as [Hin|[Hin|[Hin|[Hin|[Hin|[Hin|[]]]]]]];
    inversion Hin; subst; destruct (Str.int n); reflexivity.
Qed.

Lemma startswith_head_differs a p c s :
  a <> c -> Str.startswith (String a p) (String c s) = false.
Proof.
  intros H. destruct (Str.startswith (String a p) (String c s)) eqn:E;
    [|reflexivity].
  apply startswith_iff in E as [t E]. inversion E. congruence.
Qed.

(** Digits in front of a text add no occurrence of a text that starts
    with a character that is no digit. *)
Lemma contains_after_digits a p n t :
  Str.isdigit a = false -> all_digits n = true ->
  Str.contains (String a p) (n ++ t) = Str.contains (String a p) t.
Proof.
  intros Ha Hn. induction n as [|c n IH]; [reflexivity|].
  simpl in Hn. apply andb_true_iff in Hn as [Hc Hn].
  cbn [append Str.contains]. rewrite startswith_head_differs, (IH Hn);
    [reflexivity | congruence].
Qed.

Lemma ago_phrase_no_weekday unit tag n :
  In (unit, tag) ago_units -> all_digits n = true ->
  no_weekday_phrase (n ++ " " ++ unit ++ " ago") = true.
Proof.
  intros Hin Hn. unfold no_weekday_phrase, days_of_week. cbn [forallb fst append].
  rewrite !(contains_after_digits "l" _ n _ eq_refl Hn).
  unfold ago_units in Hin. cbn [In] in Hin.
  destruct Hin as [Hin|[Hin|[Hin|[Hin|[Hin|[Hin|[]]]]]]];
    inversion Hin; subst; reflexivity.
Qed.

(** The phrase ["<n> <unit> ago"] alone, by the conversion and the
    subtraction it asks for. *)
Lemma parse_ago_alone today unit tag n :
  In (unit, tag) ago_units -> n <> "" -> all_digits n = true ->
  parse_relative_date_on today (n ++ " " ++ unit ++ " ago")
  = match Str.int n with
    | Ok amount =>
        match days_before today (ago_days tag amount) with
        | Ok d => Ok (Some d)
        | Raise e => Raise e
        end
    | Raise e => Raise e
    end.
Proof.
  intros Hin Hne Hn.
  destruct (ago_phrase_shape unit tag n Hin Hne Hn) as (Hlow & _ & _).
  destruct (parse_ago_in today unit tag n "" "" Hin Hne Hn eq_refl eq_refl)
    as (m & Hg & H).
  - change ("" ++ (n ++ " " ++ unit ++ " ago") ++ "")
      with ((n ++ " " ++ unit ++ " ago") ++ "").
    rewrite append_nil_r, Hlow. now apply (ago_phrase_no_weekday unit tag).
  - change ("" ++ (n ++ " " ++ unit ++ " ago") ++ "")
      with ((n ++ " " ++ unit ++ " ago") ++ "") in H.
    rewrite append_nil_r in H. rewrite H.
    rewrite (pattern_target_ago today unit tag m n Hin Hg).
    destruct (Str.int n); reflexivity.
Qed.

Lemma ago_days_nonneg tag amount : 0 <= amount -> 0 <= ago_days tag amount.
Proof.
  intros H. unfold ago_days.
  destruct (String.eqb tag "days"); [lia|].
  destruct (String.eqb tag "weeks"); lia.
Qed.

(** X6.  ["<n> day(s) ago"], ["<n> week(s) ago"] and ["<n> month(s) ago"]
    give the date [n], [7 n] and [30 n] days before today, a month being
    thirty days, for every count [n] of up to 4300 digits, whenever that
    date is not before 0001-01-01. *)
Theorem ago_subtracts_days (w : World) (unit tag n : string) :
  In (unit, tag) ago_units -> n <> "" -> all_digits n = true ->
  Z.of_nat (String.length n) <= Str.int_max_str_digits ->
  min_ordinal + ago_days tag (Str.int_of_digits n) <= toordinal (clock w)
    <= max_ordinal ->
  parse_relative_date (n ++ " " ++ unit ++ " ago") w
  = ([EvNow],
     Ok (Some (strftime_ymd
                 (minus_days (clock w) (ago_days tag (Str.int_of_digits n)))))).
Proof.
  intros Hin Hne Hn Hlen Hrange.
  rewrite parse_relative_date_run, (parse_ago_alone _ unit tag n Hin Hne Hn).
  rewrite (int_ok n Hlen).
  pose proof (ago_days_nonneg tag _ (int_of_digits_nonneg n Hn)).
  rewrite days_before_ok; [reflexivity | |lia].
  unfold max_delta_days, min_ordinal, max_ordinal in *. lia.
Qed.

Lemma ago_subtracts_days_witness :
  parse_relative_date ("2" ++ " " ++ "months" ++ " ago")
    (sample_world monday_2024_06_10 [])
  = ([EvNow], Ok (Some (strftime_ymd (minus_days monday_2024_06_10 60))))
  /\ parse_relative_date ("400000" ++ " " ++ "days" ++ " ago")
       (sample_world monday_2024_06_10 [])
     = ([EvNow], Ok (Some (strftime_ymd (minus_days monday_2024_06_10 400000)))).
Proof.
  split.
  - apply (ago_subtracts_days (sample_world monday_2024_06_10 [])
             "months" "months" "2").
    + simpl. tauto.
    + discriminate.
    + reflexivity.
    + vm_compute. discriminate.
    + unfold min_ordinal, max_ordinal. vm_compute. split; discriminate.
  - apply (ago_subtracts_days (sample_world monday_2024_06_10 [])
             "days" "days" "400000").
    + simpl. tauto.
    + discriminate.
    + reflexivity.
    + vm_compute. discriminate.
    + unfold min_ordinal, max_ordinal. vm_compute. split; discriminate.
Defined.

Lemma days_before_raises today k :
  0 <= k ->
  (max_c_int < k ->
   days_before today k = Raise "Python int too large to convert to C int")
  /\ (max_delta_days < k <= max_c_int ->
      days_before today k
      = Raise ("days=" ++ Str.of_Z k ++ "; must have magnitude <= 999999999"))
  /\ (k <= max_delta_days -> toordinal today - k < min_ordinal ->
      days_before today k = Raise "date value out of range").
Proof.
  intros Hk.
  unfold days_before, sub_days, timedelta, max_c_int, min_c_int, max_delta_days,
    min_ordinal.
  split; [|split].
  - intros H. destruct (k <? -2147483648); [reflexivity|].
    destruct (k >? 2147483647) eqn:E; [reflexivity | lia].
  - intros H. destruct (k <? -2147483648) eqn:E1; [lia|].
    destruct (k >? 2147483647) eqn:E2; [lia|]. cbn [orb].
    destruct (Z.abs k >? 999999999) eqn:E3; [reflexivity | lia].
  - intros H1 H2. destruct (k <? -2147483648) eqn:E1; [lia|].
    destruct (k >? 2147483647) eqn:E2; [lia|]. cbn [orb].
    destruct (Z.abs k >? 999999999) eqn:E3; [lia|].
    destruct (toordinal today - k <? 1) eqn:E4; [reflexivity | lia].
Qed.

(** X7.  An "ago" form that cannot be turned into a date makes the
    parser raise; no date and no [None] is returned.  A count of more
    than 4300 digits, leading zeros counted, is refused by [int]
    ([ValueError]).  Otherwise, with [days] the days to go back, the
    error is an [OverflowError]: that of the conversion to a C [int] from
    2^31 days on, that of [timedelta] above 999999999 days, and below
    that the one of the subtraction when the date would lie before
    0001-01-01. *)
Theorem ago_before_year_one_raises (w : World) (unit tag n : string) :
  In (unit, tag) ago_units -> n <> "" -> all_digits n = true ->
  let days := ago_days tag (Str.int_of_digits n) in
  let raises e :=
    parse_relative_date (n ++ " " ++ unit ++ " ago") w = ([EvNow], Raise e) in
  (Str.int_max_str_digits < Z.of_nat (String.length n) ->
   raises ("Exceeds the limit (4300 digits) for integer string conversion: value has "
           ++ Str.of_nat (String.length n)
           ++ " digits; use sys.set_int_max_str_digits() to increase the limit"))
  /\ (Z.of_nat (String.length n) <= Str.int_max_str_digits ->
      (max_c_int < days -> raises "Python int too large to convert to C int")
      /\ (max_delta_days < days <= max_c_int ->
          raises ("days=" ++ Str.of_Z days ++ "; must have magnitude <= 999999999"))
      /\ (days <= max_delta_days -> toordinal (clock w) - days < min_ordinal ->
          raises "date value out of range")).
Proof.
  intros Hin Hne Hn days raises. unfold raises.
  rewrite parse_relative_date_run, (parse_ago_alone _ unit tag n Hin Hne Hn).
  split.
  - intros Hlen. unfold Str.int.
    destruct (Z.of_nat (String.length n) >? Str.int_max_str_digits) eqn:E;
      [reflexivity | lia].
  - intros Hlen. rewrite (int_ok n Hlen). fold days.
    pose proof (ago_days_nonneg tag _ (int_of_digits_nonneg n Hn)) as Hd.
    fold days in Hd.
    destruct (days_before_raises (clock w) days Hd) as (H1 & H2 & H3).
    split; [|split].
    + intros H. now rewrite (H1 H).
    + intros H. now rewrite (H2 H).
    + intros Ha Hb. now rewrite (H3 Ha Hb).
Qed.

Lemma ago_before_year_one_raises_witness :
  parse_relative_date ("800000" ++ " " ++ "days" ++ " ago")
    (sample_world monday_2024_06_10 [])
  = ([EvNow], Raise "date value out of range")
  /\ parse_relative_date ("150000000" ++ " " ++ "weeks" ++ " ago")
       (sample_world monday_2024_06_10 [])
     = ([EvNow], Raise "days=1050000000; must have magnitude <= 999999999")
  /\ parse_relative_date ("71582789" ++ " " ++ "months" ++ " ago")
       (sample_world monday_2024_06_10 [])
     = ([EvNow], Raise "Python int too large to convert to C int")
  /\ parse_relative_date (padded_three ++ " " ++ "days" ++ " ago")
       (sample_world monday_2024_06_10 [])
     = ([EvNow],
        Raise ("Exceeds the limit (4300 digits) for integer string conversion: value has "
               ++ "4301"
               ++ " digits; use sys.set_int_max_str_digits() to increase the limit")).
Proof.
  split; [|split; [|split]].
  - destruct (ago_before_year_one_raises (sample_world monday_2024_06_10 [])
                "days" "days" "800000") as (_ & H).
    + simpl. tauto.
    + discriminate.
    + reflexivity.
    + destruct H as (_ & _ & H); [vm_compute; discriminate|].
      apply H; vm_compute; [discriminate | reflexivity].
  - destruct (ago_before_year_one_raises (sample_world monday_2024_06_10 [])
                "weeks" "weeks" "150000000") as (_ & H).
    + simpl. tauto.
    + discriminate.
    + reflexivity.
    + destruct H as (_ & H & _); [vm_compute; discriminate|].
      apply H. vm_compute. split; [reflexivity | discriminate].
  - destruct (ago_before_year_one_raises (sample_world monday_2024_06_10 [])
                "months" "months" "71582789") as (_ & H).
    + simpl. tauto.
    + discriminate.
    + reflexivity.
    + destruct H as (H & _); [vm_compute; discriminate|].
      apply H. vm_compute. reflexivity.
  - destruct (ago_before_year_one_raises (sample_world monday_2024_06_10 [])
                "days" "days" padded_three) as (H & _).
    + simpl. tauto.
    + vm_compute. discriminate.
    + vm_compute. reflexivity.
    + assert (E : Str.of_nat (String.length padded_three) = "4301")
        by (vm_compute; reflexivity).
      rewrite E in H. apply H. vm_compute. reflexivity.
Defined.

(** X8.  When the date of a free-text query cannot be computed, the
    resolver answers with the tracking error that carries the message,
    and the order table is not read: the trace ends with the clock. *)
Theorem free_text_date_overflow
        (format_order_status : Order -> result string)
        (oid tid cid nq : option string) (w : World) (name e : string) :
  truthy oid = false -> truthy tid = false -> truthy nq = true ->
  ssm_get_parameter w table_name_parameter = Ok name ->
  parse_relative_date_on (clock w) (Str.lower (get_or_empty nq)) = Raise e ->
  track_order format_order_status oid tid cid nq w
  = ([EvSsmGetParameter table_name_parameter;
      EvSsmGetParameter table_name_parameter; EvNow],
     Ok ("[CROSS MARK] Error tracking order: " ++ e)).
Proof.
  intros Ho Ht Hq Hs Hp.
  rewrite (track_order_by_natural_query _ _ _ _ _ _ _ Ho Ht Hq Hs).
  rewrite search_run. unfold table_handle. rewrite Hs, Hp. reflexivity.
Qed.

Lemma free_text_date_overflow_witness :
  track_order sample_format None None None (Some "my phone, 800000 days ago")
    (sample_world monday_2024_06_10 mixed_orders)
  = ([EvSsmGetParameter table_name_parameter;
      EvSsmGetParameter table_name_parameter; EvNow],
     Ok "[CROSS MARK] Error tracking order: date value out of range").
Proof.
  apply (free_text_date_overflow sample_format None None None
           (Some "my phone, 800000 days ago")
           (sample_world monday_2024_06_10 mixed_orders) "orders");
    vm_compute; reflexivity.
Defined.

Lemma drop_prefix_none l s :
  Str.startswith l s = false -> Str.drop_prefix l s = None.
Proof.
  revert s. induction l as [|a l IH]; intros s H.
  - destruct s; discriminate.
  - destruct s as [|c s]; [reflexivity|]. cbn [Str.drop_prefix].
    destruct (Ascii.eqb a c) eqn:E; [|reflexivity].
    apply Ascii.eqb_eq in E. subst c. apply IH.
    destruct (Str.startswith l s) eqn:E'; [|reflexivity].
    apply startswith_iff in E' as [t ->].
    rewrite (proj2 (startswith_iff (String a l) (String a (l ++ t)))) in H;
      [discriminate | now exists t].
Qed.

(** A pattern that starts with a literal is found nowhere in a text that
    does not hold the literal. *)
Lemma search_from_without_literal l r pos s :
  Str.contains l s = false ->
  Re.search_from (Re.Lit l) pos s = None
  /\ Re.search_from (Re.Cat (Re.Lit l) r) pos s = None.
Proof.
  revert pos. induction s as [|c s IH]; intros pos H.
  - cbn [Str.contains] in H. rewrite orb_false_r in H.
    cbn [Re.search_from]. unfold Re.match_here. cbn [Re.matches].
    now rewrite (drop_prefix_none l "" H).
  - apply contains_cons_false in H as [Hs Hc].
    cbn [Re.search_from]. unfold Re.match_here. cbn [Re.matches].
    rewrite (drop_prefix_none l _ Hs). apply (IH (S pos) Hc).
Qed.

Lemma no_digit_strip s : no_digit s = true -> no_digit (Str.strip s) = true.
Proof. intros H. now apply no_digit_rstrip, no_digit_lstrip. Qed.

Lemma not_contains_strip sub x :
  Str.contains sub x = false -> Str.contains sub (Str.strip x) = false.
Proof.
  intros H. destruct (Str.contains sub (Str.strip x)) eqn:E; [|reflexivity].
  apply contains_strip in E. congruence.
Qed.

Lemma not_contains_longer sub sup s :
  Str.contains sub sup = true -> Str.contains sub s = false ->
  Str.contains sup s = false.
Proof.
  intros H1 H2. destruct (Str.contains sup s) eqn:E; [|reflexivity].
  rewrite (contains_trans sub sup s H1 E) in H2. discriminate.
Qed.

Lemma no_weekday_phrase_without_last s :
  Str.contains "last" s = false -> no_weekday_phrase s = true.
Proof.
  intros H. unfold no_weekday_phrase. apply forallb_forall. intros it _.
  apply negb_true_iff.
  apply (not_contains_longer "last" ("last " ++ fst it) s); [|exact H].
  exact (contains_here "last" (" " ++ fst it)).
Qed.

(** X9.  A text without digit that holds neither "last" nor "yesterday",
    in any case of letters, is not a date: the parser returns [None]. *)
Theorem unrecognized_text_is_none (w : World) (text : string) :
  no_digit text = true ->
  Str.contains "last" (Str.lower text) = false ->
  Str.contains "yesterday" (Str.lower text) = false ->
  parse_relative_date text w = ([EvNow], Ok None).
Proof.
  intros Hd Hl Hy. rewrite parse_relative_date_run.
  unfold parse_relative_date_on.
  set (s := Str.strip (Str.lower text)).
  assert (Hds : no_digit s = true) by now apply no_digit_strip, no_digit_lower.
  assert (Hls : Str.contains "last" s = false) by now apply not_contains_strip.
  assert (Hys : Str.contains "yesterday" s = false) by now apply not_contains_strip.
  rewrite weekday_loop_miss.
  - unfold time_patterns. cbn [pattern_loop]. unfold Re.search.
    rewrite !search_from_no_digit by exact Hds.
    rewrite (proj1 (search_from_without_literal "yesterday" (Re.Lit "") 0 s Hys)).
    unfold last_pattern.
    rewrite !(proj2 (search_from_without_literal "last" _ 0 s Hls)).
    reflexivity.
  - now apply no_weekday_phrase_without_last.
Qed.

Lemma unrecognized_text_is_none_witness :
  parse_relative_date "Sometime in spring" (sample_world monday_2024_06_10 [])
  = ([EvNow], Ok None).
Proof. apply unrecognized_text_is_none; reflexivity. Defined.

Lemma isspace_lower c : Str.isspace (Str.lower_char c) = Str.isspace c.
Proof. destruct c as [[] [] [] [] [] [] [] []]; reflexivity. Qed.

Lemma all_space_lower s : all_space s = true -> all_space (Str.lower s) = true.
Proof.
  induction s as [|c s IH]; [reflexivity|]. simpl. intros H.
  apply andb_true_iff in H as [Hc Hs]. now rewrite isspace_lower, Hc, IH.
Qed.

Lemma lstrip_space ws x :
  all_space ws = true -> Str.lstrip (ws ++ x) = Str.lstrip x.
Proof.
  induction ws as [|c ws IH]; [reflexivity|]. simpl. intros H.
  apply andb_true_iff in H as [Hc Hs]. rewrite Hc. auto.
Qed.

Lemma rstrip_all_space ws : all_space ws = true -> Str.rstrip ws = "".
Proof.
  induction ws as [|c ws IH]; [reflexivity|]. simpl. intros H.
  apply andb_true_iff in H as [Hc Hs]. now rewrite (IH Hs), Hc.
Qed.

Lemma rstrip_space x ws :
  all_space ws = true -> Str.rstrip (x ++ ws) = Str.rstrip x.
Proof.
  intros H. induction x as [|c x IH].
  - now apply rstrip_all_space.
  - cbn [append Str.rstrip]. now rewrite IH.
Qed.

Lemma lstrip_before_space x ws :
  all_space ws = true ->
  exists ws', all_space ws' = true /\ Str.lstrip (x ++ ws) = Str.lstrip x ++ ws'.
Proof.
  intros H. induction x as [|c x IH].
  - exists "". split; [reflexivity|]. cbn [append Str.lstrip].
    rewrite <- (append_nil_r ws). rewrite lstrip_space by exact H. reflexivity.
  - cbn [append Str.lstrip]. destruct (Str.isspace c); [exact IH|].
    now exists ws.
Qed.

Lemma strip_outer_space ws1 x ws2 :
  all_space ws1 = true -> all_space ws2 = true ->
  Str.strip (ws1 ++ x ++ ws2) = Str.strip x.
Proof.
  intros H1 H2. unfold Str.strip. rewrite (lstrip_space ws1 _ H1).
  destruct (lstrip_before_space x ws2 H2) as (ws' & Hw & ->).
  now apply rstrip_space.
Qed.

(** X10.  Letter case and white space around the text do not matter to
    the parser: two texts with the same lower-case form, one of them
    between white space, are read alike. *)
Theorem parse_ignores_case_and_margin (w : World) (s1 s2 ws1 ws2 : string) :
  Str.lower s1 = Str.lower s2 ->
  all_space ws1 = true -> all_space ws2 = true ->
  parse_relative_date (ws1 ++ s1 ++ ws2) w = parse_relative_date s2 w.
Proof.
  intros Hl H1 H2. rewrite !parse_relative_date_run.
  unfold parse_relative_date_on.
  rewrite (lower_app ws1), (lower_app s1 ws2), Hl.
  rewrite strip_outer_space by now apply all_space_lower.
  reflexivity.
Qed.

Lemma parse_ignores_case_and_margin_witness :
  parse_relative_date ("  " ++ "Last FRIDAY" ++ " ")
    (sample_world monday_2024_06_10 [])
  = parse_relative_date "last friday" (sample_world monday_2024_06_10 []).
Proof. apply parse_ignores_case_and_margin; reflexivity. Defined.

(* ================================================================== *)
(** ** What a match captured, and what date comes out                  *)
(* ================================================================== *)

Section Calls.
Context {A : Type}.

Lemma star_calls c s (k : string -> option A) r :
  Re.star c s k = Some r -> exists rest, k rest = Some r.
Proof.
  induction s as [|a s IH]; cbn [Re.star]; intros H; [now exists ""|].
  destruct (Re.in_cls c a); [|now exists (String a s)].
  destruct (Re.star c s k) as [r'|] eqn:E.
  - inversion H; subst. now apply IH.
  - now exists (String a s).
Qed.

Lemma star_digits_sound s (k : string -> option A) r :
  Re.star Re.Digit s k = Some r ->
  exists n rest, s = n ++ rest /\ all_digits n = true /\ k rest = Some r.
Proof.
  induction s as [|a s IH]; cbn [Re.star]; intros H; [now exists "", ""|].
  cbn [Re.in_cls] in H. destruct (Str.isdigit a) eqn:Ea;
    [|now exists "", (String a s)].
  destruct (Re.star Re.Digit s k) as [r'|] eqn:E.
  - inversion H; subst. destruct (IH eq_refl) as (n & rest & -> & Hn & Hk).
    exists (String a n), rest. repeat split; [|exact Hk].
    cbn [all_digits]. now rewrite Ea, Hn.
  - now exists "", (String a s).
Qed.

Lemma plus_digits_sound s (k : string -> option A) r :
  Re.plus Re.Digit s k = Some r ->
  exists n rest, s = n ++ rest /\ all_digits n = true /\ k rest = Some r.
Proof.
  unfold Re.plus. destruct s as [|a s]; [discriminate|]. cbn [Re.in_cls].
  destruct (Str.isdigit a) eqn:Ea; [|discriminate].
  intros H. apply star_digits_sound in H as (n & rest & -> & Hn & Hk).
  exists (String a n), rest. repeat split; [|exact Hk].
  cbn [all_digits]. now rewrite Ea, Hn.
Qed.

(** A pattern without group hands the group it was given to what
    follows it. *)
Lemma matches_group_free r :
  group_free r = true ->
  forall s g (k : option string -> string -> option A) m,
    Re.matches r s g k = Some m -> exists rest, k g rest = Some m.
Proof.
  induction r as [l|c|a|r1 IH1 r2 IH2|r IH]; intros Hf s g k m;
    cbn [Re.matches].
  - destruct (Str.drop_prefix l s) as [rest|]; [|discriminate]. now exists rest.
  - unfold Re.plus. destruct s as [|a s]; [discriminate|].
    destruct (Re.in_cls c a); [|discriminate]. apply star_calls.
  - destruct s as [|b s]; [now exists ""|].
    destruct (Ascii.eqb a b); [|now exists (String b s)].
    destruct (k g s) as [r'|] eqn:E.
    + intros H. inversion H; subst. now exists s.
    + now exists (String b s).
  - cbn [group_free] in Hf. apply andb_true_iff in Hf as [H1 H2].
    intros H. destruct (IH1 H1 _ _ _ _ H) as [rest Hr].
    now apply (IH2 H2) in Hr.
  - discriminate.
Qed.

End Calls.

(** What an "ago" pattern captures is a number. *)
Lemma match_here_ago_group unit pos s m :
  Re.match_here (ago_pattern unit) pos s = Some m ->
  exists n, Re.group1 m = Some n /\ all_digits n = true.
Proof.
  unfold Re.match_here, ago_pattern. cbn [Re.matches].
  intros H. apply plus_digits_sound in H as (n & rest & -> & Hn & Hk).
  rewrite substring_prefix in Hk.
  apply (matches_group_free (ago_tail unit) eq_refl) in Hk as [rest' Hk].
  inversion Hk; subst m. exists n. split; [reflexivity | exact Hn].
Qed.

Lemma search_from_some r pos s m :
  Re.search_from r pos s = Some m ->
  exists pos' s', Re.match_here r pos' s' = Some m.
Proof.
  revert pos. induction s as [|c s IH]; intros pos; cbn [Re.search_from].
  - destruct (Re.match_here r pos "") eqn:E; [|discriminate].
    intros H. inversion H; subst. now exists pos, "".
  - destruct (Re.match_here r pos (String c s)) eqn:E.
    + intros H. inversion H; subst. now exists pos, (String c s).
    + apply IH.
Qed.

Lemma search_ago_group unit s m :
  Re.search (ago_pattern unit) s = Some m ->
  exists n, Re.group1 m = Some n /\ 0 <= Str.int_of_digits n.
Proof.
  intros H. apply search_from_some in H as (pos & s' & H).
  apply match_here_ago_group in H as (n & Hg & Hn).
  exists n. split; [exact Hg | now apply int_of_digits_nonneg].
Qed.

(** Whatever pattern matches first, the body raises or the date asked
    for lies a number of days back that is not negative. *)
Lemma first_pattern_target today s unit m :
  first_pattern s time_patterns = Some (unit, m) ->
  (exists e, pattern_target today unit m = Raise e)
  \/ exists k, 0 <= k /\ pattern_target today unit m = days_before today k.
Proof.
  assert (Hago : forall u tag m',
             In (u, tag) ago_units ->
             Re.search (ago_pattern u) s = Some m' ->
             (exists e, pattern_target today tag m' = Raise e)
             \/ exists k, 0 <= k /\ pattern_target today tag m' = days_before today k).
  { intros u tag m' Hin E. destruct (search_ago_group _ _ _ E) as (n & Hg & Hn).
    rewrite (pattern_target_ago today u tag m' n Hin Hg).
    destruct (Str.int n) as [amount|e] eqn:Ei; [|left; now exists e].
    apply int_inv in Ei as [-> _]. right.
    exists (ago_days tag (Str.int_of_digits n)).
    split; [now apply ago_days_nonneg | reflexivity]. }
  unfold time_patterns. cbn [first_pattern].
  destruct (Re.search (ago_pattern "day") s) as [m1|] eqn:E1.
  { intros H. inversion H; subst. apply (Hago "day"); [simpl; tauto | exact E1]. }
  destruct (Re.search (ago_pattern "week") s) as [m2|] eqn:E2.
  { intros H. inversion H; subst. apply (Hago "week"); [simpl; tauto | exact E2]. }
  destruct (Re.search (ago_pattern "month") s) as [m3|] eqn:E3.
  { intros H. inversion H; subst. apply (Hago "month"); [simpl; tauto | exact E3]. }
  destruct (Re.search (Re.Lit "yesterday") s).
  { intros H. inversion H; subst. right. exists 1. split; [lia | reflexivity]. }
  destruct (Re.search (last_pattern "week") s).
  { intros H. inversion H; subst. right. exists (7 * 1). split; [lia | reflexivity]. }
  destruct (Re.search (last_pattern "month") s); [|discriminate].
  intros H. inversion H; subst. right. exists 30. split; [lia | reflexivity].
Qed.

Lemma days_before_inv today k d :
  days_before today k = Ok d ->
  d = strftime_ymd (minus_days today k)
  /\ min_ordinal <= toordinal today - k <= max_ordinal.
Proof.
  unfold days_before, sub_days, minus_days.
  destruct (timedelta k) as [days|e] eqn:Et; [|discriminate].
  assert (days = k) as ->.
  { unfold timedelta in Et.
    destruct ((k <? min_c_int) || (k >? max_c_int)); [discriminate|].
    destruct (Z.abs k >? max_delta_days); [discriminate|]. now inversion Et. }
  destruct (toordinal today - k <? min_ordinal) eqn:E1; [discriminate|].
  destruct (toordinal today - k >? max_ordinal) eqn:E2; [discriminate|].
  cbn [orb]. intros H. inversion H. split; [reflexivity|]. lia.
Qed.

Lemma year_texts_checked : all_from year_text_ok 1 (Z.to_nat 9999) = true.
Proof. vm_compute. reflexivity. Qed.

Lemma year_text_length y :
  1 <= y <= 9999 ->
  (1000 <= y -> String.length (Str.of_Z y) = 4%nat)
  /\ (y < 1000 -> (String.length (Str.of_Z y) < 4)%nat).
Proof.
  intros Hy.
  assert (H : year_text_ok y = true).
  { apply (all_from_spec _ 1 (Z.to_nat 9999) year_texts_checked).
    rewrite Z2Nat.id; lia. }
  unfold year_text_ok in H. destruct (1000 <=? y) eqn:E.
  - apply Nat.eqb_eq in H. split; [auto | lia].
  - apply Nat.ltb_lt in H. split; [lia | auto].
Qed.

Lemma days_before_month_nonneg m : 0 <= days_before_month m.
Proof. unfold days_before_month. destruct m as [|p|p]; [lia| |lia].
  do 4 (destruct p as [p|p|]; try lia).
Qed.

(** The years of the dates that exist are the years 1..9999. *)
Lemma year_range d : valid_datetime d -> 1 <= year d <= 9999.
Proof.
  unfold valid_datetime, min_ordinal, max_ordinal, year. intros Hv.
  destruct (ord2ymd_parts (toordinal d)) as (y & m & e & -> & Hy & Hm & He & Ho).
  cbn [fst].
  pose proof (Z.div_mod (toordinal d - 1) 146097 ltac:(lia)) as D.
  pose proof (Z.mod_pos_bound (toordinal d - 1) 146097 ltac:(lia)) as B.
  set (q := (toordinal d - 1) / 146097) in *.
  set (r := (toordinal d - 1) mod 146097) in *.
  assert (0 <= q <= 24) by lia.
  destruct (Z.eq_dec y 400) as [->|Hne]; [|lia].
  assert (145732 <= ymd2ord 400 m e).
  { unfold ymd2ord. pose proof (days_before_month_nonneg m).
    change (days_before_year 400) with 145731.
    destruct ((m >? 2) && is_leap 400); lia. }
  lia.
Qed.

Lemma strftime_ymd_length t :
  String.length (strftime_ymd t) = (String.length (Str.of_Z (year t)) + 6)%nat.
Proof.
  unfold strftime_ymd, year. destruct (ord2ymd (toordinal t)) as [[y m] d].
  cbn [fst]. rewrite length_append. reflexivity.
Qed.

(** The date a text is read as, when it is read as one. *)
Lemma parse_relative_date_on_some today s d :
  parse_relative_date_on today s = Ok (Some d) ->
  exists k, 0 <= k /\ days_before today k = Ok d.
Proof.
  unfold parse_relative_date_on. rewrite weekday_loop_find, pattern_loop_first.
  destruct (find _ days_of_week) as [[day_name day_num]|].
  - destruct (days_before today (days_back today day_num)) as [d'|e] eqn:E;
      [|discriminate].
    intros H. inversion H; subst d'.
    exists (days_back today day_num). split; [|exact E].
    pose proof (days_back_range today day_num). lia.
  - destruct (first_pattern _ time_patterns) as [[unit m]|] eqn:E; [|discriminate].
    destruct (first_pattern_target today _ _ _ E) as [[e ->]|(k & Hk & ->)];
      [discriminate|].
    destruct (days_before today k) as [d'|e] eqn:Ed; [|discriminate].
    intros H. inversion H; subst d'. now exists k.
Qed.

(** X11.  A date the parser returns is never after today: it is the
    text of the date some [k >= 0] days before the clock's date, a date of
    the years 1..9999.  The text has ten characters when that year is
    1000 or later and fewer when it is earlier, the year being written
    without padding. *)
Theorem parsed_date_is_not_future (w : World) (text d : string) :
  snd (parse_relative_date text w) = Ok (Some d) ->
  exists k,
    0 <= k
    /\ d = strftime_ymd (minus_days (clock w) k)
    /\ min_ordinal <= toordinal (clock w) - k <= max_ordinal
    /\ (1000 <= year (minus_days (clock w) k) -> String.length d = 10%nat)
    /\ (year (minus_days (clock w) k) < 1000 -> (String.length d < 10)%nat).
Proof.
  rewrite parse_relative_date_run. cbn [snd]. intros H.
  destruct (parse_relative_date_on_some _ _ _ H) as (k & Hk & Hd).
  apply days_before_inv in Hd as [-> Hr].
  exists k. split; [exact Hk|]. split; [reflexivity|]. split; [exact Hr|].
  rewrite strftime_ymd_length.
  destruct (year_text_length (year (minus_days (clock w) k))) as [H4 H3].
  { apply year_range. unfold valid_datetime. exact Hr. }
  split; intros Hy; [rewrite (H4 Hy); reflexivity | specialize (H3 Hy); lia].
Qed.

Lemma parsed_date_is_not_future_witness :
  (exists k,
      0 <= k
      /\ "2024-05-27" = strftime_ymd (minus_days monday_2024_06_10 k)
      /\ min_ordinal <= toordinal monday_2024_06_10 - k <= max_ordinal
      /\ (1000 <= year (minus_days monday_2024_06_10 k) ->
          String.length "2024-05-27" = 10%nat)
      /\ (year (minus_days monday_2024_06_10 k) < 1000 ->
          (String.length "2024-05-27" < 10)%nat))
  /\ (exists k,
        0 <= k
        /\ "956-08-28" = strftime_ymd (minus_days monday_2024_06_10 k)
        /\ min_ordinal <= toordinal monday_2024_06_10 - k <= max_ordinal
        /\ (1000 <= year (minus_days monday_2024_06_10 k) ->
            String.length "956-08-28" = 10%nat)
        /\ (year (minus_days monday_2024_06_10 k) < 1000 ->
            (String.length "956-08-28" < 10)%nat)).
Proof.
  split.
  - apply (parsed_date_is_not_future (sample_world monday_2024_06_10 [])
             "it came 2 weeks ago" "2024-05-27").
    vm_compute. reflexivity.
  - apply (parsed_date_is_not_future (sample_world monday_2024_06_10 [])
             "it came 13000 months ago" "956-08-28").
    vm_compute. reflexivity.
Defined.

(* ================================================================== *)
(** ** More on the scores and on what the search returns               *)
(* ================================================================== *)

Lemma keyword_step_shift q p (kw : string) acc :
  (if Str.contains kw q && Str.contains kw p then acc + 2 else acc)
  = acc + (if Str.contains kw q && Str.contains kw p then 0 + 2 else 0).
Proof. destruct (Str.contains kw q && Str.contains kw p); lia. Qed.

Lemma keyword_step_nonneg q p (kw : string) :
  0 <= (if Str.contains kw q && Str.contains kw p then 0 + 2 else 0).
Proof. destruct (Str.contains kw q && Str.contains kw p); lia. Qed.

Lemma keyword_score_nonneg q p : 0 <= keyword_score q p 0.
Proof.
  apply (run_nonneg (fun kw acc =>
           if Str.contains kw q && Str.contains kw p then acc + 2 else acc)
           (keyword_step_shift q p) (keyword_step_nonneg q p)).
Qed.

Lemma order_match_score_nonneg q parsed o : 0 <= order_match_score q parsed o.
Proof.
  rewrite order_match_score_sum.
  pose proof (keyword_score_nonneg q (Str.lower (get_or_empty (product_name o)))).
  pose proof (word_score_nonneg q (Str.lower (get_or_empty (product_name o)))).
  destruct (date_matches parsed o); lia.
Qed.

Lemma keyword_score_no_name q : keyword_score q "" 0 = 0.
Proof.
  unfold keyword_score, product_keywords. cbn [fold_left].
  repeat match goal with
         | |- context [Str.contains ?k ""] =>
             change (Str.contains k "") with false
         end.
  rewrite !andb_false_r. reflexivity.
Qed.

Lemma word_score_no_name q : word_score q "" 0 = 0.
Proof.
  rewrite word_score_steps. change (Str.split "") with (@nil string).
  generalize (Str.split q) as qws. generalize 0 as acc.
  intros acc qws. revert acc. induction qws as [|qw qws IH]; intros acc;
    [reflexivity|].
  cbn [fold_left]. unfold word_step at 2. cbn [fold_left].
  destruct (3 <? String.length qw)%nat; apply IH.
Qed.

(** X12.  An order without product name (the key absent or its text
    empty) gets no keyword and no word score: it scores 3 when its date
    is the parsed date of the query and 0 otherwise, whatever the query. *)
Theorem nameless_order_scores_date_only
        (q : string) (parsed : option string) (o : Order) :
  product_name o = None \/ product_name o = Some "" ->
  order_match_score q parsed o = if date_matches parsed o then 3 else 0.
Proof.
  intros H. rewrite order_match_score_sum.
  assert (E : Str.lower (get_or_empty (product_name o)) = "")
    by (destruct H as [-> | ->]; reflexivity).
  rewrite E, keyword_score_no_name, word_score_no_name.
  destruct (date_matches parsed o); reflexivity.
Qed.

Lemma nameless_order_scores_date_only_witness :
  order_match_score "iphone last friday" (Some "2024-06-07")
    (mkOrder (Some "9") None (Some "shipped") (Some "2024-06-07") None [])
  = 3.
Proof.
  rewrite nameless_order_scores_date_only; [reflexivity | now left].
Defined.

(** X13.  Every fetched order whose [order_date] is the date parsed from
    the query is returned by the search, with a score of at least 3,
    whatever its product name. *)
Theorem date_match_is_returned
        (q : string) (cid : option string) (w : World)
        (name : string) (parsed : option string) (o : Order) :
  ssm_get_parameter w table_name_parameter = Ok name ->
  parse_relative_date_on (clock w) (Str.lower q) = Ok parsed ->
  In o (candidates (mkHandle name (dynamodb_Table w name)) cid) ->
  date_matches parsed o = true ->
  exists l,
    snd (search_orders_by_natural_query q cid w) = Ok l
    /\ In (scored (Str.lower q) parsed o) l
    /\ 3 <= score_key (scored (Str.lower q) parsed o).
Proof.
  intros Hs Hp Hin Hd.
  assert (H3 : 3 <= order_match_score (Str.lower q) parsed o).
  { rewrite order_match_score_sum, Hd.
    pose proof (keyword_score_nonneg (Str.lower q)
                  (Str.lower (get_or_empty (product_name o)))).
    pose proof (word_score_nonneg (Str.lower q)
                  (Str.lower (get_or_empty (product_name o)))). lia. }
  eexists. split; [apply (search_result q cid w name parsed Hs Hp)|].
  split; [|exact H3].
  unfold ranked.
  apply (Permutation_in _ (Permutation_sym (sort_desc_perm score_key _))).
  apply in_map. unfold positive. apply filter_In. split; [exact Hin|].
  apply Z.gtb_lt. lia.
Qed.

Lemma date_match_is_returned_witness :
  exists l,
    snd (search_orders_by_natural_query "anything from last friday" None
           (sample_world monday_2024_06_10 mixed_orders)) = Ok l
    /\ In (scored (Str.lower "anything from last friday") (Some "2024-06-07")
             (sample_order "3" "MacBook Air" "2024-06-07")) l
    /\ 3 <= score_key
              (scored (Str.lower "anything from last friday") (Some "2024-06-07")
                 (sample_order "3" "MacBook Air" "2024-06-07")).
Proof.
  apply (date_match_is_returned "anything from last friday" None
           (sample_world monday_2024_06_10 mixed_orders) "orders").
  - reflexivity.
  - vm_compute. reflexivity.
  - simpl. tauto.
  - reflexivity.
Defined.

(** X14.  The search returns fetched orders only, and changes nothing of
    an order but its [match_score]: every returned order has the id, the
    product name, the status, the date and the other attributes of a
    fetched order, and there are no more of them than were fetched. *)
Theorem search_returns_fetched_orders
        (q : string) (cid : option string) (w : World)
        (name : string) (l : list Order) :
  ssm_get_parameter w table_name_parameter = Ok name ->
  snd (search_orders_by_natural_query q cid w) = Ok l ->
  Forall (fun o =>
            exists o0,
              In o0 (candidates (mkHandle name (dynamodb_Table w name)) cid)
              /\ order_id o = order_id o0
              /\ product_name o = product_name o0
              /\ status o = status o0
              /\ order_date o = order_date o0
              /\ other_attributes o = other_attributes o0) l
  /\ (List.length l
      <= List.length (candidates (mkHandle name (dynamodb_Table w name)) cid))%nat.
Proof.
  intros Hs. rewrite search_run. unfold table_handle. rewrite Hs.
  destruct (parse_relative_date_on (clock w) (Str.lower q)) as [parsed|e];
    [|discriminate].
  unfold candidates.
  destruct (fetch_orders _ cid) as [orders|e]; cbn [snd]; intros H;
    inversion H; subst l; clear H.
  - split.
    + apply sort_desc_Forall, Forall_forall. intros o Ho.
      apply in_map_iff in Ho as (o0 & <- & Ho0).
      apply filter_In in Ho0 as [Ho0 _]. exists o0. repeat split. exact Ho0.
    + rewrite sort_desc_length, length_map. unfold positive.
      apply filter_length_le.
  - split; [constructor | apply Nat.le_refl].
Qed.

Lemma search_returns_fetched_orders_witness :
  (List.length
     (sort_desc Z.ltb score_key
        (map (scored "iphone" None) (positive "iphone" None mixed_orders)))
   <= List.length
        (candidates
           (mkHandle "orders"
              (dynamodb_Table (sample_world monday_2024_06_10 mixed_orders) "orders"))
           None))%nat.
Proof.
  apply (search_returns_fetched_orders "iphone" None
           (sample_world monday_2024_06_10 mixed_orders) "orders");
    vm_compute; reflexivity.
Defined.

(* ================================================================== *)
(** ** More on the branches of the resolver                            *)
(* ================================================================== *)

(** X15.  With no [order_id] and a [tracking_id], the customer id and the
    free text are not looked at: the call reads the table-name parameter
    and the tracking index and nothing else, and when the index returns
    several orders the first one is the answer. *)
Theorem tracking_id_lookup_only
        (format_order_status : Order -> result string)
        (oid tid cid nq : option string) (w : World) :
  truthy oid = false -> truthy tid = true ->
  track_order format_order_status oid tid cid nq w
  = track_order format_order_status None tid None None w
  /\ Forall (fun ev => ev = EvSsmGetParameter table_name_parameter
                       \/ exists name,
                            ev = EvQuery name "tracking-index" (get_or_empty tid))
            (fst (track_order format_order_status oid tid cid nq w))
  /\ forall name order others,
       ssm_get_parameter w table_name_parameter = Ok name ->
       query (dynamodb_Table w name) "tracking-index" (get_or_empty tid)
       = Ok (order :: others) ->
       snd (track_order format_order_status oid tid cid nq w)
       = Ok match format_order_status order with
            | Ok text => text
            | Raise e =>
                "[CROSS MARK] Error looking up tracking ID " ++ get_or_empty tid
                ++ ": " ++ e
            end.
Proof.
  intros Ho Ht.
  destruct (ssm_get_parameter w table_name_parameter) as [name|e] eqn:E.
  - rewrite (track_order_by_tracking_id _ oid tid cid nq w name Ho Ht E).
    rewrite (track_order_by_tracking_id _ None tid None None w name eq_refl Ht E).
    split; [reflexivity|]. split.
    + cbn [fst]. constructor; [now left|].
      constructor; [right; now exists name | constructor].
    + intros name' order others H Hq. inversion H; subst name'.
      cbn [snd]. rewrite Hq. reflexivity.
  - rewrite !(track_order_no_handle _ _ _ _ _ w e E).
    split; [reflexivity|]. split.
    + cbn [fst]. constructor; [now left | constructor].
    + intros name' order others H. discriminate.
Qed.

Lemma tracking_id_lookup_only_witness :
  track_order sample_format (Some "") (Some "T9") (Some "c7") (Some "iphone")
    (sample_world monday_2024_06_10 mixed_orders)
  = track_order sample_format None (Some "T9") None None
      (sample_world monday_2024_06_10 mixed_orders).
Proof.
  apply (tracking_id_lookup_only sample_format (Some "") (Some "T9") (Some "c7")
           (Some "iphone") (sample_world monday_2024_06_10 mixed_orders));
    reflexivity.
Defined.

Lemma order_line_complete o :
  listing_complete o = true -> exists line, order_line o = Ok line.
Proof.
  unfold listing_complete, order_line, getitem.
  destruct (order_id o), (product_name o), (status o), (order_date o);
    try discriminate.
  intros _. eexists. reflexivity.
Qed.

Lemma order_line_incomplete o :
  listing_complete o = false ->
  exists key, In key listing_keys /\ order_line o = Raise ("'" ++ key ++ "'").
Proof.
  unfold listing_complete, order_line, getitem, listing_keys.
  destruct (order_id o); [|exists "order_id"; split; [simpl; tauto | reflexivity]].
  destruct (product_name o);
    [|exists "product_name"; split; [simpl; tauto | reflexivity]].
  destruct (status o); [|exists "status"; split; [simpl; tauto | reflexivity]].
  destruct (order_date o);
    [discriminate | exists "order_date"; split; [simpl; tauto | reflexivity]].
Qed.

Lemma numbered_lines_complete i l response :
  forallb listing_complete l = true ->
  exists text, numbered_lines i l response = Ok text.
Proof.
  revert i response. induction l as [|o l IH]; intros i response H.
  - now exists response.
  - cbn [forallb] in H. apply andb_true_iff in H as [Ho Hl].
    destruct (order_line_complete o Ho) as [line E].
    cbn [numbered_lines]. rewrite E. apply IH, Hl.
Qed.

Lemma numbered_lines_incomplete i l response :
  forallb listing_complete l = false ->
  exists key,
    In key listing_keys /\ numbered_lines i l response = Raise ("'" ++ key ++ "'").
Proof.
  revert i response. induction l as [|o l IH]; intros i response H;
    [discriminate|].
  cbn [forallb] in H. cbn [numbered_lines].
  destruct (listing_complete o) eqn:Ho.
  - destruct (order_line_complete o Ho) as [line E]. rewrite E. apply IH, H.
  - destruct (order_line_incomplete o Ho) as (key & Hk & E).
    exists key. now rewrite E.
Qed.

(** X16.  The text for several matches reads four keys of each of the
    first five orders.  When they all have them the resolver returns
    that text; when one of them lacks a key the resolver returns the
    tracking error naming a missing key.  Orders after the fifth are not
    read. *)
Theorem several_matches_need_listing_keys
        (format_order_status : Order -> result string)
        (oid tid cid nq : option string) (w : World)
        (name : string) (l : list Order) :
  truthy oid = false -> truthy tid = false -> truthy nq = true ->
  ssm_get_parameter w table_name_parameter = Ok name ->
  snd (search_orders_by_natural_query (get_or_empty nq) cid w) = Ok l ->
  (2 <= List.length l)%nat ->
  (forallb listing_complete (firstn 5 l) = true ->
   exists text,
     multiple_matches (get_or_empty nq) l = Ok text
     /\ snd (track_order format_order_status oid tid cid nq w) = Ok text)
  /\ (forallb listing_complete (firstn 5 l) = false ->
      exists key,
        In key listing_keys
        /\ snd (track_order format_order_status oid tid cid nq w)
           = Ok ("[CROSS MARK] Error tracking order: '" ++ key ++ "'")).
Proof.
  intros Ho Ht Hq Hs Hl H2.
  rewrite (track_order_by_natural_query _ _ _ _ _ _ _ Ho Ht Hq Hs).
  cbn [snd]. rewrite Hl.
  assert (Hf : free_text_reply format_order_status (get_or_empty nq) l
               = multiple_matches (get_or_empty nq) l).
  { destruct l as [|a [|b l']]; cbn [List.length] in H2; try lia. reflexivity. }
  rewrite Hf. unfold multiple_matches. split; intros Hc.
  - destruct (numbered_lines_complete 1 (firstn 5 l)
                ("[LEFT-POINTING MAGNIFYING GLASS] Found "
                 ++ Str.of_nat (List.length l) ++ " orders matching '"
                 ++ get_or_empty nq ++ "':" ++ nl ++ nl) Hc) as [text E].
    rewrite E. eexists. split; reflexivity.
  - destruct (numbered_lines_incomplete 1 (firstn 5 l)
                ("[LEFT-POINTING MAGNIFYING GLASS] Found "
                 ++ Str.of_nat (List.length l) ++ " orders matching '"
                 ++ get_or_empty nq ++ "':" ++ nl ++ nl) Hc) as (key & Hk & E).
    rewrite E. exists key. split; [exact Hk | reflexivity].
Qed.

Lemma several_matches_need_listing_keys_witness :
  exists key,
    In key listing_keys
    /\ snd (track_order sample_format None None None (Some "iphone")
              (sample_world monday_2024_06_10 orders_without_status))
       = Ok ("[CROSS MARK] Error tracking order: '" ++ key ++ "'").
Proof.
  destruct (several_matches_need_listing_keys sample_format None None None
              (Some "iphone")
              (sample_world monday_2024_06_10 orders_without_status) "orders"
              (sort_desc Z.ltb score_key
                 (map (scored "iphone" None)
                      (positive "iphone" None orders_without_status)))
              eq_refl eq_refl eq_refl eq_refl) as [_ Hmissing].
  - vm_compute. reflexivity.
  - vm_compute. repeat constructor.
  - apply Hmissing. vm_compute. reflexivity.
Defined.

(* ================================================================== *)
(** ** The listing of a customer's orders                              *)
(* ================================================================== *)

Lemma ascii_compare_refl a : Ascii.compare a a = Eq.
Proof. unfold Ascii.compare. apply N.compare_refl. Qed.

Lemma ascii_compare_lt_trans a b c :
  Ascii.compare a b = Lt -> Ascii.compare b c = Lt -> Ascii.compare a c = Lt.
Proof.
  unfold Ascii.compare. rewrite !N.compare_lt_iff. apply N.lt_trans.
Qed.

Lemma string_compare_lt_trans a :
  forall b c,
    String.compare a b = Lt -> String.compare b c = Lt -> String.compare a c = Lt.
Proof.
  induction a as [|x a IH]; intros [|y b] [|z c]; simpl; try discriminate;
    try reflexivity.
  destruct (Ascii.compare x y) eqn:Exy; try discriminate;
    destruct (Ascii.compare y z) eqn:Eyz; try discriminate.
  - apply Ascii.compare_eq_iff in Exy, Eyz. subst.
    rewrite ascii_compare_refl. apply IH.
  - apply Ascii.compare_eq_iff in Exy. subst. now rewrite Eyz.
  - apply Ascii.compare_eq_iff in Eyz. subst. now rewrite Exy.
  - now rewrite (ascii_compare_lt_trans x y z Exy Eyz).
Qed.

Lemma string_leb_trans a b c :
  String.leb a b = true -> String.leb b c = true -> String.leb a c = true.
Proof.
  unfold String.leb.
  destruct (String.compare a b) eqn:Eab; try discriminate; intros _;
    destruct (String.compare b c) eqn:Ebc; try discriminate; intros _.
  - apply String.compare_eq_iff in Eab. subst. now rewrite Ebc.
  - apply String.compare_eq_iff in Eab. subst. now rewrite Ebc.
  - apply String.compare_eq_iff in Ebc. subst. now rewrite Eab.
  - now rewrite (string_compare_lt_trans a b c Eab Ebc).
Qed.

Lemma string_ltb_leb a b : String.ltb a b = true -> String.leb a b = true.
Proof.
  unfold String.ltb, String.leb. now destruct (String.compare a b).
Qed.

Lemma string_not_ltb_leb a b : String.ltb a b = false -> String.leb b a = true.
Proof.
  unfold String.ltb, String.leb. rewrite (String.compare_antisym b a).
  now destruct (String.compare a b).
Qed.

Section TextSort.
Context {A : Type} (key : A -> string).

Lemma insert_text_perm x l :
  Permutation (insert_desc String.ltb key x l) (x :: l).
Proof.
  induction l as [|y l IH]; simpl; [apply Permutation_refl|].
  destruct (String.ltb (key x) (key y)).
  - eapply Permutation_trans; [apply perm_skip, IH | apply perm_swap].
  - apply Permutation_refl.
Qed.

Lemma sort_text_perm l : Permutation (sort_desc String.ltb key l) l.
Proof.
  induction l as [|x l IH]; simpl; [constructor|].
  eapply Permutation_trans; [apply insert_text_perm | now apply perm_skip].
Qed.

Lemma insert_text_sorted x l :
  StronglySorted (not_older key) l ->
  StronglySorted (not_older key) (insert_desc String.ltb key x l).
Proof.
  induction 1 as [|y l Hs IH Hy]; simpl.
  - repeat constructor.
  - destruct (String.ltb (key x) (key y)) eqn:E.
    + constructor; [exact IH|].
      apply Forall_forall. intros z Hz.
      apply (Permutation_in _ (insert_text_perm x l)) in Hz.
      destruct Hz as [<-|Hz].
      * unfold not_older. now apply string_ltb_leb.
      * revert z Hz. now apply Forall_forall.
    + apply string_not_ltb_leb in E. constructor; [now constructor|].
      constructor; [exact E|].
      eapply Forall_impl; [|exact Hy]. unfold not_older. intros z Hz.
      now apply (string_leb_trans _ (key y)).
Qed.

Lemma sort_text_sorted l :
  StronglySorted (not_older key) (sort_desc String.ltb key l).
Proof.
  induction l as [|x l IH]; simpl; [constructor | now apply insert_text_sorted].
Qed.

End TextSort.

Lemma bullet_lines_complete l response_text :
  forallb listing_complete l = true ->
  exists text, bullet_lines l response_text = Ok text.
Proof.
  revert response_text. induction l as [|o l IH]; intros response_text H.
  - now exists response_text.
  - cbn [forallb] in H. apply andb_true_iff in H as [Ho Hl].
    destruct (order_line_complete o Ho) as [line E].
    cbn [bullet_lines]. rewrite E. apply IH, Hl.
Qed.

(** X17.  For a customer id alone the resolver reads the table-name
    parameter and the customer index and nothing else, and lists the
    first five of the customer's orders put in order of [order_date],
    greatest text first; when these five have their four keys the reply
    is the listing. *)
Theorem customer_listing_newest_first
        (format_order_status : Order -> result string)
        (oid tid cid nq : option string) (w : World)
        (name : string) (orders : list Order) :
  truthy oid = false -> truthy tid = false -> truthy nq = false ->
  truthy cid = true ->
  ssm_get_parameter w table_name_parameter = Ok name ->
  query (dynamodb_Table w name) "customer-index" (get_or_empty cid) = Ok orders ->
  orders <> [] ->
  exists sorted,
    Permutation sorted orders
    /\ StronglySorted (not_older date_key) sorted
    /\ fst (track_order format_order_status oid tid cid nq w)
       = [EvSsmGetParameter table_name_parameter;
          EvQuery name "customer-index" (get_or_empty cid)]
    /\ snd (track_order format_order_status oid tid cid nq w)
       = Ok match bullet_lines (firstn 5 sorted)
                    ("[PACKAGE] Recent orders for customer " ++ get_or_empty cid
                     ++ ":" ++ nl ++ nl) with
            | Ok response_text =>
                response_text ++ nl
                ++ "Provide a specific order ID for detailed tracking information."
            | Raise e =>
                "[CROSS MARK] Error looking up orders for customer "
                ++ get_or_empty cid ++ ": " ++ e
            end
    /\ (forallb listing_complete (firstn 5 sorted) = true ->
        exists response_text,
          bullet_lines (firstn 5 sorted)
            ("[PACKAGE] Recent orders for customer " ++ get_or_empty cid
             ++ ":" ++ nl ++ nl) = Ok response_text).
Proof.
  intros Ho Ht Hq Hc Hs Hquery Hne.
  exists (sort_desc String.ltb date_key orders).
  split; [apply sort_text_perm|]. split; [apply sort_text_sorted|].
  rewrite (track_order_by_customer_id _ _ _ _ _ _ _ Ho Ht Hq Hc Hs).
  split; [reflexivity|]. split.
  - cbn [snd]. rewrite Hquery. unfold customer_reply.
    destruct orders as [|o orders']; [contradiction | reflexivity].
  - apply bullet_lines_complete.
Qed.

Lemma customer_listing_newest_first_witness :
  exists sorted,
    Permutation sorted mixed_orders
    /\ StronglySorted (not_older date_key) sorted
    /\ fst (track_order sample_format None None (Some "c7") None
              (sample_world monday_2024_06_10 mixed_orders))
       = [EvSsmGetParameter table_name_parameter;
          EvQuery "orders" "customer-index" (get_or_empty (Some "c7"))]
    /\ snd (track_order sample_format None None (Some "c7") None
              (sample_world monday_2024_06_10 mixed_orders))
       = Ok match bullet_lines (firstn 5 sorted)
                    ("[PACKAGE] Recent orders for customer "
                     ++ get_or_empty (Some "c7") ++ ":" ++ nl ++ nl) with
            | Ok response_text =>
                response_text ++ nl
                ++ "Provide a specific order ID for detailed tracking information."
            | Raise e =>
                "[CROSS MARK] Error looking up orders for customer "
                ++ get_or_empty (Some "c7") ++ ": " ++ e
            end
    /\ (forallb listing_complete (firstn 5 sorted) = true ->
        exists response_text,
          bullet_lines (firstn 5 sorted)
            ("[PACKAGE] Recent orders for customer "
             ++ get_or_empty (Some "c7") ++ ":" ++ nl ++ nl) = Ok response_text).
Proof.
  apply (customer_listing_newest_first sample_format None None (Some "c7") None
           (sample_world monday_2024_06_10 mixed_orders) "orders" mixed_orders);
    first [reflexivity | discriminate].
Defined.

(* ================================================================== *)
(** ** The fixed phrases, and what the search reads                    *)
(* ================================================================== *)

Lemma contains_in_strip p x :
  first_nonspace p = true -> last_nonspace p = true ->
  Str.contains p x = true -> Str.contains p (Str.strip x) = true.
Proof.
  intros Hf Hl H. apply contains_iff in H as (a & b & ->).
  rewrite strip_keeps by assumption. apply contains_middle.
Qed.

Lemma search_of_contained r p s :
  Re.search r p <> None -> Str.contains p s = true -> Re.search r s <> None.
Proof.
  intros Hr H. apply contains_iff in H as (a & b & ->).
  now apply search_context.
Qed.

Lemma search_without_literal l s :
  Str.contains l s = false -> Re.search (Re.Lit l) s = None.
Proof.
  intros H. exact (proj1 (search_from_without_literal l (Re.Lit "") 0 s H)).
Qed.

Lemma drop_prefix_some l s rest :
  Str.drop_prefix l s = Some rest -> s = l ++ rest.
Proof.
  revert s. induction l as [|a l IH]; intros s; cbn [Str.drop_prefix].
  - now intros [= ->].
  - destruct s as [|c s]; [discriminate|].
    destruct (Ascii.eqb a c) eqn:E; [|discriminate].
    apply Ascii.eqb_eq in E. subst c. intros H. cbn [append].
    now rewrite (IH s H).
Qed.

Lemma star_rest {A} c s (k : string -> option A) r :
  Re.star c s k = Some r -> exists n rest, s = n ++ rest /\ k rest = Some r.
Proof.
  induction s as [|a s IH]; cbn [Re.star]; intros H; [now exists "", ""|].
  destruct (Re.in_cls c a); [|now exists "", (String a s)].
  destruct (Re.star c s k) as [r'|] eqn:E.
  - inversion H; subst. destruct (IH eq_refl) as (n & rest & -> & Hk).
    now exists (String a n), rest.
  - now exists "", (String a s).
Qed.

(** Where ["last" \s+ <what>] matches, the text holds [what]. *)
Lemma match_here_last_holds what pos s m :
  Re.match_here (last_pattern what) pos s = Some m ->
  Str.contains what s = true.
Proof.
  unfold Re.match_here, last_pattern. cbn [Re.matches].
  destruct (Str.drop_prefix "last" s) as [r1|] eqn:E1; [|discriminate].
  apply drop_prefix_some in E1. subst s.
  unfold Re.plus. destruct r1 as [|a r1]; [discriminate|].
  destruct (Re.in_cls Re.Space a); [|discriminate].
  intros H. apply star_rest in H as (n & rest & -> & Hk).
  destruct (Str.drop_prefix what rest) as [r2|] eqn:E2; [|discriminate].
  apply drop_prefix_some in E2. subst rest.
  apply contains_iff. exists ("last" ++ String a n), r2.
  now rewrite !append_assoc.
Qed.

Lemma search_from_last_holds what pos s m :
  Re.search_from (last_pattern what) pos s = Some m ->
  Str.contains what s = true.
Proof.
  revert pos. induction s as [|c s IH]; intros pos; cbn [Re.search_from].
  - destruct (Re.match_here (last_pattern what) pos "") eqn:E; [|discriminate].
    intros _. exact (match_here_last_holds _ _ _ _ E).
  - destruct (Re.match_here (last_pattern what) pos (String c s)) eqn:E.
    + intros _. exact (match_here_last_holds _ _ _ _ E).
    + intros H. apply contains_cons. exact (IH _ H).
Qed.

Lemma search_last_without what s :
  Str.contains what s = false -> Re.search (last_pattern what) s = None.
Proof.
  intros H. unfold Re.search.
  destruct (Re.search_from (last_pattern what) 0 s) as [m|] eqn:E; [|reflexivity].
  apply search_from_last_holds in E. congruence.
Qed.

Lemma search_ago_no_digit unit s :
  no_digit s = true -> Re.search (ago_pattern unit) s = None.
Proof. apply search_from_no_digit. Qed.

(** X18.  In a text without digit and without "last <weekday>", the
    fixed phrases are read in the order of the pattern list: "yesterday"
    anywhere gives the day before today; without it "last week" gives
    the date 7 days back; without "yesterday" and without "week", "last
    month" gives the date 30 days back. *)
Theorem fixed_phrases_in_order (w : World) (text : string) :
  no_digit text = true ->
  no_weekday_phrase (Str.lower text) = true ->
  min_ordinal + 30 <= toordinal (clock w) <= max_ordinal ->
  (Str.contains "yesterday" (Str.lower text) = true ->
   parse_relative_date text w
   = ([EvNow], Ok (Some (strftime_ymd (minus_days (clock w) 1)))))
  /\ (Str.contains "yesterday" (Str.lower text) = false ->
      Str.contains "last week" (Str.lower text) = true ->
      parse_relative_date text w
      = ([EvNow], Ok (Some (strftime_ymd (minus_days (clock w) 7)))))
  /\ (Str.contains "yesterday" (Str.lower text) = false ->
      Str.contains "week" (Str.lower text) = false ->
      Str.contains "last month" (Str.lower text) = true ->
      parse_relative_date text w
      = ([EvNow], Ok (Some (strftime_ymd (minus_days (clock w) 30))))).
Proof.
  intros Hd Hw Hr. rewrite !parse_relative_date_run.
  unfold parse_relative_date_on.
  set (s := Str.strip (Str.lower text)).
  assert (Hds : no_digit s = true) by now apply no_digit_strip, no_digit_lower.
  rewrite (no_weekday_phrase_loop _ s (no_weekday_phrase_strip _ Hw)).
  unfold time_patterns. cbn [pattern_loop].
  rewrite !search_ago_no_digit by exact Hds.
  unfold min_ordinal, max_ordinal in Hr.
  split; [|split].
  - intros Hy.
    assert (H : Re.search (Re.Lit "yesterday") s <> None).
    { apply (search_of_contained _ "yesterday"); [discriminate|].
      now apply contains_in_strip. }
    destruct (Re.search (Re.Lit "yesterday") s) as [m|]; [|contradiction].
    change (pattern_target (clock w) "yesterday" m) with (days_before (clock w) 1).
    rewrite days_before_ok; [reflexivity | unfold max_delta_days; lia |
                             unfold min_ordinal, max_ordinal; lia].
  - intros Hy Hlw.
    rewrite (search_without_literal "yesterday" s (not_contains_strip _ _ Hy)).
    assert (H : Re.search (last_pattern "week") s <> None).
    { apply (search_of_contained _ "last week"); [discriminate|].
      now apply contains_in_strip. }
    destruct (Re.search (last_pattern "week") s) as [m|]; [|contradiction].
    change (pattern_target (clock w) "last_week" m)
      with (days_before (clock w) (7 * 1)).
    rewrite days_before_ok; [reflexivity | unfold max_delta_days; lia |
                             unfold min_ordinal, max_ordinal; lia].
  - intros Hy Hwk Hlm.
    rewrite (search_without_literal "yesterday" s (not_contains_strip _ _ Hy)).
    rewrite (search_last_without "week" s (not_contains_strip _ _ Hwk)).
    assert (H : Re.search (last_pattern "month") s <> None).
    { apply (search_of_contained _ "last month"); [discriminate|].
      now apply contains_in_strip. }
    destruct (Re.search (last_pattern "month") s) as [m|]; [|contradiction].
    change (pattern_target (clock w) "last_month" m)
      with (days_before (clock w) 30).
    rewrite days_before_ok; [reflexivity | unfold max_delta_days; lia |
                             unfold min_ordinal, max_ordinal; lia].
Qed.

Lemma fixed_phrases_in_order_witness :
  parse_relative_date "It came Yesterday, or was it last week?"
    (sample_world monday_2024_06_10 [])
  = ([EvNow], Ok (Some (strftime_ymd (minus_days monday_2024_06_10 1)))).
Proof.
  destruct (fixed_phrases_in_order (sample_world monday_2024_06_10 [])
              "It came Yesterday, or was it last week?" eq_refl eq_refl)
    as [Hy _].
  - unfold min_ordinal, max_ordinal. simpl. lia.
  - apply Hy. reflexivity.
Defined.

(** X19.  A free-text search reads the table exactly once when it gets
    to score: with a customer id by a query of the customer index for
    that id, without one by a scan.  It reads nothing of the table when
    the handle cannot be obtained or the date parser raises.  In no case
    does it look up a key, scan with a customer id, or query without
    one. *)
Theorem search_reads_one_source (q : string) (cid : option string) (w : World) :
  let trace := fst (search_orders_by_natural_query q cid w) in
  (forall name parsed,
      ssm_get_parameter w table_name_parameter = Ok name ->
      parse_relative_date_on (clock w) (Str.lower q) = Ok parsed ->
      (truthy cid = true ->
       table_reads trace = [EvQuery name "customer-index" (get_or_empty cid)])
      /\ (truthy cid = false -> table_reads trace = [EvScan name]))
  /\ (forall e,
        ssm_get_parameter w table_name_parameter = Raise e ->
        table_reads trace = [])
  /\ (forall e,
        parse_relative_date_on (clock w) (Str.lower q) = Raise e ->
        table_reads trace = [])
  /\ Forall (fun ev =>
               match ev with
               | EvScan _ => truthy cid = false
               | EvQuery _ index value =>
                   truthy cid = true /\ index = "customer-index"
                   /\ value = get_or_empty cid
               | EvGetItem _ _ => False
               | _ => True
               end)
            trace.
Proof.
  intros trace. unfold trace. rewrite search_run. unfold table_handle.
  split; [|split; [|split]].
  - intros name parsed Hs Hp. rewrite Hs, Hp.
    unfold fetch_orders, fetch_event. split; intros Hc; rewrite Hc.
    + destruct (query _ _ _); reflexivity.
    + destruct (scan _); reflexivity.
  - intros e Hs. now rewrite Hs.
  - intros e Hp. rewrite Hp.
    destruct (ssm_get_parameter w table_name_parameter); reflexivity.
  - destruct (ssm_get_parameter w table_name_parameter) as [name|e];
      [|repeat constructor].
    destruct (parse_relative_date_on (clock w) (Str.lower q)) as [parsed|e];
      [|repeat constructor].
    unfold fetch_orders, fetch_event.
    destruct (truthy cid) eqn:Hc.
    + destruct (query _ _ _); cbn [fst]; repeat constructor.
    + destruct (scan _); cbn [fst]; repeat constructor.
Qed.

Lemma search_reads_one_source_witness :
  table_reads (fst (search_orders_by_natural_query "iphone" (Some "c7")
                      (sample_world monday_2024_06_10 mixed_orders)))
  = [EvQuery "orders" "customer-index" "c7"]
  /\ table_reads (fst (search_orders_by_natural_query "iphone" None
                         (failing_table_world "ThrottlingException")))
     = [EvScan "orders"]
  /\ table_reads (fst (search_orders_by_natural_query "800000 days ago" None
                         (sample_world monday_2024_06_10 mixed_orders)))
     = [].
Proof.
  split; [|split].
  - destruct (search_reads_one_source "iphone" (Some "c7")
                (sample_world monday_2024_06_10 mixed_orders)) as (H & _).
    destruct (H "orders" None eq_refl eq_refl) as [Hq _]. now apply Hq.
  - destruct (search_reads_one_source "iphone" None
                (failing_table_world "ThrottlingException")) as (H & _).
    destruct (H "orders" None eq_refl eq_refl) as [_ Hs]. now apply Hs.
  - destruct (search_reads_one_source "800000 days ago" None
                (sample_world monday_2024_06_10 mixed_orders)) as (_ & _ & H & _).
    apply (H "date value out of range"). vm_compute. reflexivity.
Defined.

(* ================================================================== *)
(** ** The texts a pattern matches                                     *)
(* ================================================================== *)

Lemma all_in_digit n : all_in Re.Digit n = all_digits n.
Proof. induction n as [|c n IH]; [reflexivity|]. simpl. now rewrite IH. Qed.

Lemma all_in_space n : all_in Re.Space n = all_space n.
Proof. induction n as [|c n IH]; [reflexivity|]. simpl. now rewrite IH. Qed.

Lemma drop_prefix_self l rest : Str.drop_prefix l (l ++ rest) = Some rest.
Proof.
  induction l as [|a l IH]; [reflexivity|]. cbn [append Str.drop_prefix].
  now rewrite Ascii.eqb_refl.
Qed.

Section Language.
Context {A : Type}.

Lemma star_sound c s (k : string -> option A) res :
  Re.star c s k = Some res ->
  exists n rest, s = n ++ rest /\ all_in c n = true /\ k rest = Some res.
Proof.
  induction s as [|a s IH]; cbn [Re.star]; intros H; [now exists "", ""|].
  destruct (Re.in_cls c a) eqn:Ea; [|now exists "", (String a s)].
  destruct (Re.star c s k) as [r'|] eqn:E.
  - inversion H; subst. destruct (IH eq_refl) as (n & rest & -> & Hn & Hk).
    exists (String a n), rest. repeat split; [|exact Hk].
    cbn [all_in]. now rewrite Ea, Hn.
  - now exists "", (String a s).
Qed.

Lemma star_complete c n rest (k : string -> option A) :
  all_in c n = true -> k rest <> None -> Re.star c (n ++ rest) k <> None.
Proof.
  intros Hn Hk. induction n as [|a n IH]; cbn [append].
  - now apply star_falls_back.
  - cbn [all_in] in Hn. apply andb_true_iff in Hn as [Ha Hn].
    cbn [Re.star]. rewrite Ha.
    destruct (Re.star c (n ++ rest) k) eqn:E; [discriminate|].
    exfalso. now apply (IH Hn).
Qed.

(** What a pattern matches at the start of a text is one of its texts. *)
Lemma matches_sound r :
  forall s g (k : option string -> string -> option A) res,
    Re.matches r s g k = Some res ->
    exists u rest g', s = u ++ rest /\ lang r u /\ k g' rest = Some res.
Proof.
  induction r as [l|c|a|r1 IH1 r2 IH2|r IH]; intros s g k res;
    cbn [Re.matches lang].
  - destruct (Str.drop_prefix l s) as [rest|] eqn:E; [|discriminate].
    apply drop_prefix_some in E. intros H. now exists l, rest, g.
  - unfold Re.plus. destruct s as [|a s]; [discriminate|].
    destruct (Re.in_cls c a) eqn:Ea; [|discriminate].
    intros H. apply star_sound in H as (n & rest & -> & Hn & Hk).
    exists (String a n), rest, g. repeat split; try assumption; [discriminate|].
    cbn [all_in]. now rewrite Ea, Hn.
  - destruct s as [|b s]; [intros H; exists "", "", g; auto|].
    destruct (Ascii.eqb a b) eqn:E.
    + apply Ascii.eqb_eq in E. subst b.
      destruct (k g s) as [r'|] eqn:Ek.
      * intros H. inversion H; subst. exists (String a ""), s, g. auto.
      * intros H. exists "", (String a s), g. auto.
    + intros H. exists "", (String b s), g. auto.
  - intros H. apply IH1 in H as (u1 & rest1 & g1 & -> & H1 & H).
    apply IH2 in H as (u2 & rest & g2 & -> & H2 & H).
    exists (u1 ++ u2), rest, g2. rewrite append_assoc.
    repeat split; [|exact H]. now exists u1, u2.
  - intros H. apply IH in H as (u & rest & g' & -> & Hu & H).
    now exists u, rest, (Some (substring 0 (String.length (u ++ rest) - String.length rest) (u ++ rest))).
Qed.

(** A pattern matches in front of any text where what follows accepts. *)
Lemma matches_complete r :
  forall u rest g (k : option string -> string -> option A),
    lang r u -> (forall g', k g' rest <> None) ->
    Re.matches r (u ++ rest) g k <> None.
Proof.
  induction r as [l|c|a|r1 IH1 r2 IH2|r IH]; intros u rest g k;
    cbn [Re.matches lang].
  - intros -> Hk. rewrite drop_prefix_self. apply Hk.
  - intros [Hne Hu] Hk. destruct u as [|a u]; [contradiction|].
    cbn [all_in] in Hu. apply andb_true_iff in Hu as [Ha Hu].
    cbn [append]. unfold Re.plus. rewrite Ha. apply star_complete; auto.
  - intros [->| ->] Hk.
    + cbn [append]. apply opt_falls_back. apply Hk.
    + cbn [append]. rewrite Ascii.eqb_refl.
      destruct (k g rest) eqn:E; [discriminate|]. exfalso. now apply (Hk g).
  - intros (u1 & u2 & -> & H1 & H2) Hk. rewrite append_assoc.
    apply IH1; [exact H1|]. intros g'. now apply IH2.
  - intros Hu Hk. apply IH; [exact Hu|]. intros g'. apply Hk.
Qed.

End Language.

Lemma match_here_complete r pos u rest :
  lang r u -> Re.match_here r pos (u ++ rest) <> None.
Proof.
  intros Hu. unfold Re.match_here. apply matches_complete; [exact Hu|].
  intros; discriminate.
Qed.

Lemma match_here_sound r pos s m :
  Re.match_here r pos s = Some m ->
  exists u rest, s = u ++ rest /\ lang r u.
Proof.
  unfold Re.match_here. intros H.
  apply matches_sound in H as (u & rest & g' & -> & Hu & _). now exists u, rest.
Qed.


(* ================================================================== *)
(** ** The shape of the phrases                                        *)
(* ================================================================== *)

Lemma space_lower c : Str.isspace c = true -> Str.lower_char c = c.
Proof. destruct c as [[] [] [] [] [] [] [] []]; try reflexivity; discriminate. Qed.

Lemma space_not_digit c : Str.isspace c = true -> Str.isdigit c = false.
Proof. destruct c as [[] [] [] [] [] [] [] []]; try reflexivity; discriminate. Qed.

Lemma lower_spaces w : all_space w = true -> Str.lower w = w.
Proof.
  induction w as [|c w IH]; [reflexivity|]. simpl. intros H.
  apply andb_true_iff in H as [Hc Hw]. now rewrite (space_lower c Hc), IH.
Qed.

Lemma no_digit_spaces w : all_space w = true -> no_digit w = true.
Proof.
  induction w as [|c w IH]; [reflexivity|]. simpl. intros H.
  apply andb_true_iff in H as [Hc Hw]. now rewrite (space_not_digit c Hc), IH.
Qed.

(** The texts of [\s+<unit>s?\s+ago]. *)
Lemma lang_ago_tail unit tl :
  lang (ago_tail unit) tl <->
  exists w1 o w2,
    tl = w1 ++ unit ++ o ++ w2 ++ "ago"
    /\ w1 <> "" /\ all_space w1 = true /\ (o = "" \/ o = "s")
    /\ w2 <> "" /\ all_space w2 = true.
Proof.
  unfold ago_tail. cbn [lang]. split.
  - intros (w1 & t1 & -> & [Hne1 Hw1] & l & t2 & -> & -> & o & t3 & -> & Ho
            & w2 & t4 & -> & [Hne2 Hw2] & ->).
    exists w1, o, w2. rewrite all_in_space in Hw1, Hw2. auto 10.
  - intros (w1 & o & w2 & -> & Hne1 & Hw1 & Ho & Hne2 & Hw2).
    rewrite <- all_in_space in Hw1, Hw2.
    exists w1, (unit ++ o ++ w2 ++ "ago"). repeat split; try assumption.
    exists unit, (o ++ w2 ++ "ago"). repeat split.
    exists o, (w2 ++ "ago"). repeat split; [exact Ho|].
    exists w2, "ago". auto.
Qed.

Lemma lang_ago_pattern unit u :
  lang (ago_pattern unit) u <->
  exists n tl,
    u = n ++ tl /\ n <> "" /\ all_digits n = true /\ lang (ago_tail unit) tl.
Proof.
  unfold ago_pattern. cbn [lang]. fold (ago_tail unit). split.
  - intros (n & tl & -> & [Hne Hn] & Ht). rewrite all_in_digit in Hn.
    exists n, tl. auto.
  - intros (n & tl & -> & Hne & Hn & Ht). rewrite <- all_in_digit in Hn.
    exists n, tl. auto.
Qed.

Lemma lang_last_pattern what u :
  lang (last_pattern what) u <->
  exists w, u = "last" ++ w ++ what /\ w <> "" /\ all_space w = true.
Proof.
  unfold last_pattern. cbn [lang]. split.
  - intros (l & t & -> & -> & w & t' & -> & [Hne Hw] & ->).
    rewrite all_in_space in Hw. now exists w.
  - intros (w & -> & Hne & Hw). rewrite <- all_in_space in Hw.
    exists "last", (w ++ what). repeat split. exists w, what. auto.
Qed.

Lemma first_nonspace_spaces w t :
  w <> "" -> all_space w = true -> first_nonspace (w ++ t) = false.
Proof.
  destruct w as [|c w]; [contradiction|]. simpl. intros _ H.
  apply andb_true_iff in H as [Hc _]. now rewrite Hc.
Qed.

(** A text of [\s+<unit>s?\s+ago], for a unit in lower case without
    digit: it starts with white space, ends with "ago", holds no digit
    and is in lower case. *)
Lemma ago_tail_shape unit tl :
  Str.lower unit = unit -> no_digit unit = true ->
  lang (ago_tail unit) tl ->
  Str.lower tl = tl /\ no_digit tl = true /\ last_nonspace tl = true
  /\ exists c t, tl = String c t /\ Str.isspace c = true.
Proof.
  intros Hl Hd H. apply lang_ago_tail in H
    as (w1 & o & w2 & -> & Hne1 & Hw1 & Ho & Hne2 & Hw2).
  assert (Hol : Str.lower o = o /\ no_digit o = true)
    by (destruct Ho as [->| ->]; split; reflexivity).
  destruct Hol as [Hol Hod].
  split; [|split; [|split]].
  - rewrite !lower_app, (lower_spaces w1 Hw1), (lower_spaces w2 Hw2), Hl, Hol.
    reflexivity.
  - repeat apply no_digit_app; try assumption; try reflexivity;
      now apply no_digit_spaces.
  - now repeat apply last_nonspace_app.
  - destruct w1 as [|c w1]; [contradiction|]. simpl in Hw1.
    apply andb_true_iff in Hw1 as [Hc _]. now exists c, (w1 ++ unit ++ o ++ w2 ++ "ago").
Qed.

Lemma ago_phrase_parts unit u :
  Str.lower unit = unit -> no_digit unit = true ->
  lang (ago_pattern unit) u ->
  Str.lower u = u /\ first_nonspace u = true /\ last_nonspace u = true.
Proof.
  intros Hl Hd H. apply lang_ago_pattern in H as (n & tl & -> & Hne & Hn & Ht).
  destruct (ago_tail_shape unit tl Hl Hd Ht) as (Hlow & _ & Hlast & _).
  split; [|split].
  - now rewrite lower_app, (lower_digits n Hn), Hlow.
  - destruct n as [|c n]; [contradiction|]. simpl in *.
    apply andb_true_iff in Hn as [Hc _]. now rewrite (digit_not_space c Hc).
  - now apply last_nonspace_app.
Qed.

Lemma last_phrase_parts what u :
  Str.lower what = what -> last_nonspace what = true ->
  lang (last_pattern what) u ->
  Str.lower u = u /\ first_nonspace u = true /\ last_nonspace u = true.
Proof.
  intros Hl Hlast H. apply lang_last_pattern in H as (w & -> & Hne & Hw).
  split; [|split].
  - now rewrite !lower_app, (lower_spaces w Hw), Hl.
  - reflexivity.
  - now repeat apply last_nonspace_app.
Qed.

(** Every phrase of a form the parser knows is in lower case and has no
    white space at either end: it is its own normal form. *)
Lemma phrase_shape r u :
  In r phrase_forms -> lang r u ->
  Str.lower u = u /\ first_nonspace u = true /\ last_nonspace u = true.
Proof.
  unfold phrase_forms, days_of_week, time_patterns.
  cbn [map app fst In]. intros Hin Hu.
  repeat (destruct Hin as [Hin|Hin];
          [subst r;
           lazymatch type of Hu with
           | lang (ago_pattern ?unit) _ =>
               apply (ago_phrase_parts unit u eq_refl eq_refl Hu)
           | lang (last_pattern ?what) _ =>
               apply (last_phrase_parts what u eq_refl eq_refl Hu)
           | _ => cbn [lang] in Hu; subst u; repeat split; reflexivity
           end|]).
  contradiction.
Qed.

Lemma strip_self u :
  first_nonspace u = true -> last_nonspace u = true -> Str.strip u = u.
Proof.
  intros Hf Hl. pose proof (strip_keeps "" u "" Hf Hl) as H.
  cbn [append Str.lstrip Str.rstrip] in H. now rewrite !append_nil_r in H.
Qed.

Lemma phrase_normal r u : In r phrase_forms -> lang r u -> normal u = u.
Proof.
  intros Hin Hu. destruct (phrase_shape r u Hin Hu) as (Hl & Hf & Hla).
  unfold normal. rewrite Hl. now apply strip_self.
Qed.

(* ================================================================== *)
(** ** Where an "ago" pattern matches                                  *)
(* ================================================================== *)

Lemma plus_sound {A} c s (k : string -> option A) res :
  Re.plus c s k = Some res ->
  exists n rest,
    s = n ++ rest /\ n <> "" /\ all_in c n = true /\ k rest = Some res.
Proof.
  unfold Re.plus. destruct s as [|a s]; [discriminate|].
  destruct (Re.in_cls c a) eqn:Ea; [|discriminate].
  intros H. apply star_sound in H as (n & rest & -> & Hn & Hk).
  exists (String a n), rest. repeat split; try assumption; [discriminate|].
  cbn [all_in]. now rewrite Ea, Hn.
Qed.

(** A match of an "ago" pattern is a number, which it captures, followed
    by a text of the rest of the pattern. *)
Lemma ago_match_parts unit pos s m :
  Re.match_here (ago_pattern unit) pos s = Some m ->
  exists n tl rest,
    s = n ++ tl ++ rest /\ n <> "" /\ all_digits n = true
    /\ lang (ago_tail unit) tl /\ Re.group1 m = Some n.
Proof.
  unfold Re.match_here, ago_pattern. cbn [Re.matches]. fold (ago_tail unit).
  intros H. apply plus_sound in H as (n & rest1 & -> & Hne & Hn & Hk).
  rewrite all_in_digit in Hn. rewrite substring_prefix in Hk.
  pose proof Hk as Hg.
  apply (matches_group_free (ago_tail unit) eq_refl) in Hg as [rest' Hg].
  apply matches_sound in Hk as (tl & rest & g' & -> & Ht & _).
  exists n, tl, rest. inversion Hg; subst m. auto 10.
Qed.

(** At a number followed by a text of the rest of the pattern, the
    pattern matches and captures the number. *)
Lemma ago_match_at unit pos n tl b :
  n <> "" -> all_digits n = true -> lang (ago_tail unit) tl ->
  exists m,
    Re.match_here (ago_pattern unit) pos (n ++ tl ++ b) = Some m
    /\ Re.group1 m = Some n.
Proof.
  intros Hne Hn Ht. apply ago_hit; try assumption.
  - apply lang_ago_tail in Ht as (w1 & o & w2 & -> & Hne1 & Hw1 & _).
    destruct w1 as [|c w1]; [contradiction|]. simpl in *.
    apply andb_true_iff in Hw1 as [Hc _]. now rewrite (space_not_digit c Hc).
  - intros g k Hk.
    destruct (Re.matches (ago_tail unit) (tl ++ b) g k) as [m|] eqn:E.
    + exists m. split; [reflexivity|].
      apply (matches_group_free (ago_tail unit) eq_refl) in E as [rest E].
      destruct (Hk g rest) as (m' & E' & Hg). congruence.
    + exfalso. revert E. apply matches_complete; [exact Ht|].
      intros g'. destruct (Hk g' b) as (m' & E' & _). congruence.
Qed.

Lemma no_digit_app_inv a b :
  no_digit (a ++ b) = true -> no_digit a = true /\ no_digit b = true.
Proof.
  induction a as [|c a IH]; simpl; [auto|]. intros H.
  apply andb_true_iff in H as [Hc H]. destruct (IH H) as [Ha Hb].
  now rewrite Hc, Ha.
Qed.

(** A text without digit that starts where another text holds a digit
    ends before that digit. *)
Lemma no_digit_within tl rest a c x :
  no_digit tl = true -> Str.isdigit c = true ->
  a ++ String c x = tl ++ rest -> exists a', a = tl ++ a'.
Proof.
  revert a. induction tl as [|t tl IH]; intros a Ht Hc H; [now exists a|].
  simpl in Ht. apply andb_true_iff in Ht as [Ht1 Ht2].
  destruct a as [|b a]; cbn [append] in H; inversion H; subst.
  - apply negb_true_iff in Ht1. congruence.
  - destruct (IH a Ht2 Hc H2) as [a' ->]. now exists a'.
Qed.

(** A number followed by a text without digit, found at the start of a
    text that goes on with a digit after a character that is none, ends
    before that digit. *)
Lemma digits_tail_within n tl rest a c x :
  all_digits n = true -> no_digit tl = true ->
  a <> "" -> ends_nondigit a = true -> Str.isdigit c = true ->
  a ++ String c x = n ++ tl ++ rest -> exists a', a = n ++ tl ++ a'.
Proof.
  revert a. induction n as [|e n IH]; intros a Hn Ht Hne Hend Hc H.
  - cbn [append] in *. now apply (no_digit_within tl rest a c x).
  - simpl in Hn. apply andb_true_iff in Hn as [He Hn].
    destruct a as [|b a]; [contradiction|].
    cbn [append] in H. inversion H; subst b.
    destruct a as [|b a].
    + simpl in Hend. rewrite He in Hend. discriminate.
    + destruct (IH (String b a) Hn Ht ltac:(discriminate) Hend Hc H2) as [a' E].
      exists a'. cbn [append]. now rewrite E.
Qed.

(** A match of an "ago" pattern that starts before a number, after the
    last character that is no digit, ends before the number. *)
Lemma ago_match_inside unit pos a c x :
  no_digit unit = true -> Str.lower unit = unit ->
  a <> "" -> ends_nondigit a = true -> Str.isdigit c = true ->
  Re.match_here (ago_pattern unit) pos (a ++ String c x) <> None ->
  Re.match_here (ago_pattern unit) pos a <> None.
Proof.
  intros Hd Hl Hne Hend Hc H.
  destruct (Re.match_here (ago_pattern unit) pos (a ++ String c x)) as [m|] eqn:E;
    [clear H|contradiction].
  apply ago_match_parts in E as (n & tl & rest & E & Hnn & Hn & Ht & _).
  destruct (ago_tail_shape unit tl Hl Hd Ht) as (_ & Hnd & _ & _).
  destruct (digits_tail_within n tl rest a c x Hn Hnd Hne Hend Hc E) as [a' ->].
  rewrite <- append_assoc. apply match_here_complete.
  apply lang_ago_pattern. now exists n, tl.
Qed.

Lemma ends_nondigit_tail c a :
  ends_nondigit (String c a) = true -> ends_nondigit a = true.
Proof. destruct a; [reflexivity | trivial]. Qed.

(** A search that finds nothing before a number goes on at the number. *)
Lemma search_from_cross unit pos a c x :
  no_digit unit = true -> Str.lower unit = unit ->
  Re.search_from (ago_pattern unit) pos a = None ->
  ends_nondigit a = true -> Str.isdigit c = true ->
  Re.search_from (ago_pattern unit) pos (a ++ String c x)
  = Re.search_from (ago_pattern unit) (pos + String.length a) (String c x).
Proof.
  intros Hd Hl. revert pos. induction a as [|b a IH]; intros pos Hs Hend Hc.
  - cbn [append String.length]. now rewrite Nat.add_0_r.
  - cbn [Re.search_from] in Hs.
    destruct (Re.match_here (ago_pattern unit) pos (String b a)) eqn:E;
      [discriminate|].
    change (String b a ++ String c x) with (String b (a ++ String c x)).
    cbn [Re.search_from].
    destruct (Re.match_here (ago_pattern unit) pos (String b (a ++ String c x)))
      eqn:E'.
    + exfalso.
      apply (ago_match_inside unit pos (String b a) c x Hd Hl); try assumption;
        [discriminate | cbn [append]; congruence].
    + rewrite (IH (S pos) Hs (ends_nondigit_tail _ _ Hend) Hc).
      cbn [String.length]. now rewrite Nat.add_succ_r.
Qed.

(** In a text that holds a phrase of an "ago" form after a part in which
    the pattern is not found and that does not end with a digit, the
    pattern is found at the phrase and captures its number. *)
Lemma search_ago_phrase unit a n tl b :
  no_digit unit = true -> Str.lower unit = unit ->
  n <> "" -> all_digits n = true -> lang (ago_tail unit) tl ->
  Re.search (ago_pattern unit) a = None -> ends_nondigit a = true ->
  exists m,
    Re.search (ago_pattern unit) (a ++ (n ++ tl) ++ b) = Some m
    /\ Re.group1 m = Some n.
Proof.
  intros Hd Hl Hne Hn Ht Hs Hend. unfold Re.search in *.
  destruct n as [|c n]; [contradiction|].
  pose proof Hn as Hn'. simpl in Hn'. apply andb_true_iff in Hn' as [Hc _].
  rewrite !append_assoc. cbn [append].
  rewrite (search_from_cross unit 0 a c _ Hd Hl Hs Hend Hc).
  destruct (ago_match_at unit (0 + String.length a) (String c n) tl b Hne Hn Ht)
    as (m & Hm & Hg).
  exists m. split; [|exact Hg].
  apply search_from_hit. exact Hm.
Qed.

(* ================================================================== *)
(** ** The answer, by the first form that is found                     *)
(* ================================================================== *)

Lemma parse_on_read today text :
  parse_relative_date_on today text = read today (normal text).
Proof. reflexivity. Qed.

Lemma search_literal_self l : Re.search (Re.Lit l) l <> None.
Proof.
  unfold Re.search. pose proof (match_here_complete (Re.Lit l) 0 l "" eq_refl) as H.
  rewrite append_nil_r in H.
  destruct l; cbn [Re.search_from];
    destruct (Re.match_here _ _ _); congruence.
Qed.

(** [in] finds what a search for the literal finds. *)
Lemma found_literal l s : found (Re.Lit l) s = Str.contains l s.
Proof.
  unfold found. destruct (Str.contains l s) eqn:E.
  - pose proof (search_of_contained (Re.Lit l) l s (search_literal_self l) E).
    destruct (Re.search (Re.Lit l) s); [reflexivity | contradiction].
  - now rewrite (search_without_literal l s E).
Qed.

Lemma none_found_app l1 l2 s :
  none_found (l1 ++ l2)%list s = none_found l1 s && none_found l2 s.
Proof. unfold none_found. apply forallb_app. Qed.

Lemma none_found_weekdays items s :
  none_found (map (fun it => Re.Lit ("last " ++ fst it)) items) s
  = forallb (fun it : string * Z => negb (Str.contains ("last " ++ fst it) s)) items.
Proof.
  unfold none_found. induction items as [|it items IH]; [reflexivity|].
  cbn [map forallb]. now rewrite found_literal, IH.
Qed.

Lemma first_pattern_hit s before p tag after m :
  none_found (map fst before) s = true ->
  Re.search p s = Some m ->
  first_pattern s (before ++ (p, tag) :: after)%list = Some (tag, m).
Proof.
  unfold none_found. induction before as [|[p' t'] before IH];
    cbn [map forallb fst app first_pattern]; intros Hn Hs.
  - now rewrite Hs.
  - apply andb_true_iff in Hn as [H1 H2]. unfold found in H1.
    destruct (Re.search p' s); [discriminate | auto].
Qed.

(** The answer for a text in which a weekday phrase is the first form
    found. *)
Lemma read_weekday today s before day_name day_num after :
  days_of_week = (before ++ (day_name, day_num) :: after)%list ->
  none_found (map (fun it => Re.Lit ("last " ++ fst it)) before) s = true ->
  found (Re.Lit ("last " ++ day_name)) s = true ->
  read today s
  = match days_before today (days_back today day_num) with
    | Ok d => Ok (Some d)
    | Raise e => Raise e
    end.
Proof.
  intros E Hn Hf. rewrite none_found_weekdays in Hn. rewrite found_literal in Hf.
  unfold read. rewrite E, (weekday_loop_hit today s before _ _ after Hn Hf).
  reflexivity.
Qed.

(** The answer for a text in which a pattern is the first form found. *)
Lemma read_pattern today s before p tag after m :
  time_patterns = (before ++ (p, tag) :: after)%list ->
  none_found (map (fun it => Re.Lit ("last " ++ fst it)) days_of_week) s = true ->
  none_found (map fst before) s = true ->
  Re.search p s = Some m ->
  read today s
  = match pattern_target today tag (Re.MatchObj 0 0 (Re.group1 m)) with
    | Ok d => Ok (Some d)
    | Raise e => Raise e
    end.
Proof.
  intros E Hw Hn Hs. rewrite none_found_weekdays in Hw.
  unfold read. rewrite (weekday_loop_miss today s _ Hw), pattern_loop_first.
  rewrite E, (first_pattern_hit s before p tag after m Hn Hs).
  now rewrite (pattern_target_group today tag m (Re.MatchObj 0 0 (Re.group1 m))).
Qed.

Ltac weekday_form today k :=
  let num := eval cbv in (snd (nth k days_of_week ("", 0))) in
  exists (fun _ => match days_before today (days_back today num) with
                   | Ok d => Ok (Some d)
                   | Raise e => Raise e
                   end);
  intros s m Hn _ Hf;
  apply (read_weekday today s (firstn k days_of_week) _ _
           (skipn (S k) days_of_week) eq_refl);
  [exact Hn | exact Hf].

Ltac pattern_form today k :=
  let tag := eval cbv in (snd (nth k time_patterns (Re.Lit "", ""))) in
  exists (fun g => match pattern_target today tag (Re.MatchObj 0 0 g) with
                   | Ok d => Ok (Some d)
                   | Raise e => Raise e
                   end);
  intros s m Hn Hs Hf;
  match type of Hn with
  | none_found ?l _ = _ =>
      change l
        with (map (fun it => Re.Lit ("last " ++ fst it)) days_of_week
              ++ map fst (firstn k time_patterns))%list in Hn
  end;
  rewrite none_found_app in Hn; apply andb_true_iff in Hn as [Hw Hp];
  apply (read_pattern today s (firstn k time_patterns) _ _
           (skipn (S k) time_patterns) m eq_refl Hw Hp Hs).

(** Where a form is the first that is found, the answer depends on the
    form and on what its match captured, and on nothing else of the
    text. *)
Lemma read_of_form today i r :
  nth_error phrase_forms i = Some r ->
  exists F,
    forall s m,
      none_found (firstn i phrase_forms) s = true ->
      Re.search r s = Some m -> found r s = true ->
      read today s = F (Re.group1 m).
Proof.
  intros H.
  destruct i as [|i]; [inversion H; subst r; weekday_form today 0%nat|].
  destruct i as [|i]; [inversion H; subst r; weekday_form today 1%nat|].
  destruct i as [|i]; [inversion H; subst r; weekday_form today 2%nat|].
  destruct i as [|i]; [inversion H; subst r; weekday_form today 3%nat|].
  destruct i as [|i]; [inversion H; subst r; weekday_form today 4%nat|].
  destruct i as [|i]; [inversion H; subst r; weekday_form today 5%nat|].
  destruct i as [|i]; [inversion H; subst r; weekday_form today 6%nat|].
  destruct i as [|i]; [inversion H; subst r; pattern_form today 0%nat|].
  destruct i as [|i]; [inversion H; subst r; pattern_form today 1%nat|].
  destruct i as [|i]; [inversion H; subst r; pattern_form today 2%nat|].
  destruct i as [|i]; [inversion H; subst r; pattern_form today 3%nat|].
  destruct i as [|i]; [inversion H; subst r; pattern_form today 4%nat|].
  destruct i as [|i]; [inversion H; subst r; pattern_form today 5%nat|].
  destruct i; discriminate.
Qed.

Lemma found_search r s : found r s = true -> exists m, Re.search r s = Some m.
Proof. unfold found. destruct (Re.search r s) as [m|]; [now exists m | discriminate]. Qed.

Lemma search_found r s m : Re.search r s = Some m -> found r s = true.
Proof. unfold found. now intros ->. Qed.

(** Two texts in which the same form is the first that is found, with
    the same capture, get the same answer. *)
Lemma read_same_form today i r s1 s2 m1 m2 :
  nth_error phrase_forms i = Some r ->
  none_found (firstn i phrase_forms) s1 = true ->
  none_found (firstn i phrase_forms) s2 = true ->
  Re.search r s1 = Some m1 -> Re.search r s2 = Some m2 ->
  Re.group1 m1 = Re.group1 m2 ->
  read today s1 = read today s2.
Proof.
  intros Hi H1 H2 E1 E2 Hg. destruct (read_of_form today i r Hi) as [F HF].
  rewrite (HF s1 m1 H1 E1 (search_found _ _ _ E1)).
  rewrite (HF s2 m2 H2 E2 (search_found _ _ _ E2)). now rewrite Hg.
Qed.

(* ================================================================== *)
(** ** A phrase in a text, and the phrase alone                        *)
(* ================================================================== *)

Lemma not_found_part r a s b : found r (a ++ s ++ b) = false -> found r s = false.
Proof.
  unfold found. intros H. pose proof (search_context r a s b) as Hc.
  destruct (Re.search r s); [|reflexivity].
  destruct (Re.search r (a ++ s ++ b)); [discriminate|].
  exfalso. apply Hc; [discriminate | reflexivity].
Qed.

Lemma none_found_part forms a s b :
  none_found forms (a ++ s ++ b) = true -> none_found forms s = true.
Proof.
  unfold none_found. rewrite !forallb_forall. intros H r Hr.
  specialize (H r Hr). apply negb_true_iff in H. apply negb_true_iff.
  exact (not_found_part r a s b H).
Qed.

Lemma search_phrase_self r u : lang r u -> Re.search r u <> None.
Proof.
  intros Hu. unfold Re.search.
  pose proof (match_here_complete r 0 u "" Hu) as H. rewrite append_nil_r in H.
  destruct u; cbn [Re.search_from]; destruct (Re.match_here r 0 _); congruence.
Qed.

Lemma group_free_search r s m :
  group_free r = true -> Re.search r s = Some m -> Re.group1 m = None.
Proof.
  intros Hf H. apply search_from_some in H as (pos & s' & H).
  unfold Re.match_here in H.
  apply (matches_group_free r Hf) in H as [rest H]. now inversion H.
Qed.

(** The forms with a group are the three "ago" patterns. *)
Lemma grouped_form r :
  In r phrase_forms -> group_free r = false ->
  exists unit,
    r = ago_pattern unit /\ no_digit unit = true /\ Str.lower unit = unit.
Proof.
  unfold phrase_forms, days_of_week, time_patterns.
  cbn [map app fst In]. intros Hin Hg.
  repeat (destruct Hin as [Hin|Hin];
          [subst r;
           first [ discriminate Hg
                 | eexists; split; [reflexivity|]; split; reflexivity ]|]).
  contradiction.
Qed.

(** A phrase of a form is found in every text around it, with the same
    capture as in the phrase alone, provided that, for a form with a
    number, the pattern is not found in the text before the phrase and
    that text does not end with a digit. *)
Lemma phrase_found r a u b :
  In r phrase_forms -> lang r u ->
  (group_free r = false -> found r a = false /\ ends_nondigit a = true) ->
  exists m1 m2,
    Re.search r (a ++ u ++ b) = Some m1 /\ Re.search r u = Some m2
    /\ Re.group1 m1 = Re.group1 m2.
Proof.
  intros Hin Hu Hpre. destruct (group_free r) eqn:Hg.
  - pose proof (search_phrase_self r u Hu) as H2.
    pose proof (search_context r a u b H2) as H1.
    destruct (Re.search r (a ++ u ++ b)) as [m1|] eqn:E1; [|contradiction].
    destruct (Re.search r u) as [m2|] eqn:E2; [|contradiction].
    exists m1, m2. repeat split.
    now rewrite (group_free_search r _ m1 Hg E1), (group_free_search r _ m2 Hg E2).
  - destruct (grouped_form r Hin Hg) as (unit & -> & Hd & Hl).
    destruct (Hpre eq_refl) as [Hf Hend].
    apply lang_ago_pattern in Hu as (n & tl & -> & Hne & Hn & Ht).
    assert (Hs : Re.search (ago_pattern unit) a = None).
    { unfold found in Hf. destruct (Re.search (ago_pattern unit) a);
        [discriminate | reflexivity]. }
    destruct (search_ago_phrase unit a n tl b Hd Hl Hne Hn Ht Hs Hend)
      as (m1 & E1 & G1).
    destruct (search_ago_phrase unit "" n tl "" Hd Hl Hne Hn Ht) as (m2 & E2 & G2);
      [reflexivity | reflexivity |].
    cbn [append] in E2. rewrite append_nil_r in E2.
    exists m1, m2. repeat split; [exact E1 | exact E2 | congruence].
Qed.

Lemma nth_error_in {X} (l : list X) i x : nth_error l i = Some x -> In x l.
Proof. apply nth_error_In. Qed.

(** The answer for a text that holds a phrase of the first form found in
    it is the answer for the phrase alone. *)
Lemma read_phrase today i r a u b :
  nth_error phrase_forms i = Some r -> lang r u ->
  none_found (firstn i phrase_forms) (a ++ u ++ b) = true ->
  (group_free r = false -> found r a = false /\ ends_nondigit a = true) ->
  read today (a ++ u ++ b) = read today u.
Proof.
  intros Hi Hu Hn Hpre.
  destruct (phrase_found r a u b (nth_error_in _ _ _ Hi) Hu Hpre)
    as (m1 & m2 & E1 & E2 & Hg).
  apply (read_same_form today i r _ _ m1 m2 Hi Hn); try assumption.
  exact (none_found_part _ a u b Hn).
Qed.

Lemma ends_nondigit_lower s : ends_nondigit (Str.lower s) = ends_nondigit s.
Proof.
  induction s as [|c s IH]; [reflexivity|].
  destruct s as [|d s]; [simpl; now rewrite lower_isdigit|].
  exact IH.
Qed.

Lemma ends_nondigit_suffix l y :
  ends_nondigit (l ++ y) = true -> ends_nondigit y = true.
Proof.
  induction l as [|c l IH]; [trivial|]. cbn [append]. intros H.
  apply IH. exact (ends_nondigit_tail _ _ H).
Qed.

(** The same for the text as it is given: in any case of letters around
    the phrase, and with white space at its ends. *)
Lemma parse_phrase_context today i r pre ph post :
  nth_error phrase_forms i = Some r -> lang r ph ->
  none_found (firstn i phrase_forms) (normal (pre ++ ph ++ post)) = true ->
  (group_free r = false ->
   found r (Str.lower pre) = false /\ ends_nondigit pre = true) ->
  parse_relative_date_on today (pre ++ ph ++ post)
  = parse_relative_date_on today ph.
Proof.
  intros Hi Hu Hn Hpre. rewrite !parse_on_read.
  pose proof (nth_error_in _ _ _ Hi) as Hin.
  rewrite (phrase_normal r ph Hin Hu).
  destruct (phrase_shape r ph Hin Hu) as (Hl & Hf & Hla).
  assert (E : normal (pre ++ ph ++ post)
              = Str.lstrip (Str.lower pre) ++ ph ++ Str.rstrip (Str.lower post)).
  { unfold normal. rewrite (lower_app pre), (lower_app ph post), Hl.
    now apply strip_keeps. }
  rewrite E in *. apply (read_phrase today i r); try assumption.
  intros Hg. destruct (Hpre Hg) as [Hfd Hend].
  destruct (lstrip_suffix (Str.lower pre)) as [l El]. split.
  - rewrite El in Hfd. rewrite <- (append_nil_r (Str.lstrip (Str.lower pre))) in Hfd.
    exact (not_found_part r l _ "" Hfd).
  - rewrite <- ends_nondigit_lower in Hend. rewrite El in Hend.
    exact (ends_nondigit_suffix _ _ Hend).
Qed.

(* ================================================================== *)
(** ** The phrase a text is read by                                    *)
(* ================================================================== *)

(** What a search finds is the leftmost match. *)
Lemma search_from_leftmost r pos s m :
  Re.search_from r pos s = Some m ->
  exists a x,
    s = a ++ x
    /\ Re.match_here r (pos + String.length a) x = Some m
    /\ forall a1 a2,
         a = a1 ++ a2 -> a2 <> "" ->
         Re.match_here r (pos + String.length a1) (a2 ++ x) = None.
Proof.
  revert pos. induction s as [|c s IH]; intros pos; cbn [Re.search_from].
  - destruct (Re.match_here r pos "") eqn:E; [|discriminate].
    intros H. inversion H; subst. exists "", "". cbn [String.length append].
    rewrite Nat.add_0_r. repeat split; [exact E|].
    intros [|? ?] a2 Ha; [|discriminate]. cbn [append] in Ha. now subst a2.
  - destruct (Re.match_here r pos (String c s)) eqn:E.
    + intros H. inversion H; subst. exists "", (String c s).
      cbn [String.length append]. rewrite Nat.add_0_r. repeat split; [exact E|].
      intros [|? ?] a2 Ha; [|discriminate]. cbn [append] in Ha. now subst a2.
    + intros H. destruct (IH (S pos) H) as (a & x & -> & Hm & Hleft).
      exists (String c a), x. cbn [String.length append].
      rewrite Nat.add_succ_r. repeat split; [exact Hm|].
      intros [|c' a1] a2 Ha Hne; cbn [append] in Ha.
      * subst a2. cbn [String.length append]. now rewrite Nat.add_0_r.
      * inversion Ha; subst. cbn [String.length]. rewrite Nat.add_succ_r.
        now apply Hleft.
Qed.

Lemma not_left_none r pos a x :
  (forall p, Re.match_here r p "" = None) ->
  (forall a1 a2,
      a = a1 ++ a2 -> a2 <> "" ->
      Re.match_here r (pos + String.length a1) (a2 ++ x) = None) ->
  Re.search_from r pos a = None.
Proof.
  intros He. revert pos. induction a as [|c a IH]; intros pos Hleft;
    cbn [Re.search_from].
  - now rewrite He.
  - assert (E : Re.match_here r pos (String c a) = None).
    { destruct (Re.match_here r pos (String c a)) eqn:E; [|reflexivity].
      exfalso.
      apply (match_here_extend r pos (pos + String.length "") (String c a) x);
        [congruence|]. apply (Hleft "" (String c a)); [reflexivity | discriminate]. }
    rewrite E. apply IH. intros a1 a2 Ha Hne.
    specialize (Hleft (String c a1) a2). cbn [String.length append] in Hleft.
    rewrite Nat.add_succ_r in Hleft. apply Hleft; [now rewrite Ha | exact Hne].
Qed.

Lemma ends_digit_split a :
  ends_nondigit a = false ->
  exists a0 c, a = a0 ++ String c "" /\ Str.isdigit c = true.
Proof.
  induction a as [|c a IH]; [discriminate|].
  destruct a as [|d a].
  - simpl. intros H. apply negb_false_iff in H. now exists "", c.
  - intros H. destruct (IH H) as (a0 & e & E & He).
    exists (String c a0), e. cbn [append]. now rewrite E.
Qed.

(** A text in which a form is found holds a phrase of that form, placed
    as [phrase_found] asks. *)
Lemma found_phrase r s :
  In r phrase_forms -> found r s = true ->
  exists a u b,
    s = a ++ u ++ b /\ lang r u
    /\ (group_free r = false -> found r a = false /\ ends_nondigit a = true).
Proof.
  intros Hin Hf. apply found_search in Hf as [m Hs]. unfold Re.search in Hs.
  apply search_from_leftmost in Hs as (a & x & -> & Hm & Hleft).
  pose proof Hm as Hx. apply match_here_sound in Hx as (u & b & -> & Hu).
  exists a, u, b. repeat split; [exact Hu| |].
  - destruct (grouped_form r Hin H) as (unit & -> & Hd & Hl).
    unfold found, Re.search.
    rewrite (not_left_none (ago_pattern unit) 0 a (u ++ b)); [reflexivity| |exact Hleft].
    intros p. now apply match_here_nondigit.
  - destruct (grouped_form r Hin H) as (unit & -> & Hd & Hl).
    destruct (ends_nondigit a) eqn:E; [reflexivity|]. exfalso.
    apply ends_digit_split in E as (a0 & c & -> & Hc).
    apply lang_ago_pattern in Hu as (n & tl & -> & Hne & Hn & Ht).
    specialize (Hleft a0 (String c "") eq_refl ltac:(discriminate)).
    destruct (ago_match_at unit (0 + String.length a0) (String c n) tl b)
      as (m' & Hm' & _); [discriminate | simpl; now rewrite Hc, Hn | exact Ht |].
    cbn [append] in Hleft, Hm'. rewrite append_assoc in Hleft. congruence.
Qed.

Lemma read_none today s :
  none_found phrase_forms s = true -> read today s = Ok None.
Proof.
  unfold phrase_forms. rewrite none_found_app, none_found_weekdays.
  intros H. apply andb_true_iff in H as [Hw Hp].
  unfold read. rewrite (weekday_loop_miss today s _ Hw), pattern_loop_first.
  unfold none_found, time_patterns in Hp. cbn [map forallb fst] in Hp.
  unfold found in Hp. unfold time_patterns. cbn [first_pattern].
  repeat match goal with
         | |- context [Re.search ?p s] =>
             destruct (Re.search p s); [cbn in Hp; rewrite ?andb_false_r in Hp; discriminate|]
         end.
  reflexivity.
Qed.

(** Every text is read by a phrase it holds: one of the first form, in
    the order of priority, that is found in it; and a text in which no
    form is found is no date. *)
Lemma parse_leading_phrase today text :
  (none_found phrase_forms (normal text) = true ->
   parse_relative_date_on today text = Ok None)
  /\ (forall i r,
        nth_error phrase_forms i = Some r ->
        found r (normal text) = true ->
        none_found (firstn i phrase_forms) (normal text) = true ->
        exists a ph b,
          normal text = a ++ ph ++ b /\ lang r ph
          /\ parse_relative_date_on today text = parse_relative_date_on today ph).
Proof.
  split.
  - intros H. rewrite parse_on_read. now apply read_none.
  - intros i r Hi Hf Hn. pose proof (nth_error_in _ _ _ Hi) as Hin.
    destruct (found_phrase r _ Hin Hf) as (a & u & b & E & Hu & Hpre).
    exists a, u, b. split; [exact E|]. split; [exact Hu|].
    rewrite !parse_on_read, (phrase_normal r u Hin Hu), E.
    rewrite E in Hn. now apply (read_phrase today i r).
Qed.

(* ================================================================== *)
(** ** Statement about phrases inside a longer text                    *)
(* ================================================================== *)

(** C9, as the code has it.  A text that contains "last friday" between
    other words is read as "last monday" when it also names Monday, and a
    text that contains "3 days ago" as "5 days ago" when that comes first:
    the date is not the one of the phrase alone. *)
Lemma earlier_phrase_wins :
  snd (parse_relative_date "last monday or last friday"
         (sample_world monday_2024_06_10 []))
  = Ok (Some "2024-06-03")
  /\ snd (parse_relative_date "last friday" (sample_world monday_2024_06_10 []))
     = Ok (Some "2024-06-07")
  /\ snd (parse_relative_date "5 days ago, not 3 days ago"
            (sample_world monday_2024_06_10 []))
     = Ok (Some "2024-06-05")
  /\ snd (parse_relative_date "3 days ago" (sample_world monday_2024_06_10 []))
     = Ok (Some "2024-06-07")
  /\ snd (parse_relative_date ("last monday or " ++ "last friday" ++ "")
            (sample_world monday_2024_06_10 []))
     <> snd (parse_relative_date "last friday" (sample_world monday_2024_06_10 [])).
Proof.
  assert (E1 : snd (parse_relative_date "last monday or last friday"
                      (sample_world monday_2024_06_10 []))
               = Ok (Some "2024-06-03")) by (vm_compute; reflexivity).
  assert (E2 : snd (parse_relative_date "last friday"
                      (sample_world monday_2024_06_10 []))
               = Ok (Some "2024-06-07")) by (vm_compute; reflexivity).
  change ("last monday or " ++ "last friday" ++ "")
    with "last monday or last friday".
  rewrite E1, E2.
  repeat split; try (vm_compute; reflexivity). discriminate.
Qed.

(** C9 (amended).  Phrases are found by containment, anywhere in the
    text, and the answer is that of the phrase of highest priority, the
    forms of phrase being looked for in the order of [phrase_forms].
    - A text around a text the parser reads is never answered with
      [None].
    - A text around a phrase of one of the forms, in which no form of
      higher priority is found, is read as the phrase alone.  For a form
      with a number this holds for the first phrase of the form: the
      pattern is not found in the text before the phrase, and that text
      does not end with a digit (which would belong to the number).
    - Every text is read by a phrase it holds, one of the first form that
      is found in it; a text in which no form is found is answered with
      [None].
    - In particular, a text around "last <weekday>" that names no earlier
      weekday of the table after "last " is read as the phrase alone, and
      so is a text around "<n> <unit> ago" that holds no other digit and
      no "last <weekday>". *)
Theorem phrases_found_anywhere (w : World) (pre post : string) :
  (forall ph,
      snd (parse_relative_date ph w) <> Ok None ->
      snd (parse_relative_date (pre ++ ph ++ post) w) <> Ok None)
  /\ (forall i r ph,
        nth_error phrase_forms i = Some r -> lang r ph ->
        none_found (firstn i phrase_forms) (normal (pre ++ ph ++ post)) = true ->
        (group_free r = false ->
         found r (Str.lower pre) = false /\ ends_nondigit pre = true) ->
        parse_relative_date (pre ++ ph ++ post) w = parse_relative_date ph w)
  /\ (forall text,
        (none_found phrase_forms (normal text) = true ->
         parse_relative_date text w = ([EvNow], Ok None))
        /\ (forall i r,
              nth_error phrase_forms i = Some r ->
              found r (normal text) = true ->
              none_found (firstn i phrase_forms) (normal text) = true ->
              exists a ph b,
                normal text = a ++ ph ++ b /\ lang r ph
                /\ parse_relative_date text w = parse_relative_date ph w))
  /\ (forall day_name day_num,
        In (day_name, day_num) days_of_week ->
        (forall d n, In (d, n) days_of_week -> n < day_num ->
           Str.contains ("last " ++ d)
             (Str.lower (pre ++ ("last " ++ day_name) ++ post)) = false) ->
        parse_relative_date (pre ++ ("last " ++ day_name) ++ post) w
        = parse_relative_date ("last " ++ day_name) w)
  /\ (forall unit tag n,
        In (unit, tag) ago_units -> n <> "" -> all_digits n = true ->
        no_digit pre = true -> no_digit post = true ->
        no_weekday_phrase
          (Str.lower (pre ++ (n ++ " " ++ unit ++ " ago") ++ post)) = true ->
        parse_relative_date (pre ++ (n ++ " " ++ unit ++ " ago") ++ post) w
        = parse_relative_date (n ++ " " ++ unit ++ " ago") w).
Proof.
  split; [|split; [|split; [|split]]].
  - intros ph. rewrite !parse_relative_date_run. cbn [snd].
    apply parse_context.
  - intros i r ph Hi Hu Hn Hpre. rewrite !parse_relative_date_run.
    now rewrite (parse_phrase_context (clock w) i r pre ph post Hi Hu Hn Hpre).
  - intros text. destruct (parse_leading_phrase (clock w) text) as [Hnone Hsome].
    split.
    + intros H. rewrite parse_relative_date_run. now rewrite (Hnone H).
    + intros i r Hi Hf Hn.
      destruct (Hsome i r Hi Hf Hn) as (a & ph & b & E & Hu & Hp).
      exists a, ph, b. split; [exact E|]. split; [exact Hu|].
      rewrite !parse_relative_date_run. now rewrite Hp.
  - intros day_name day_num Hin Hearlier. rewrite !parse_relative_date_run.
    now rewrite (parse_last_weekday_context _ _ _ pre post Hin Hearlier).
  - intros unit tag n Hin Hne Hn Hpre Hpost Hw. rewrite !parse_relative_date_run.
    now rewrite (parse_ago_context _ unit tag n pre post Hin Hne Hn Hpre Hpost Hw).
Qed.

Lemma phrases_found_anywhere_witness :
  parse_relative_date ("my order from " ++ ("last " ++ "friday") ++ ", please")
    (sample_world monday_2024_06_10 [])
  = parse_relative_date ("last " ++ "friday") (sample_world monday_2024_06_10 [])
  /\ parse_relative_date ("it shipped " ++ ("3" ++ " " ++ "days" ++ " ago") ++ ", I think")
       (sample_world monday_2024_06_10 [])
     = parse_relative_date ("3" ++ " " ++ "days" ++ " ago")
         (sample_world monday_2024_06_10 [])
  /\ parse_relative_date ("my 2 phones ordered " ++ "3 days ago" ++ "")
       (sample_world monday_2024_06_10 [])
     = parse_relative_date "3 days ago" (sample_world monday_2024_06_10 [])
  /\ parse_relative_date ("1 week ago or " ++ "2 days ago" ++ ", I think")
       (sample_world monday_2024_06_10 [])
     = parse_relative_date "2 days ago" (sample_world monday_2024_06_10 [])
  /\ parse_relative_date ("Was it " ++ "yesterday" ++ " or last week?")
       (sample_world monday_2024_06_10 [])
     = parse_relative_date "yesterday" (sample_world monday_2024_06_10 []).
Proof.
  split; [|split; [|split; [|split]]].
  - destruct (phrases_found_anywhere (sample_world monday_2024_06_10 [])
                "my order from " ", please") as (_ & _ & _ & Hday & _).
    apply (Hday "friday" 4).
    + simpl. tauto.
    + intros d n Hin Hlt. simpl in Hin.
      repeat (destruct Hin as [Hin|Hin];
              [inversion Hin; subst; first [reflexivity | lia]|]).
      contradiction.
  - destruct (phrases_found_anywhere (sample_world monday_2024_06_10 [])
                "it shipped " ", I think") as (_ & _ & _ & _ & Hago).
    apply (Hago "days" "days" "3").
    + simpl. tauto.
    + discriminate.
    + reflexivity.
    + reflexivity.
    + reflexivity.
    + reflexivity.
  - destruct (phrases_found_anywhere (sample_world monday_2024_06_10 [])
                "my 2 phones ordered " "") as (_ & Hform & _).
    apply (Hform 7%nat (ago_pattern "day")).
    + reflexivity.
    + apply lang_ago_pattern. exists "3", " days ago".
      repeat split; try discriminate. apply lang_ago_tail.
      exists " ", "s", " ". repeat split; try discriminate. now right.
    + vm_compute. reflexivity.
    + intros _. split; vm_compute; reflexivity.
  - destruct (phrases_found_anywhere (sample_world monday_2024_06_10 [])
                "1 week ago or " ", I think") as (_ & Hform & _).
    apply (Hform 7%nat (ago_pattern "day")).
    + reflexivity.
    + apply lang_ago_pattern. exists "2", " days ago".
      repeat split; try discriminate. apply lang_ago_tail.
      exists " ", "s", " ". repeat split; try discriminate. now right.
    + vm_compute. reflexivity.
    + intros _. split; vm_compute; reflexivity.
  - destruct (phrases_found_anywhere (sample_world monday_2024_06_10 [])
                "Was it " " or last week?") as (_ & Hform & _).
    apply (Hform 10%nat (Re.Lit "yesterday")).
    + reflexivity.
    + reflexivity.
    + vm_compute. reflexivity.
    + discriminate.
Defined.
